(** * BilibiliLiveMonitor: a shallow embedding of [main.py]

    The plugin keeps one in-memory table shared by two entry points: the
    background [monitor_task] loop, which polls every configured room and
    queues a notification on each status change, and the [on_group_message]
    handler, which answers the [liveinfo] commands and flushes the queue of
    the group the message came from.

    Python objects become Rocq data: the two dicts of the plugin are [gmap]s
    keyed by Python values, the dicts stored in them are records, coroutines
    are computations in a state-and-exception monad, and every answer of the
    outside world (HTTP replies, the clock) is an explicit argument.

    Scope of the embedding.  Both entry points run on one asyncio event loop;
    a turn of the monitor loop and the handling of one chat event are each
    taken as one step.  Ids are strings or integers, JSON numbers are
    integers, text is what UTF-8 can encode, floats are binary64, the host
    runs CPython 3.11 on glibc with its clock on UTC, and the polling interval
    is a number, so that [asyncio.sleep] only lets time pass. *)

From Stdlib Require Import ZArith Ascii String List Lia.
From stdpp Require Import base option list strings pretty gmap.

Local Open Scope string_scope.
Local Open Scope list_scope.
Local Open Scope Z_scope.

(** ** Python values used as ids and dict keys *)

(** Ids come from the JSON configuration and from the chat framework: they
    are strings or integers (or [None] when an event has no group).  Two
    values of different types are different dict keys, as in Python. *)
Inductive pyval : Type :=
  | PNone
  | PStr (s : string)
  | PInt (z : Z).

#[global] Instance pyval_eq_dec : EqDecision pyval.
Proof. solve_decision. Defined.

#[global] Instance pyval_countable : Countable pyval.
Proof.
  refine (inj_countable'
    (fun v => match v with
              | PNone => inl tt
              | PStr s => inr (inl s)
              | PInt z => inr (inr z)
              end)
    (fun x => match x with
              | inl _ => PNone
              | inr (inl s) => PStr s
              | inr (inr z) => PInt z
              end) _).
  by intros [].
Defined.

(** [str(v)] *)
Definition py_str (v : pyval) : string :=
  match v with
  | PNone => "None"
  | PStr s => s
  | PInt z => pretty z
  end.

(** Truth value of [v], as tested by [if not v]. *)
Definition py_truthy (v : pyval) : bool :=
  match v with
  | PNone => false
  | PStr s => negb (bool_decide (s = EmptyString))
  | PInt z => negb (bool_decide (z = 0))
  end.

(** Truth value of a string, as tested by [if room_id:]. *)
Definition str_truthy (s : string) : bool :=
  negb (bool_decide (s = EmptyString)).

(** ** Text

    Text is a byte string, the UTF-8 encoding of the Python [str]; a
    character is the group of bytes that encodes one code point.  The
    methods below are Python's [str.strip], [str.lower], [str.isdigit],
    [str.startswith] and slicing, with the character tables of Unicode 14.0
    (CPython 3.11). *)

Definition LF : string := String "010"%char EmptyString.

(** Text all of whose characters are below U+0080. *)
Definition is_ascii_text (s : string) : bool :=
  forallb (fun c => (nat_of_ascii c <? 128)%nat) (list_ascii_of_string s).

Definition byte_value (b : ascii) : Z := Z.of_nat (nat_of_ascii b).
Definition byte_of (z : Z) : ascii := ascii_of_nat (Z.to_nat z).

(** Number of bytes of the character that starts with the byte [b]. *)
Definition utf8_width (b : ascii) : nat :=
  let n := byte_value b in
  if n <? 192 then 1 else if n <? 224 then 2 else if n <? 240 then 3 else 4.

(** The characters of a text, each as its group of bytes. *)
Fixpoint utf8_chars (s : string) : list string :=
  match s with
  | EmptyString => []
  | String b1 s1 =>
      match utf8_width b1 with
      | 2%nat =>
          match s1 with
          | String b2 s2 => String b1 (String b2 EmptyString) :: utf8_chars s2
          | _ => String b1 EmptyString :: utf8_chars s1
          end
      | 3%nat =>
          match s1 with
          | String b2 (String b3 s3) =>
              String b1 (String b2 (String b3 EmptyString)) :: utf8_chars s3
          | _ => String b1 EmptyString :: utf8_chars s1
          end
      | 4%nat =>
          match s1 with
          | String b2 (String b3 (String b4 s4)) =>
              String b1 (String b2 (String b3 (String b4 EmptyString)))
              :: utf8_chars s4
          | _ => String b1 EmptyString :: utf8_chars s1
          end
      | _ => String b1 EmptyString :: utf8_chars s1
      end
  end.

(** The code point that a group of bytes encodes; bytes that encode none
    (they do not occur in the encoding of a [str]) give -1. *)
Definition code_point (c : string) : Z :=
  match byte_value <$> list_ascii_of_string c with
  | [b1] => if b1 <? 128 then b1 else -1
  | [b1; b2] => (b1 - 192) * 64 + (b2 - 128)
  | [b1; b2; b3] => (b1 - 224) * 4096 + (b2 - 128) * 64 + (b3 - 128)
  | [b1; b2; b3; b4] =>
      (b1 - 240) * 262144 + (b2 - 128) * 4096 + (b3 - 128) * 64 + (b4 - 128)
  | _ => -1
  end.

(** The bytes that encode a code point. *)
Definition utf8_encode (z : Z) : string :=
  string_of_list_ascii (byte_of <$>
    (if z <? 128 then [z]
     else if z <? 2048 then [192 + z / 64; 128 + z mod 64]
     else if z <? 65536
          then [224 + z / 4096; 128 + z / 64 mod 64; 128 + z mod 64]
          else [240 + z / 262144; 128 + z / 4096 mod 64;
                128 + z / 64 mod 64; 128 + z mod 64])).

(** A text as the list of its code points, and back. *)
Definition code_points (s : string) : list Z := code_point <$> utf8_chars s.

Fixpoint text_of (l : list Z) : string :=
  match l with
  | [] => EmptyString
  | z :: l' => utf8_encode z +:+ text_of l'
  end.

Definition in_ranges (z : Z) (ranges : list (Z * Z)) : bool :=
  existsb (fun r => (r.1 <=? z) && (z <=? r.2)) ranges.

(** The characters that [str.strip] removes: those of [str.isspace]. *)
Definition whitespace : list (Z * Z) :=
  [(9, 13); (28, 32); (133, 133); (160, 160); (5760, 5760); (8192, 8202);
   (8232, 8233); (8239, 8239); (8287, 8287); (12288, 12288)].

(** The characters of [str.isdigit]: Numeric_Type Decimal or Digit. *)
Definition digits : list (Z * Z) :=
  [(48, 57); (178, 179); (185, 185); (1632, 1641); (1776, 1785);
   (1984, 1993); (2406, 2415); (2534, 2543); (2662, 2671); (2790, 2799);
   (2918, 2927); (3046, 3055); (3174, 3183); (3302, 3311); (3430, 3439);
   (3558, 3567); (3664, 3673); (3792, 3801); (3872, 3881); (4160, 4169);
   (4240, 4249); (4969, 4977); (6112, 6121); (6160, 6169); (6470, 6479);
   (6608, 6618); (6784, 6793); (6800, 6809); (6992, 7001); (7088, 7097);
   (7232, 7241); (7248, 7257); (8304, 8304); (8308, 8313); (8320, 8329);
   (9312, 9320); (9332, 9340); (9352, 9360); (9450, 9450); (9461, 9469);
   (9471, 9471); (10102, 10110); (10112, 10120); (10122, 10130);
   (42528, 42537); (43216, 43225); (43264, 43273); (43472, 43481);
   (43504, 43513); (43600, 43609); (44016, 44025); (65296, 65305);
   (66720, 66729); (68160, 68163); (68912, 68921); (69216, 69224);
   (69714, 69722); (69734, 69743); (69872, 69881); (69942, 69951);
   (70096, 70105); (70384, 70393); (70736, 70745); (70864, 70873);
   (71248, 71257); (71360, 71369); (71472, 71481); (71904, 71913);
   (72016, 72025); (72784, 72793); (73040, 73049); (73120, 73129);
   (92768, 92777); (92864, 92873); (93008, 93017); (120782, 120831);
   (123200, 123209); (123632, 123641); (125264, 125273); (127232, 127242);
   (130032, 130041)].

(** The cased characters that are not case-ignorable, and the case-ignorable
    ones: what the rule for the final sigma asks about. *)
Definition cased : list (Z * Z) :=
  [(65, 90); (97, 122); (170, 170); (181, 181); (186, 186); (192, 214);
   (216, 246); (248, 442); (444, 447); (452, 659); (661, 687); (880, 883);
   (886, 887); (891, 893); (895, 895); (902, 902); (904, 906); (908, 908);
   (910, 929); (931, 1013); (1015, 1153); (1162, 1327); (1329, 1366);
   (1376, 1416); (4256, 4293); (4295, 4295); (4301, 4301); (4304, 4346);
   (4349, 4351); (5024, 5109); (5112, 5117); (7296, 7304); (7312, 7354);
   (7357, 7359); (7424, 7467); (7531, 7543); (7545, 7578); (7680, 7957);
   (7960, 7965); (7968, 8005); (8008, 8013); (8016, 8023); (8025, 8025);
   (8027, 8027); (8029, 8029); (8031, 8061); (8064, 8116); (8118, 8124);
   (8126, 8126); (8130, 8132); (8134, 8140); (8144, 8147); (8150, 8155);
   (8160, 8172); (8178, 8180); (8182, 8188); (8450, 8450); (8455, 8455);
   (8458, 8467); (8469, 8469); (8473, 8477); (8484, 8484); (8486, 8486);
   (8488, 8488); (8490, 8493); (8495, 8500); (8505, 8505); (8508, 8511);
   (8517, 8521); (8526, 8526); (8544, 8575); (8579, 8580); (9398, 9449);
   (11264, 11387); (11390, 11492); (11499, 11502); (11506, 11507);
   (11520, 11557); (11559, 11559); (11565, 11565); (42560, 42605);
   (42624, 42651); (42786, 42863); (42865, 42887); (42891, 42894);
   (42896, 42954); (42960, 42961); (42963, 42963); (42965, 42969);
   (42997, 42998); (43002, 43002); (43824, 43866); (43872, 43880);
   (43888, 43967); (64256, 64262); (64275, 64279); (65313, 65338);
   (65345, 65370); (66560, 66639); (66736, 66771); (66776, 66811);
   (66928, 66938); (66940, 66954); (66956, 66962); (66964, 66965);
   (66967, 66977); (66979, 66993); (66995, 67001); (67003, 67004);
   (68736, 68786); (68800, 68850); (71840, 71903); (93760, 93823);
   (119808, 119892); (119894, 119964); (119966, 119967); (119970, 119970);
   (119973, 119974); (119977, 119980); (119982, 119993); (119995, 119995);
   (119997, 120003); (120005, 120069); (120071, 120074); (120077, 120084);
   (120086, 120092); (120094, 120121); (120123, 120126); (120128, 120132);
   (120134, 120134); (120138, 120144); (120146, 120485); (120488, 120512);
   (120514, 120538); (120540, 120570); (120572, 120596); (120598, 120628);
   (120630, 120654); (120656, 120686); (120688, 120712); (120714, 120744);
   (120746, 120770); (120772, 120779); (122624, 122633); (122635, 122654);
   (125184, 125251); (127280, 127305); (127312, 127337); (127344, 127369)].

Definition case_ignorable : list (Z * Z) :=
  [(39, 39); (46, 46); (58, 58); (94, 94); (96, 96); (168, 168); (173, 173);
   (175, 175); (180, 180); (183, 184); (688, 879); (884, 885); (890, 890);
   (900, 901); (903, 903); (1155, 1161); (1369, 1369); (1375, 1375);
   (1425, 1469); (1471, 1471); (1473, 1474); (1476, 1477); (1479, 1479);
   (1524, 1524); (1536, 1541); (1552, 1562); (1564, 1564); (1600, 1600);
   (1611, 1631); (1648, 1648); (1750, 1757); (1759, 1768); (1770, 1773);
   (1807, 1807); (1809, 1809); (1840, 1866); (1958, 1968); (2027, 2037);
   (2042, 2042); (2045, 2045); (2070, 2093); (2137, 2139); (2184, 2184);
   (2192, 2193); (2200, 2207); (2249, 2306); (2362, 2362); (2364, 2364);
   (2369, 2376); (2381, 2381); (2385, 2391); (2402, 2403); (2417, 2417);
   (2433, 2433); (2492, 2492); (2497, 2500); (2509, 2509); (2530, 2531);
   (2558, 2558); (2561, 2562); (2620, 2620); (2625, 2626); (2631, 2632);
   (2635, 2637); (2641, 2641); (2672, 2673); (2677, 2677); (2689, 2690);
   (2748, 2748); (2753, 2757); (2759, 2760); (2765, 2765); (2786, 2787);
   (2810, 2815); (2817, 2817); (2876, 2876); (2879, 2879); (2881, 2884);
   (2893, 2893); (2901, 2902); (2914, 2915); (2946, 2946); (3008, 3008);
   (3021, 3021); (3072, 3072); (3076, 3076); (3132, 3132); (3134, 3136);
   (3142, 3144); (3146, 3149); (3157, 3158); (3170, 3171); (3201, 3201);
   (3260, 3260); (3263, 3263); (3270, 3270); (3276, 3277); (3298, 3299);
   (3328, 3329); (3387, 3388); (3393, 3396); (3405, 3405); (3426, 3427);
   (3457, 3457); (3530, 3530); (3538, 3540); (3542, 3542); (3633, 3633);
   (3636, 3642); (3654, 3662); (3761, 3761); (3764, 3772); (3782, 3782);
   (3784, 3789); (3864, 3865); (3893, 3893); (3895, 3895); (3897, 3897);
   (3953, 3966); (3968, 3972); (3974, 3975); (3981, 3991); (3993, 4028);
   (4038, 4038); (4141, 4144); (4146, 4151); (4153, 4154); (4157, 4158);
   (4184, 4185); (4190, 4192); (4209, 4212); (4226, 4226); (4229, 4230);
   (4237, 4237); (4253, 4253); (4348, 4348); (4957, 4959); (5906, 5908);
   (5938, 5939); (5970, 5971); (6002, 6003); (6068, 6069); (6071, 6077);
   (6086, 6086); (6089, 6099); (6103, 6103); (6109, 6109); (6155, 6159);
   (6211, 6211); (6277, 6278); (6313, 6313); (6432, 6434); (6439, 6440);
   (6450, 6450); (6457, 6459); (6679, 6680); (6683, 6683); (6742, 6742);
   (6744, 6750); (6752, 6752); (6754, 6754); (6757, 6764); (6771, 6780);
   (6783, 6783); (6823, 6823); (6832, 6862); (6912, 6915); (6964, 6964);
   (6966, 6970); (6972, 6972); (6978, 6978); (7019, 7027); (7040, 7041);
   (7074, 7077); (7080, 7081); (7083, 7085); (7142, 7142); (7144, 7145);
   (7149, 7149); (7151, 7153); (7212, 7219); (7222, 7223); (7288, 7293);
   (7376, 7378); (7380, 7392); (7394, 7400); (7405, 7405); (7412, 7412);
   (7416, 7417); (7468, 7530); (7544, 7544); (7579, 7679); (8125, 8125);
   (8127, 8129); (8141, 8143); (8157, 8159); (8173, 8175); (8189, 8190);
   (8203, 8207); (8216, 8217); (8228, 8228); (8231, 8231); (8234, 8238);
   (8288, 8292); (8294, 8303); (8305, 8305); (8319, 8319); (8336, 8348);
   (8400, 8432); (11388, 11389); (11503, 11505); (11631, 11631);
   (11647, 11647); (11744, 11775); (11823, 11823); (12293, 12293);
   (12330, 12333); (12337, 12341); (12347, 12347); (12441, 12446);
   (12540, 12542); (40981, 40981); (42232, 42237); (42508, 42508);
   (42607, 42610); (42612, 42621); (42623, 42623); (42652, 42655);
   (42736, 42737); (42752, 42785); (42864, 42864); (42888, 42890);
   (42994, 42996); (43000, 43001); (43010, 43010); (43014, 43014);
   (43019, 43019); (43045, 43046); (43052, 43052); (43204, 43205);
   (43232, 43249); (43263, 43263); (43302, 43309); (43335, 43345);
   (43392, 43394); (43443, 43443); (43446, 43449); (43452, 43453);
   (43471, 43471); (43493, 43494); (43561, 43566); (43569, 43570);
   (43573, 43574); (43587, 43587); (43596, 43596); (43632, 43632);
   (43644, 43644); (43696, 43696); (43698, 43700); (43703, 43704);
   (43710, 43711); (43713, 43713); (43741, 43741); (43756, 43757);
   (43763, 43764); (43766, 43766); (43867, 43871); (43881, 43883);
   (44005, 44005); (44008, 44008); (44013, 44013); (64286, 64286);
   (64434, 64450); (65024, 65039); (65043, 65043); (65056, 65071);
   (65106, 65106); (65109, 65109); (65279, 65279); (65287, 65287);
   (65294, 65294); (65306, 65306); (65342, 65342); (65344, 65344);
   (65392, 65392); (65438, 65439); (65507, 65507); (65529, 65531);
   (66045, 66045); (66272, 66272); (66422, 66426); (67456, 67461);
   (67463, 67504); (67506, 67514); (68097, 68099); (68101, 68102);
   (68108, 68111); (68152, 68154); (68159, 68159); (68325, 68326);
   (68900, 68903); (69291, 69292); (69446, 69456); (69506, 69509);
   (69633, 69633); (69688, 69702); (69744, 69744); (69747, 69748);
   (69759, 69761); (69811, 69814); (69817, 69818); (69821, 69821);
   (69826, 69826); (69837, 69837); (69888, 69890); (69927, 69931);
   (69933, 69940); (70003, 70003); (70016, 70017); (70070, 70078);
   (70089, 70092); (70095, 70095); (70191, 70193); (70196, 70196);
   (70198, 70199); (70206, 70206); (70367, 70367); (70371, 70378);
   (70400, 70401); (70459, 70460); (70464, 70464); (70502, 70508);
   (70512, 70516); (70712, 70719); (70722, 70724); (70726, 70726);
   (70750, 70750); (70835, 70840); (70842, 70842); (70847, 70848);
   (70850, 70851); (71090, 71093); (71100, 71101); (71103, 71104);
   (71132, 71133); (71219, 71226); (71229, 71229); (71231, 71232);
   (71339, 71339); (71341, 71341); (71344, 71349); (71351, 71351);
   (71453, 71455); (71458, 71461); (71463, 71467); (71727, 71735);
   (71737, 71738); (71995, 71996); (71998, 71998); (72003, 72003);
   (72148, 72151); (72154, 72155); (72160, 72160); (72193, 72202);
   (72243, 72248); (72251, 72254); (72263, 72263); (72273, 72278);
   (72281, 72283); (72330, 72342); (72344, 72345); (72752, 72758);
   (72760, 72765); (72767, 72767); (72850, 72871); (72874, 72880);
   (72882, 72883); (72885, 72886); (73009, 73014); (73018, 73018);
   (73020, 73021); (73023, 73029); (73031, 73031); (73104, 73105);
   (73109, 73109); (73111, 73111); (73459, 73460); (78896, 78904);
   (92912, 92916); (92976, 92982); (92992, 92995); (94031, 94031);
   (94095, 94111); (94176, 94177); (94179, 94180); (110576, 110579);
   (110581, 110587); (110589, 110590); (113821, 113822); (113824, 113827);
   (118528, 118573); (118576, 118598); (119143, 119145); (119155, 119170);
   (119173, 119179); (119210, 119213); (119362, 119364); (121344, 121398);
   (121403, 121452); (121461, 121461); (121476, 121476); (121499, 121503);
   (121505, 121519); (122880, 122886); (122888, 122904); (122907, 122913);
   (122915, 122916); (122918, 122922); (123184, 123197); (123566, 123566);
   (123628, 123631); (125136, 125142); (125252, 125259); (127995, 127999);
   (917505, 917505); (917536, 917631); (917760, 917999)].

(** The characters that have a lower-case form of one character: every
    [step]-th code point from [first] to [last] maps to itself plus
    [offset]. *)
Definition lower_case : list (Z * Z * Z * Z) :=
  [(65, 90, 1, 32); (192, 214, 1, 32); (216, 222, 1, 32); (256, 302, 2, 1);
   (306, 310, 2, 1); (313, 327, 2, 1); (330, 374, 2, 1);
   (376, 376, 1, (-121)); (377, 381, 2, 1); (385, 385, 1, 210);
   (386, 388, 2, 1); (390, 390, 1, 206); (391, 391, 1, 1);
   (393, 394, 1, 205); (395, 395, 1, 1); (398, 398, 1, 79);
   (399, 399, 1, 202); (400, 400, 1, 203); (401, 401, 1, 1);
   (403, 403, 1, 205); (404, 404, 1, 207); (406, 406, 1, 211);
   (407, 407, 1, 209); (408, 408, 1, 1); (412, 412, 1, 211);
   (413, 413, 1, 213); (415, 415, 1, 214); (416, 420, 2, 1);
   (422, 422, 1, 218); (423, 423, 1, 1); (425, 425, 1, 218);
   (428, 428, 1, 1); (430, 430, 1, 218); (431, 431, 1, 1);
   (433, 434, 1, 217); (435, 437, 2, 1); (439, 439, 1, 219);
   (440, 440, 1, 1); (444, 444, 1, 1); (452, 452, 1, 2); (453, 453, 1, 1);
   (455, 455, 1, 2); (456, 456, 1, 1); (458, 458, 1, 2); (459, 475, 2, 1);
   (478, 494, 2, 1); (497, 497, 1, 2); (498, 500, 2, 1);
   (502, 502, 1, (-97)); (503, 503, 1, (-56)); (504, 542, 2, 1);
   (544, 544, 1, (-130)); (546, 562, 2, 1); (570, 570, 1, 10795);
   (571, 571, 1, 1); (573, 573, 1, (-163)); (574, 574, 1, 10792);
   (577, 577, 1, 1); (579, 579, 1, (-195)); (580, 580, 1, 69);
   (581, 581, 1, 71); (582, 590, 2, 1); (880, 882, 2, 1); (886, 886, 1, 1);
   (895, 895, 1, 116); (902, 902, 1, 38); (904, 906, 1, 37);
   (908, 908, 1, 64); (910, 911, 1, 63); (913, 929, 1, 32);
   (932, 939, 1, 32); (975, 975, 1, 8); (984, 1006, 2, 1);
   (1012, 1012, 1, (-60)); (1015, 1015, 1, 1); (1017, 1017, 1, (-7));
   (1018, 1018, 1, 1); (1021, 1023, 1, (-130)); (1024, 1039, 1, 80);
   (1040, 1071, 1, 32); (1120, 1152, 2, 1); (1162, 1214, 2, 1);
   (1216, 1216, 1, 15); (1217, 1229, 2, 1); (1232, 1326, 2, 1);
   (1329, 1366, 1, 48); (4256, 4293, 1, 7264); (4295, 4295, 1, 7264);
   (4301, 4301, 1, 7264); (5024, 5103, 1, 38864); (5104, 5109, 1, 8);
   (7312, 7354, 1, (-3008)); (7357, 7359, 1, (-3008)); (7680, 7828, 2, 1);
   (7838, 7838, 1, (-7615)); (7840, 7934, 2, 1); (7944, 7951, 1, (-8));
   (7960, 7965, 1, (-8)); (7976, 7983, 1, (-8)); (7992, 7999, 1, (-8));
   (8008, 8013, 1, (-8)); (8025, 8031, 2, (-8)); (8040, 8047, 1, (-8));
   (8072, 8079, 1, (-8)); (8088, 8095, 1, (-8)); (8104, 8111, 1, (-8));
   (8120, 8121, 1, (-8)); (8122, 8123, 1, (-74)); (8124, 8124, 1, (-9));
   (8136, 8139, 1, (-86)); (8140, 8140, 1, (-9)); (8152, 8153, 1, (-8));
   (8154, 8155, 1, (-100)); (8168, 8169, 1, (-8)); (8170, 8171, 1, (-112));
   (8172, 8172, 1, (-7)); (8184, 8185, 1, (-128)); (8186, 8187, 1, (-126));
   (8188, 8188, 1, (-9)); (8486, 8486, 1, (-7517)); (8490, 8490, 1, (-8383));
   (8491, 8491, 1, (-8262)); (8498, 8498, 1, 28); (8544, 8559, 1, 16);
   (8579, 8579, 1, 1); (9398, 9423, 1, 26); (11264, 11311, 1, 48);
   (11360, 11360, 1, 1); (11362, 11362, 1, (-10743));
   (11363, 11363, 1, (-3814)); (11364, 11364, 1, (-10727));
   (11367, 11371, 2, 1); (11373, 11373, 1, (-10780));
   (11374, 11374, 1, (-10749)); (11375, 11375, 1, (-10783));
   (11376, 11376, 1, (-10782)); (11378, 11378, 1, 1); (11381, 11381, 1, 1);
   (11390, 11391, 1, (-10815)); (11392, 11490, 2, 1); (11499, 11501, 2, 1);
   (11506, 11506, 1, 1); (42560, 42604, 2, 1); (42624, 42650, 2, 1);
   (42786, 42798, 2, 1); (42802, 42862, 2, 1); (42873, 42875, 2, 1);
   (42877, 42877, 1, (-35332)); (42878, 42886, 2, 1); (42891, 42891, 1, 1);
   (42893, 42893, 1, (-42280)); (42896, 42898, 2, 1); (42902, 42920, 2, 1);
   (42922, 42922, 1, (-42308)); (42923, 42923, 1, (-42319));
   (42924, 42924, 1, (-42315)); (42925, 42925, 1, (-42305));
   (42926, 42926, 1, (-42308)); (42928, 42928, 1, (-42258));
   (42929, 42929, 1, (-42282)); (42930, 42930, 1, (-42261));
   (42931, 42931, 1, 928); (42932, 42946, 2, 1); (42948, 42948, 1, (-48));
   (42949, 42949, 1, (-42307)); (42950, 42950, 1, (-35384));
   (42951, 42953, 2, 1); (42960, 42960, 1, 1); (42966, 42968, 2, 1);
   (42997, 42997, 1, 1); (65313, 65338, 1, 32); (66560, 66599, 1, 40);
   (66736, 66771, 1, 40); (66928, 66938, 1, 39); (66940, 66954, 1, 39);
   (66956, 66962, 1, 39); (66964, 66965, 1, 39); (68736, 68786, 1, 64);
   (71840, 71871, 1, 32); (93760, 93791, 1, 32); (125184, 125217, 1, 34)].

Definition is_space (z : Z) : bool := in_ranges z whitespace.
Definition is_digit (z : Z) : bool := in_ranges z digits.

(** The lower-case form of one character, out of context. *)
Definition lower_char (z : Z) : list Z :=
  if z =? 304 then [105; 775]
  else
    match List.find (fun r => let '(first, last, step, _) := r in
                              (first <=? z) && (z <=? last) &&
                              ((z - first) mod step =? 0)) lower_case with
    | Some (_, _, _, offset) => [z + offset]
    | None => [z]
    end.

Fixpoint skip_ignorable (l : list Z) : list Z :=
  match l with
  | z :: l' => if in_ranges z case_ignorable then skip_ignorable l' else l
  | [] => []
  end.

(** A capital sigma is final when a cased character comes before it and none
    comes after it, case-ignorable characters set aside; [before] holds the
    characters before it, nearest first. *)
Definition final_sigma (before after : list Z) : bool :=
  match skip_ignorable before with
  | z :: _ => in_ranges z cased
  | [] => false
  end &&
  match skip_ignorable after with
  | z :: _ => negb (in_ranges z cased)
  | [] => true
  end.

Fixpoint lower_chars (before l : list Z) : list Z :=
  match l with
  | [] => []
  | z :: l' =>
      (if z =? 931 then [if final_sigma before l' then 962 else 963]
       else lower_char z) ++ lower_chars (z :: before) l'
  end.

(** [s.lower()] *)
Definition py_lower (s : string) : string :=
  text_of (lower_chars [] (code_points s)).

Fixpoint lstrip_chars (l : list Z) : list Z :=
  match l with
  | z :: l' => if is_space z then lstrip_chars l' else l
  | [] => []
  end.

(** [s.strip()] *)
Definition py_strip (s : string) : string :=
  text_of (rev (lstrip_chars (rev (lstrip_chars (code_points s))))).

(** [s.isdigit()] *)
Definition py_isdigit (s : string) : bool :=
  match code_points s with
  | [] => false
  | l => forallb is_digit l
  end.

Definition startswith (s p : string) : bool := String.prefix p s.

(** [s[n:]] *)
Fixpoint slice_from (n : nat) (s : string) : string :=
  match n, s with
  | O, _ => s
  | S n', String _ s' => slice_from n' s'
  | S _, EmptyString => EmptyString
  end.

(** [sep.join(l)] *)
Fixpoint join (sep : string) (l : list string) : string :=
  match l with
  | [] => EmptyString
  | [x] => x
  | x :: l' => x +:+ sep +:+ join sep l'
  end.

(** ** Time

    A [datetime] is the number of microseconds between the epoch and the
    wall-clock instant it denotes; the host's zone is UTC, so that
    [datetime.fromtimestamp] only rescales, and the difference of two
    datetimes, a [timedelta], is the elapsed time in microseconds. *)
Abbreviation datetime := Z (only parsing).

Definition usec_per_sec : Z := 1000000.

(** *** Floats

    [timedelta.total_seconds()] returns a float and the two [divmod]s work on
    floats.  A finite binary64 number is an integer multiple of 2^-1074: it
    is represented by that integer, and an operation rounds its exact result
    to the nearest binary64 number, to the even one of two that are as near.
    The numbers of the program stay far from overflow. *)
Abbreviation binary64 := Z (only parsing).

(** 1.0 *)
Definition float_one : binary64 := 2 ^ 1074.

(** The integer nearest to [p / q], the even one of two that are as near
    ([q] is positive). *)
Definition round_half_even (p q : Z) : Z :=
  let m := p / q in
  let r := p mod q in
  if 2 * r <? q then m
  else if q <? 2 * r then m + 1
  else if Z.even m then m else m + 1.

(** The binary64 numbers around [p / q] are the multiples of 2 to this power:
    53 significant bits are kept, all of them below 2^53. *)
Definition ulp_exponent (p q : Z) : Z :=
  let a := Z.abs p in
  if a <? q * 2 ^ 53 then 0
  else
    let l := Z.log2 a - Z.log2 q in
    (if a <? q * 2 ^ l then l - 1 else l) - 52.

(** [p / q] rounded to binary64. *)
Definition round_float (p q : Z) : binary64 :=
  let s := ulp_exponent p q in
  round_half_even p (q * 2 ^ s) * 2 ^ s.

(** [float(n)], [x + y], [x - y], [x / y], [floor(x)], [fmod(x, y)] and
    [int(x)]; the last three are exact. *)
Definition float_of_int (n : Z) : binary64 := round_float (n * float_one) 1.
Definition float_add (x y : binary64) : binary64 := round_float (x + y) 1.
Definition float_sub (x y : binary64) : binary64 := round_float (x - y) 1.
Definition float_div (x y : binary64) : binary64 :=
  if 0 <? y then round_float (x * float_one) y
  else round_float (- x * float_one) (- y).
Definition float_floor (x : binary64) : binary64 := x / float_one * float_one.
Definition fmod (x y : binary64) : binary64 := Z.rem x y.
Definition int_of_float (x : binary64) : Z := Z.quot x float_one.

(** [divmod(vx, wx)] on floats, as CPython computes it: the remainder of
    [fmod] is given the sign of [wx], and the quotient is snapped to a whole
    number ([wx] is not zero). *)
Definition float_divmod (vx wx : binary64) : binary64 * binary64 :=
  let m := fmod vx wx in
  let div := float_div (float_sub vx m) wx in
  let '(m, div) :=
    if m =? 0 then (0, div)
    else if xorb (wx <? 0) (m <? 0)
         then (float_add m wx, float_sub div float_one)
         else (m, div) in
  let floordiv :=
    if div =? 0 then 0
    else
      let f := float_floor div in
      if float_one / 2 <? float_sub div f then float_add f float_one else f in
  (floordiv, m).

(** [duration.total_seconds()]: the microseconds divided by 10^6, rounded
    once. *)
Definition total_seconds (d : Z) : binary64 :=
  round_float (d * float_one) usec_per_sec.

(** [hours, remainder = divmod(duration.total_seconds(), 3600)] and
    [minutes, seconds = divmod(remainder, 60)], then [int(hours)],
    [int(minutes)] and [int(seconds)]. *)
Definition hms (d : Z) : Z * Z * Z :=
  let '(hours, remainder) :=
    float_divmod (total_seconds d) (float_of_int 3600) in
  let '(minutes, seconds) := float_divmod remainder (float_of_int 60) in
  (int_of_float hours, int_of_float minutes, int_of_float seconds).

Definition duration_hours (d : Z) : Z := (hms d).1.1.
Definition duration_minutes (d : Z) : Z := (hms d).1.2.
Definition duration_seconds (d : Z) : Z := (hms d).2.

(** 2^33 seconds, some 272 years, in microseconds: a shorter duration is cut
    into hours, minutes and seconds exactly, a longer one can come out
    rounded to the next second. *)
Definition exact_span : Z := 2 ^ 33 * usec_per_sec.

(** Civil date of a day number counted from 1970-01-01. *)
Definition civil_from_days (days : Z) : Z * Z * Z :=
  let z := days + 719468 in
  let era := z / 146097 in
  let doe := z - era * 146097 in
  let yoe := (doe - doe / 1460 + doe / 36524 - doe / 146096) / 365 in
  let doy := doe - (365 * yoe + yoe / 4 - yoe / 100) in
  let mp := (5 * doy + 2) / 153 in
  let d := doy - (153 * mp + 2) / 5 + 1 in
  let m := if mp <? 10 then mp + 3 else mp - 9 in
  let y := yoe + era * 400 + (if m <=? 2 then 1 else 0) in
  (y, m, d).

Definition pad2 (n : Z) : string :=
  if n <? 10 then "0" +:+ pretty n else pretty n.

(** [t.strftime('%Y-%m-%d %H:%M:%S')]; glibc writes the year without
    padding. *)
Definition strftime (t : datetime) : string :=
  let secs := t / usec_per_sec in
  let '(y, m, d) := civil_from_days (secs / 86400) in
  let sod := secs mod 86400 in
  pretty y +:+ "-" +:+ pad2 m +:+ "-" +:+ pad2 d +:+ " " +:+
  pad2 (sod / 3600) +:+ ":" +:+ pad2 ((sod mod 3600) / 60) +:+ ":" +:+
  pad2 (sod mod 60).

(** ** Exceptions and the log *)

(** The exceptions the code can meet, all of them subclasses of [Exception].
    Cancellation of the task is the shutdown of the plugin and is outside
    the embedding. *)

Inductive exn : Type :=
  | RequestError (reason : string)   (* raised by the HTTP client, the JSON decoder or the reading of a reply *)
  | KeyError (key : string)          (* [d[key]] on an object without that key *)
  | TypeError                        (* [d[key]] on what is not an object, [fromtimestamp] of what is not a number *)
  | ValueError                       (* [fromtimestamp]: the year is out of range *)
  | OSError                          (* [fromtimestamp]: the C library cannot convert the time *)
  | OverflowError.                   (* [fromtimestamp]: the number does not fit the platform's time type *)

(** One constructor per [logger] call of the source, carrying the values its
    f-string interpolates. *)
Inductive log_entry : Type :=
  | LogCheckFailed (room_id : pyval) (e : exn)
  | LogAnchorFailed (room_id : pyval) (e : exn)
  | LogInit (room_id : pyval) (anchor_name : string) (live : bool)
  | LogChange (room_id : pyval) (groups : nat) (message : string)
  | LogMonitorError (e : exn).

(** Earliest and latest POSIX timestamps that [datetime.fromtimestamp]
    converts: the years 1 to 9999, less the first day, because the
    conversion also looks at the local time one day earlier. *)
Definition min_timestamp : Z := -62135510400.
Definition max_timestamp : Z := 253402300799.

(** Earliest and latest POSIX timestamps that the C library's [localtime]
    converts: outside them the year does not fit its 32-bit field. *)
Definition min_localtime : Z := -67768040609740800.
Definition max_localtime : Z := 67768036191676799.

(** [datetime.fromtimestamp(v)] for a JSON value [v]; the platform's time
    type has 64 bits. *)
Definition fromtimestamp (v : pyval) : exn + datetime :=
  match v with
  | PInt z =>
      if (z <? - 2 ^ 63) || (2 ^ 63 <=? z) then inl OverflowError
      else if (z <? min_localtime) || (max_localtime <? z) then inl OSError
      else if (z <? min_timestamp) || (max_timestamp <? z) then inl ValueError
      else inr (z * usec_per_sec)
  | _ => inl TypeError
  end.

(** ** Data model *)

(** An entry of [monitor_list]; [anchor_name] is read with
    [room_config.get('anchor_name', ...)], so it may be absent. *)
Module RoomConfig.
Record t : Type := mk { room_id : pyval; anchor_name : option string }.
End RoomConfig.

(** A value of the [room_status] dict. *)
Module RoomStatus.
Record t : Type := mk {
  last_status : Z;
  live_start_time : option datetime;
  anchor_name : string
}.
End RoomStatus.

(** The [data] member of a room-status reply: a JSON object, of which the
    program reads the members [live_status] (a number) and [live_time]
    ([None] when the object has no such key), or a value that is not an
    object (null, a number, a string, a list), which no key can subscript. *)
Module Payload.
Inductive t : Type :=
  | NotAnObject
  | mk (live_status : option Z) (live_time : option pyval).

Definition live_status (data : t) : option Z :=
  match data with
  | mk status _ => status
  | NotAnObject => None
  end.

Definition live_time (data : t) : option pyval :=
  match data with
  | mk _ time => time
  | NotAnObject => None
  end.
End Payload.

(** The dict returned by [check_live_status]. *)
Module Result.
Record t : Type := mk { room_id : pyval; data : Payload.t; check_time : datetime }.
End Result.

(** The dict returned by [get_anchor_info]. *)
Module AnchorInfo.
Record t : Type := mk { name : string; title : string }.
End AnchorInfo.

(** What the handler reads from an [AstrMessageEvent]. *)
Module Event.
Record t : Type := mk { group_id : pyval; message_str : string }.
End Event.

(** Outcome of [session.get(url)], [resp.json()] and the reading of the
    reply: either a step raised (time-out, connection error, no session yet,
    invalid JSON, a reply of another shape than the one read), or a JSON
    object arrived, with its [code] member ([None] when absent) and what the
    caller reads next: the [data] member of a status reply, the name and
    title of an anchor reply ([None] when the object has no [data]
    member). *)
Inductive http_reply (A : Type) : Type :=
  | HttpRaise (e : exn)
  | HttpJson (code : option Z) (body : option A).
Arguments HttpRaise {A} e.
Arguments HttpJson {A} code body.

(** What the outside world answers while one room is handled: the reply to
    the status request and the clock when it arrived, the reply to the
    anchor-info request, and the clock read by [datetime.now()] when a
    duration is computed. *)
Record room_io : Type := RoomIO {
  status_reply : http_reply Payload.t;
  fetched_at : datetime;
  anchor_reply : http_reply AnchorInfo.t;
  now : datetime
}.

(** The attributes of the [BilibiliLiveMonitor] instance, and the log. *)
Record plugin : Type := Plugin {
  monitor_list : list RoomConfig.t;
  white_list_groups : list pyval;
  room_status : gmap pyval RoomStatus.t;
  pending_notifications : gmap pyval (list string);
  logger : list log_entry
}.

Definition set_monitor_list (f : list RoomConfig.t -> list RoomConfig.t)
    (self : plugin) : plugin :=
  Plugin (f (monitor_list self)) (white_list_groups self) (room_status self)
         (pending_notifications self) (logger self).

Definition set_room_status
    (f : gmap pyval RoomStatus.t -> gmap pyval RoomStatus.t)
    (self : plugin) : plugin :=
  Plugin (monitor_list self) (white_list_groups self) (f (room_status self))
         (pending_notifications self) (logger self).

Definition set_pending_notifications
    (f : gmap pyval (list string) -> gmap pyval (list string))
    (self : plugin) : plugin :=
  Plugin (monitor_list self) (white_list_groups self) (room_status self)
         (f (pending_notifications self)) (logger self).

Definition set_logger (f : list log_entry -> list log_entry)
    (self : plugin) : plugin :=
  Plugin (monitor_list self) (white_list_groups self) (room_status self)
         (pending_notifications self) (f (logger self)).

(** ** Coroutines as state-and-exception computations *)

Inductive outcome (A : Type) : Type :=
  | Return (a : A)
  | Raise (e : exn).
Arguments Return {A} a.
Arguments Raise {A} e.

Definition M (A : Type) : Type := plugin -> outcome A * plugin.

#[global] Instance M_ret : MRet M := fun A a self => (Return a, self).

#[global] Instance M_bind : MBind M := fun A B k m self =>
  match m self with
  | (Return a, self') => k a self'
  | (Raise e, self') => (Raise e, self')
  end.

Definition get : M plugin := fun self => (Return self, self).

Definition modify (f : plugin -> plugin) : M unit :=
  fun self => (Return tt, f self).

Definition raise {A : Type} (e : exn) : M A := fun self => (Raise e, self).

(** [try: body except Exception as e: handler(e)] *)
Definition try_except {A : Type} (body : M A) (handler : exn -> M A) : M A :=
  fun self =>
    match body self with
    | (Return a, self') => (Return a, self')
    | (Raise e, self') => handler e self'
    end.

Definition log (entry : log_entry) : M unit :=
  modify (set_logger (fun l => l ++ [entry])).

(** [d[key]] on a JSON object whose member [key] is [v]. *)
Definition getitem {A : Type} (key : string) (v : option A) : M A :=
  match v with
  | Some a => mret a
  | None => raise (KeyError key)
  end.

(** What [data[key]] raises when it gives no value. *)
Definition subscript_error (data : Payload.t) (key : string) : exn :=
  match data with
  | Payload.NotAnObject => TypeError
  | Payload.mk _ _ => KeyError key
  end.

(** [data[key]] on the payload of a status reply, [member] being the
    projection that goes with [key]. *)
Definition subscript {A : Type} (data : Payload.t) (key : string)
    (member : Payload.t -> option A) : M A :=
  match data with
  | Payload.NotAnObject => raise TypeError
  | Payload.mk _ _ => getitem key (member data)
  end.

Definition lift {A : Type} (r : exn + A) : M A :=
  match r with
  | inr a => mret a
  | inl e => raise e
  end.

(** [for x in l: body(x)]; a [continue] is an early [mret tt] in [body]. *)
Fixpoint for_each {A : Type} (l : list A) (body : A -> M unit) : M unit :=
  match l with
  | [] => mret tt
  | x :: l' => body x ;; for_each l' body
  end.

(** [await asyncio.sleep(...)]: time passes, the state does not change. *)
Definition sleep : M unit := mret tt.

(** ** The plugin's methods *)

Definition status_text_of (live : bool) (yes no : string) : string :=
  if live then yes else no.

(** [check_live_status(room_id)] *)
Definition check_live_status (room_id : pyval) (io : room_io)
    : M (option Result.t) :=
  try_except
    (match status_reply io with
     | HttpRaise e => raise e
     | HttpJson code body =>
         if bool_decide (code = Some 0) then
           d ← getitem "data" body;
           mret (Some (Result.mk room_id d (fetched_at io)))
         else mret None
     end)
    (fun e => log (LogCheckFailed room_id e) ;; mret None).

(** [get_anchor_info(room_id)] *)
Definition get_anchor_info (room_id : pyval) (io : room_io)
    : M AnchorInfo.t :=
  try_except
    (match anchor_reply io with
     | HttpRaise e => raise e
     | HttpJson code body =>
         c ← getitem "code" code;
         if bool_decide (c = 0) then getitem "data" body
         else mret (AnchorInfo.mk ("主播" +:+ py_str room_id) "未知标题")
     end)
    (fun e => log (LogAnchorFailed room_id e) ;;
              mret (AnchorInfo.mk ("主播" +:+ py_str room_id) "未知标题")).

(** [is_group_in_white_list(group_id)] *)
Definition is_group_in_white_list (self : plugin) (group_id : pyval) : bool :=
  if negb (py_truthy group_id) then false
  else bool_decide (py_str group_id ∈ py_str <$> white_list_groups self).

(** [next((r for r in self.monitor_list if r['room_id'] == room_id), None)] *)
Definition find_room_config (self : plugin) (room_id : pyval)
    : option RoomConfig.t :=
  List.find (fun r => bool_decide (RoomConfig.room_id r = room_id))
            (monitor_list self).

(** [room_config['anchor_name'] = name], where [room_config] is the first
    entry of [monitor_list] with this [room_id]: the dict is shared with the
    list, so the list sees the update. *)
Fixpoint rename_first (room_id : pyval) (name : string)
    (l : list RoomConfig.t) : list RoomConfig.t :=
  match l with
  | [] => []
  | r :: l' =>
      if bool_decide (RoomConfig.room_id r = room_id)
      then RoomConfig.mk (RoomConfig.room_id r) (Some name) :: l'
      else r :: rename_first room_id name l'
  end.

(** [room_config.get('anchor_name', f"主播{room_id}")] *)
Definition config_anchor_name (room_config : RoomConfig.t) (room_id : pyval)
    : string :=
  default ("主播" +:+ py_str room_id) (RoomConfig.anchor_name room_config).

Definition with_last_status (s : Z) (rs : RoomStatus.t) : RoomStatus.t :=
  RoomStatus.mk s (RoomStatus.live_start_time rs) (RoomStatus.anchor_name rs).
Definition with_live_start_time (t : datetime) (rs : RoomStatus.t)
    : RoomStatus.t :=
  RoomStatus.mk (RoomStatus.last_status rs) (Some t) (RoomStatus.anchor_name rs).
Definition with_anchor_name (n : string) (rs : RoomStatus.t) : RoomStatus.t :=
  RoomStatus.mk (RoomStatus.last_status rs) (RoomStatus.live_start_time rs) n.

(** [self.room_status[room_id][field] = value] *)
Definition update_room (room_id : pyval) (f : RoomStatus.t -> RoomStatus.t)
    : M unit :=
  modify (set_room_status (alter f room_id)).

(** The body of [for group_id in self.white_list_groups]: create the list
    if the key is new, then append. *)
Definition push (message : string) (group_id : pyval)
    (pending : gmap pyval (list string)) : gmap pyval (list string) :=
  <[group_id := default [] (pending !! group_id) ++ [message]]> pending.

Definition notify_groups (message : string) : M unit :=
  self ← get;
  for_each (white_list_groups self)
    (fun group_id => modify (set_pending_notifications (push message group_id))).

Definition duration_text (d : Z) : string :=
  pretty (duration_hours d) +:+ "时" +:+ pretty (duration_minutes d) +:+ "分".

Definition live_message (name : string) (room_id : pyval) (title : string)
    : string :=
  let message :=
    name +:+ "开播了！" +:+ LF +:+ "传送门：https://live.bilibili.com/" +:+
    py_str room_id in
  if bool_decide (title ≠ "未知标题")
  then message +:+ LF +:+ "标题：" +:+ title
  else message.

Definition offline_message (name : string) (start_time : option datetime)
    (now : datetime) : string :=
  match start_time with
  | Some t => name +:+ "的直播已结束，一共直播了" +:+ duration_text (now - t)
  | None => name +:+ "的直播已结束"
  end.

(** *** The monitor loop *)

(** The [if current_status == 1] branch of a status change. *)
Definition on_live (room_id : pyval) (data : Payload.t) (io : room_io)
    : M string :=
  v ← subscript data "live_time" Payload.live_time;
  live_time ← lift (fromtimestamp v);
  update_room room_id (with_live_start_time live_time) ;;
  anchor_info ← get_anchor_info room_id io;
  let actual_name := AnchorInfo.name anchor_info in
  modify (set_monitor_list (rename_first room_id actual_name)) ;;
  update_room room_id (with_anchor_name actual_name) ;;
  mret (live_message actual_name room_id (AnchorInfo.title anchor_info)).

(** The body of [for result in results]. *)
Definition process_result (io : room_io) (result : option Result.t) : M unit :=
  match result with
  | None => mret tt
  | Some result =>
      let room_id := Result.room_id result in
      let data := Result.data result in
      current_status ← subscript data "live_status" Payload.live_status;
      self ← get;
      match find_room_config self room_id with
      | None => mret tt
      | Some room_config =>
          let anchor_name := config_anchor_name room_config room_id in
          match room_status self !! room_id with
          | None =>
              modify (set_room_status
                        <[room_id := RoomStatus.mk current_status None anchor_name]>) ;;
              log (LogInit room_id anchor_name (bool_decide (current_status = 1)))
          | Some rs =>
              let last_status := RoomStatus.last_status rs in
              if bool_decide (current_status ≠ last_status) then
                message ←
                  (if bool_decide (current_status = 1)
                   then on_live room_id data io
                   else mret (offline_message (RoomStatus.anchor_name rs)
                                (RoomStatus.live_start_time rs) (now io)));
                update_room room_id (with_last_status current_status) ;;
                notify_groups message ;;
                self' ← get;
                log (LogChange room_id (length (white_list_groups self')) message)
              else mret tt
          end
      end
  end.

(** [await asyncio.gather] over the tasks: one [check_live_status] per entry of
    [monitor_list]; entry number [i] receives the answers [env i], and the
    results come back in list order.  The requests only write to the log, so
    their interleaving does not matter for the rest of the state. *)
Fixpoint gather (i : nat) (rooms : list RoomConfig.t) (env : nat -> room_io)
    : M (list (nat * option Result.t)) :=
  match rooms with
  | [] => mret []
  | room_info :: rooms' =>
      r ← check_live_status (RoomConfig.room_id room_info) (env i);
      rs ← gather (S i) rooms' env;
      mret ((i, r) :: rs)
  end.

(** The body of the [try] of one turn of [while True]. *)
Definition monitor_cycle (env : nat -> room_io) : M unit :=
  self ← get;
  match monitor_list self with
  | [] => sleep
  | _ =>
      results ← gather 0 (monitor_list self) env;
      for_each results (fun r => process_result (env r.1) r.2)
  end.

(** One turn of [while True]: the [try] with its [except Exception], then
    the sleep. *)
Definition monitor_iteration (env : nat -> room_io) : M unit :=
  try_except (monitor_cycle env) (fun e => log (LogMonitorError e)) ;;
  sleep.

(** [monitor_task] run for as many turns as there are environments; an
    exception that escapes a turn ends the task, as it would in Python. *)
Fixpoint monitor_loop (cycles : list (nat -> room_io)) : M unit :=
  match cycles with
  | [] => mret tt
  | env :: cycles' => monitor_iteration env ;; monitor_loop cycles'
  end.

Definition monitor_task (cycles : list (nat -> room_io)) : M unit :=
  sleep ;; monitor_loop cycles.

(** *** The responder *)

(** Answers of the outside world during one [on_group_message]: those of the
    single-room query, and the clock read for room number [i] of the
    aggregate report. *)
Record chat_io : Type := ChatIO { query_io : room_io; clock : nat -> datetime }.

(** [get_live_info(room_id)] with a room id. *)
Definition room_report (room_id : string) (io : room_io) : M string :=
  self ← get;
  match find_room_config self (PStr room_id) with
  | None => mret ("未找到直播间 " +:+ room_id +:+ " 的配置")
  | Some room_config =>
      result ← check_live_status (PStr room_id) io;
      match result with
      | None => mret ("无法获取直播间 " +:+ room_id +:+ " 的信息")
      | Some result =>
          let data := Result.data result in
          let anchor_name := config_anchor_name room_config (PStr room_id) in
          live_status ← subscript data "live_status" Payload.live_status;
          let live := bool_decide (live_status = 1) in
          let info :=
            "直播间ID: " +:+ room_id +:+ LF +:+ "主播: " +:+ anchor_name +:+ LF +:+
            "状态: " +:+ status_text_of live "直播中" "未开播" +:+ LF in
          info ←
            (if live then
               self' ← get;
               let info :=
                 match room_status self' !! PStr room_id
                       ≫= RoomStatus.live_start_time with
                 | Some start_time =>
                     let d := now io - start_time in
                     info +:+ "开播时间: " +:+ strftime start_time +:+ LF +:+
                     "直播时长: " +:+ pretty (duration_hours d) +:+ "小时" +:+
                     pretty (duration_minutes d) +:+ "分钟" +:+
                     pretty (duration_seconds d) +:+ "秒" +:+ LF
                 | None => info
                 end in
               anchor_info ← get_anchor_info (PStr room_id) io;
               mret (info +:+ "标题: " +:+ AnchorInfo.title anchor_info +:+ LF)
             else mret info);
          mret (info +:+ "最后检查: " +:+ strftime (Result.check_time result) +:+ LF +:+
                "直播间链接: https://live.bilibili.com/" +:+ room_id)
      end
  end.

Definition anchor_name_line (i : nat) (anchor_name : string) (room_id : pyval)
    (live : bool) : string :=
  pretty i +:+ ". " +:+ anchor_name +:+ " (ID: " +:+ py_str room_id +:+ ") - " +:+
  status_text_of live "直播中" "未开播" +:+ LF.

(** The lines of [for i, room_config in enumerate(self.monitor_list, 1)]. *)
Fixpoint room_lines (self : plugin) (clock : nat -> datetime) (i : nat)
    (rooms : list RoomConfig.t) : string :=
  match rooms with
  | [] => EmptyString
  | room_config :: rooms' =>
      let room_id := RoomConfig.room_id room_config in
      let anchor_name := config_anchor_name room_config room_id in
      let room_status := room_status self !! room_id in
      let live :=
        bool_decide (RoomStatus.last_status <$> room_status = Some 1) in
      anchor_name_line i anchor_name room_id live +:+
      match room_status ≫= RoomStatus.live_start_time with
      | Some start_time =>
          if live
          then "   直播时长: " +:+ duration_text (clock i - start_time) +:+ LF
          else EmptyString
      | None => EmptyString
      end +:+
      "   链接: https://live.bilibili.com/" +:+ py_str room_id +:+ LF +:+ LF +:+
      room_lines self clock (S i) rooms'
  end.

(** [get_live_info()] without a room id. *)
Definition all_rooms_report (clock : nat -> datetime) : M string :=
  self ← get;
  match monitor_list self with
  | [] => mret "当前没有监控任何直播间"
  | _ =>
      mret (py_strip (
        "监控中的直播间 (" +:+ pretty (length (monitor_list self)) +:+ "个):" +:+
        LF +:+ LF +:+ room_lines self clock 1 (monitor_list self) +:+
        LF +:+ "白名单群组 (" +:+ pretty (length (white_list_groups self)) +:+
        "个): " +:+ join ", " (py_str <$> white_list_groups self)))
  end.

(** [get_live_info(room_id=None)] *)
Definition get_live_info (room_id : option string) (io : chat_io) : M string :=
  match room_id with
  | Some r =>
      if str_truthy r then room_report r (query_io io)
      else all_rooms_report (clock io)
  | None => all_rooms_report (clock io)
  end.

(** The last block of [on_group_message]: yield every queued message of the
    group, then replace its queue by an empty list. *)
Definition flush (group_id_str : string) : M (list string) :=
  self ← get;
  match pending_notifications self !! PStr group_id_str with
  | Some (m :: q) =>
      modify (set_pending_notifications <[PStr group_id_str := []]>) ;;
      mret (m :: q)
  | _ => mret []
  end.

(** [on_group_message(event)]; the result is the list of the strings it
    yields, in order. *)
Definition on_group_message (event : Event.t) (io : chat_io)
    : M (list string) :=
  let group_id := Event.group_id event in
  self ← get;
  if negb (is_group_in_white_list self group_id) then mret []
  else
    let message_str := py_lower (py_strip (Event.message_str event)) in
    replies ←
      (if bool_decide (message_str = "liveinfo") then
         info ← get_live_info None io; mret [info]
       else if startswith message_str "liveinfo " then
         let room_id := py_strip (slice_from 9 message_str) in
         if py_isdigit room_id then
           info ← get_live_info (Some room_id) io; mret [info]
         else mret ["请输入正确的直播间ID"]
       else mret []);
    queued ← flush (py_str group_id);
    mret (replies ++ queued).

(** *** The whole system: turns of the monitor loop interleaved with chat
    events.  Both run on one event loop, so each is one step here. *)
Inductive action : Type :=
  | Tick (env : nat -> room_io)
  | Message (event : Event.t) (io : chat_io).

(** What an [on_group_message] generator handed to the framework.  The only
    statements that can raise come before its first [yield]. *)
Definition delivered (o : outcome (list string)) : list string :=
  match o with
  | Return l => l
  | Raise _ => []
  end.

(** The deliveries of a run, each with the group it went to, and the final
    state. *)
Fixpoint run (acts : list action) (self : plugin)
    : list (pyval * list string) * plugin :=
  match acts with
  | [] => ([], self)
  | Tick env :: acts' => run acts' (monitor_iteration env self).2
  | Message event io :: acts' =>
      let r := on_group_message event io self in
      let rest := run acts' r.2 in
      ((Event.group_id event, delivered r.1) :: rest.1, rest.2)
  end.

(** ** Pure readings of the definitions above, used in the statements *)

(** What [check_live_status] returns. *)
Definition fetch_outcome (room_id : pyval) (io : room_io) : option Result.t :=
  match status_reply io with
  | HttpJson (Some 0) (Some d) => Some (Result.mk room_id d (fetched_at io))
  | _ => None
  end.

(** What [get_anchor_info] returns. *)
Definition anchor_info_of (room_id : pyval) (io : room_io) : AnchorInfo.t :=
  match anchor_reply io with
  | HttpJson (Some 0) (Some info) => info
  | _ => AnchorInfo.mk ("主播" +:+ py_str room_id) "未知标题"
  end.

(** The queues after the loop over [white_list_groups] has appended
    [message] once per entry of [groups]. *)
Definition push_all (message : string) (groups : list pyval)
    (pending : gmap pyval (list string)) : gmap pyval (list string) :=
  foldl (fun p g => push message g p) pending groups.

(** The results of one turn, in the order of [rooms], and the payload of the
    last successful one for [room_id]. *)
Fixpoint fetched (env : nat -> room_io) (i : nat) (ids : list pyval)
    : list (nat * option Result.t) :=
  match ids with
  | [] => []
  | room_id :: ids' =>
      (i, fetch_outcome room_id (env i)) :: fetched env (S i) ids'
  end.


Definition room_ids (self : plugin) : list pyval :=
  RoomConfig.room_id <$> monitor_list self.



Definition add_log (entries : list log_entry) (self : plugin) : plugin :=
  set_logger (fun l => l ++ entries) self.

(** What [check_live_status] writes to the log. *)
Definition check_log (room_id : pyval) (io : room_io) : list log_entry :=
  match status_reply io with
  | HttpRaise e => [LogCheckFailed room_id e]
  | HttpJson (Some 0) None => [LogCheckFailed room_id (KeyError "data")]
  | _ => []
  end.

(** What [get_anchor_info] writes to the log. *)
Definition anchor_log (room_id : pyval) (io : room_io) : list log_entry :=
  match anchor_reply io with
  | HttpRaise e => [LogAnchorFailed room_id e]
  | HttpJson None _ => [LogAnchorFailed room_id (KeyError "code")]
  | HttpJson (Some 0) None => [LogAnchorFailed room_id (KeyError "data")]
  | _ => []
  end.

(** The state after the first observation of a room. *)
Definition baseline (room_id : pyval) (status : Z) (name : string)
    (self : plugin) : plugin :=
  add_log [LogInit room_id name (bool_decide (status = 1))]
    (set_room_status <[room_id := RoomStatus.mk status None name]> self).

(** The state after a change to a status other than 1. *)
Definition went_offline (room_id : pyval) (status : Z) (rs : RoomStatus.t)
    (io : room_io) (self : plugin) : plugin :=
  let message :=
    offline_message (RoomStatus.anchor_name rs) (RoomStatus.live_start_time rs)
                    (now io) in
  add_log [LogChange room_id (length (white_list_groups self)) message]
    (set_pending_notifications (push_all message (white_list_groups self))
       (set_room_status (alter (with_last_status status) room_id) self)).

(** The state after a change to status 1 whose start time is [t]. *)
Definition went_live (room_id : pyval) (t : datetime) (io : room_io)
    (self : plugin) : plugin :=
  let info := anchor_info_of room_id io in
  let name := AnchorInfo.name info in
  let message := live_message name room_id (AnchorInfo.title info) in
  add_log [LogChange room_id (length (white_list_groups self)) message]
    (set_pending_notifications (push_all message (white_list_groups self))
       (set_room_status
          (fun m => alter (with_last_status 1) room_id
                      (alter (with_anchor_name name) room_id
                         (alter (with_live_start_time t) room_id m)))
          (set_monitor_list (rename_first room_id name)
             (add_log (anchor_log room_id io) self)))).

(** Every way a result can be handled. *)
Inductive handled (io : room_io) (res : Result.t) (self : plugin)
    : outcome unit * plugin -> Prop :=
  | handled_no_status :
      Payload.live_status (Result.data res) = None ->
      handled io res self
        (Raise (subscript_error (Result.data res) "live_status"), self)
  | handled_no_config status :
      Payload.live_status (Result.data res) = Some status ->
      find_room_config self (Result.room_id res) = None ->
      handled io res self (Return tt, self)
  | handled_baseline status room_config :
      Payload.live_status (Result.data res) = Some status ->
      find_room_config self (Result.room_id res) = Some room_config ->
      room_status self !! Result.room_id res = None ->
      handled io res self
        (Return tt,
         baseline (Result.room_id res) status
           (config_anchor_name room_config (Result.room_id res)) self)
  | handled_same status room_config rs :
      Payload.live_status (Result.data res) = Some status ->
      find_room_config self (Result.room_id res) = Some room_config ->
      room_status self !! Result.room_id res = Some rs ->
      RoomStatus.last_status rs = status ->
      handled io res self (Return tt, self)
  | handled_offline status room_config rs :
      Payload.live_status (Result.data res) = Some status ->
      find_room_config self (Result.room_id res) = Some room_config ->
      room_status self !! Result.room_id res = Some rs ->
      RoomStatus.last_status rs ≠ status ->
      status ≠ 1 ->
      handled io res self
        (Return tt, went_offline (Result.room_id res) status rs io self)
  | handled_live room_config rs v t :
      Payload.live_status (Result.data res) = Some 1 ->
      find_room_config self (Result.room_id res) = Some room_config ->
      room_status self !! Result.room_id res = Some rs ->
      RoomStatus.last_status rs ≠ 1 ->
      Payload.live_time (Result.data res) = Some v ->
      fromtimestamp v = inr t ->
      handled io res self (Return tt, went_live (Result.room_id res) t io self)
  | handled_live_raises room_config rs e :
      Payload.live_status (Result.data res) = Some 1 ->
      find_room_config self (Result.room_id res) = Some room_config ->
      room_status self !! Result.room_id res = Some rs ->
      RoomStatus.last_status rs ≠ 1 ->
      (Payload.live_time (Result.data res) = None ∧ e = KeyError "live_time") ∨
      (∃ v, Payload.live_time (Result.data res) = Some v ∧
            fromtimestamp v = inl e) ->
      handled io res self (Raise e, self).

(** The [for result in results] loop of a turn. *)
Definition process_all (env : nat -> room_io)
    (results : list (nat * option Result.t)) : M unit :=
  for_each results (fun r => process_result (env r.1) r.2).


(** ** Statements about runs *)


(** ** Sample data for the examples *)

Module Sample.

Definition foo : RoomConfig.t := RoomConfig.mk (PStr "123") (Some "Foo").
Definition bar : RoomConfig.t := RoomConfig.mk (PStr "456") None.

(** The plugin as [__init__] leaves it, with two rooms and one group. *)
Definition fresh : plugin :=
  Plugin [foo; bar] [PStr "1044727986"] ∅ ∅ [].

Definition t0 : Z := 1700000000.

(** A status reply with [code == 0] read at time [clock], while the
    anchor-info request times out. *)
Definition reply (status : Z) (live_time : option pyval) (clock : datetime)
    : room_io :=
  RoomIO (HttpJson (Some 0) (Some (Payload.mk (Some status) live_time)))
         clock (HttpRaise (RequestError "timeout")) clock.

(** A status request that times out. *)
Definition timeout (clock : datetime) : room_io :=
  RoomIO (HttpRaise (RequestError "timeout")) clock
         (HttpRaise (RequestError "timeout")) clock.

(** Both rooms are offline. *)
Definition all_offline : nat -> room_io :=
  fun _ => reply 0 None (t0 * usec_per_sec).

(** Room 123 is live but its payload has no [live_time]; room 456 is live
    with a start time. *)
Definition live_without_start : nat -> room_io :=
  fun i =>
    match i with
    | O => reply 1 None ((t0 + 60) * usec_per_sec)
    | _ => reply 1 (Some (PInt t0)) ((t0 + 60) * usec_per_sec)
    end.

(** Both rooms are live since [t0]. *)
Definition all_live : nat -> room_io :=
  fun _ => reply 1 (Some (PInt t0)) ((t0 + 60) * usec_per_sec).

(** Both rooms are offline again, 1 h 23 min after [t0]. *)
Definition all_ended : nat -> room_io :=
  fun _ => reply 0 None ((t0 + 4980) * usec_per_sec).

End Sample.

(** How often [k] is listed in [groups]. *)
Definition occurrences (k : pyval) (groups : list pyval) : nat :=
  length (filter (fun g => g = k) groups).

(** What it means that [message] was enqueued for [groups], stated on the
    queues themselves: the queue of every listed group is the one it had
    (none counting as empty) followed by [message], once per listing, and
    every other key is as it was. *)
Definition enqueued (message : string) (groups : list pyval)
    (before after : gmap pyval (list string)) : Prop :=
  ∀ k,
    after !! k =
    if bool_decide (k ∈ groups)
    then Some (default [] (before !! k) ++
               replicate (occurrences k groups) message)
    else before !! k.

(** Between [before] and [after] the loop body queued one notification for
    [room_id]: a message was enqueued for the entries of
    [white_list_groups], and the change was logged. *)
Definition notified (room_id : pyval) (before after : plugin) : Prop :=
  ∃ message entries,
    enqueued message (white_list_groups before)
             (pending_notifications before) (pending_notifications after) ∧
    logger after =
      logger before ++ entries ++
      [LogChange room_id (length (white_list_groups before)) message].

Module SampleResults.

(** A result for room 123. *)
Definition foo (status : Z) (live_time : option pyval) : Result.t :=
  Result.mk (PStr "123") (Payload.mk (Some status) live_time)
            (Sample.t0 * usec_per_sec).

(** The plugin after room 123 has been seen with [status] for the first
    time. *)
Definition seen (status : Z) : plugin :=
  (process_result (Sample.all_offline 0%nat) (Some (foo status None))
                  Sample.fresh).2.

End SampleResults.

(** The loop body applied to a sequence of successful polls of one room. *)
Fixpoint polled (polls : list (room_io * Result.t)) (self : plugin) : plugin :=
  match polls with
  | [] => self
  | (io, res) :: polls' => polled polls' (process_result io (Some res) self).2
  end.

(** The loop over the results as the specification words it, for comparison
    with [process_all]: an exception while one result is handled is caught
    and logged on the spot, and the loop goes on with the next result. *)
Definition spec_isolated_process_all (env : nat -> room_io)
    (results : list (nat * option Result.t)) : M unit :=
  for_each results
    (fun r => try_except (process_result (env r.1) r.2)
                         (fun e => log (LogMonitorError e))).

(** The command part of [on_group_message], on the normalised text. *)
Definition command_replies (message_str : string) (io : chat_io)
    : M (list string) :=
  if bool_decide (message_str = "liveinfo") then
    info ← get_live_info None io; mret [info]
  else if startswith message_str "liveinfo " then
    let room_id := py_strip (slice_from 9 message_str) in
    if py_isdigit room_id then
      info ← get_live_info (Some room_id) io; mret [info]
    else mret ["请输入正确的直播间ID"]
  else mret [].

(** The queue that [on_group_message] reads for an event from [group_id]. *)
Definition queue_of (self : plugin) (group_id : pyval) : list string :=
  default [] (pending_notifications self !! PStr (py_str group_id)).

(** The state after that queue has been flushed. *)
Definition flushed (group_id : pyval) (self : plugin) : plugin :=
  match queue_of self group_id with
  | [] => self
  | _ :: _ =>
      set_pending_notifications <[PStr (py_str group_id) := []]> self
  end.

Module SampleChat.

(** The same plugin with the group id written as a JSON number. *)
Definition int_group : plugin :=
  Plugin [Sample.foo; Sample.bar] [PInt 1044727986] ∅ ∅ [].

(** Answers for a chat event that needs none. *)
Definition quiet : chat_io :=
  ChatIO (Sample.timeout ((Sample.t0 + 5000) * usec_per_sec))
         (fun _ => (Sample.t0 + 5000) * usec_per_sec).

(** A chat line from group 1044727986. *)
Definition hello : Event.t := Event.mk (PStr "1044727986") "hello".

(** A query whose argument is the character U+00B2, superscript two. *)
Definition superscript : Event.t :=
  Event.mk (PStr "1044727986") "liveinfo ²".

End SampleChat.

Module SampleLive.

(** Room 123 after it was seen offline and then went live at [t0], the
    anchor-info request having failed. *)
Definition on_air : plugin :=
  polled [(Sample.all_offline 0%nat, SampleResults.foo 0 None);
          (Sample.all_live 0%nat, SampleResults.foo 1 (Some (PInt Sample.t0)))]
         Sample.fresh.

(** A successful anchor-info reply. *)
Definition titled (name title : string) (clock : datetime) : room_io :=
  RoomIO (HttpJson (Some 0) (Some (Payload.mk (Some 1) (Some (PInt Sample.t0)))))
         clock (HttpJson (Some 0) (Some (AnchorInfo.mk name title))) clock.

(** A start timestamp in the year 1336. *)
Definition long_ago : Z := -20000000000.

(** Room 123 after it was seen offline and then went live with the start
    timestamp [long_ago]. *)
Definition since_long_ago : plugin :=
  polled [(Sample.all_offline 0%nat, SampleResults.foo 0 None);
          (Sample.all_live 0%nat, SampleResults.foo 1 (Some (PInt long_ago)))]
         Sample.fresh.

(** A poll that finds the room offline one microsecond before
    2023-11-14 22:26:40. *)
Definition ended_late : room_io :=
  Sample.reply 0 None (1700000800 * usec_per_sec - 1).

End SampleLive.

(** A non-negative integer literal: one or more decimal digits. *)
Definition is_decimal_digit (c : ascii) : Prop :=
  c ∈ list_ascii_of_string "0123456789".

Definition nonneg_int_literal (s : string) : Prop :=
  s ≠ EmptyString ∧ Forall is_decimal_digit (list_ascii_of_string s).

(** ** Further readings, for the properties beyond the specification *)

(** The text [get_live_info()] returns. *)
Definition aggregate_text (clock : nat -> datetime) (self : plugin) : string :=
  match monitor_list self with
  | [] => "当前没有监控任何直播间"
  | _ =>
      py_strip (
        "监控中的直播间 (" +:+ pretty (length (monitor_list self)) +:+ "个):" +:+
        LF +:+ LF +:+ room_lines self clock 1 (monitor_list self) +:+
        LF +:+ "白名单群组 (" +:+ pretty (length (white_list_groups self)) +:+
        "个): " +:+ join ", " (py_str <$> white_list_groups self))
  end.

(** A normalised text that is neither of the two commands. *)
Definition no_command (message_str : string) : Prop :=
  message_str ≠ "liveinfo" ∧ startswith message_str "liveinfo " = false.

(** Every queue of [before] is still there in [after], with its messages in
    place at the front. *)
Definition queues_extend (before after : gmap pyval (list string)) : Prop :=
  ∀ k, (is_Some (before !! k) -> is_Some (after !! k)) ∧
       ∃ suffix, default [] (after !! k) = default [] (before !! k) ++ suffix.

(** The plugin's configuration as [get_config] sees it: a key is [None]
    when the configuration does not define it. *)
Record config : Type := Config {
  cfg_monitor_list : option (list RoomConfig.t);
  cfg_white_list_groups : option (list pyval)
}.

(** [__init__]: the attributes of a new instance.  The two tasks it starts
    are [init_session], which only creates the HTTP session, and
    [monitor_task]. *)
Definition init (c : config) : plugin :=
  Plugin (default [] (cfg_monitor_list c))
         (default [PStr "1044727986"] (cfg_white_list_groups c))
         ∅ ∅ [].
(** * Properties *)

(** ** The monad and the small steps *)
Lemma bind_run {A B : Type} (m : M A) (k : A -> M B) (self : plugin) :
  (m ≫= k) self =
  match m self with
  | (Return a, self') => k a self'
  | (Raise e, self') => (Raise e, self')
  end.
Proof. reflexivity. Qed.

(** Run the binds at the head of the goal as far as they compute. *)
Ltac run_bind := repeat (rewrite bind_run; simpl).

Lemma plugin_eta (self : plugin) :
  Plugin (monitor_list self) (white_list_groups self) (room_status self)
         (pending_notifications self) (logger self) = self.
Proof. by destruct self. Qed.

Lemma push_all_app message g groups pending :
  push_all message (groups ++ [g]) pending =
  push message g (push_all message groups pending).
Proof. unfold push_all. by rewrite foldl_app. Qed.

Lemma push_all_cons message g groups pending :
  push_all message (g :: groups) pending =
  push_all message groups (push message g pending).
Proof. reflexivity. Qed.

(** A group that is not in the list keeps its queue. *)
Lemma push_all_lookup_notin message groups pending k :
  k ∉ groups -> push_all message groups pending !! k = pending !! k.
Proof.
  revert pending.
  induction groups as [|g groups IH]; intros pending Hk; [done|].
  apply not_elem_of_cons in Hk as [Hne Hk].
  rewrite push_all_cons, IH by done.
  unfold push. by rewrite lookup_insert_ne.
Qed.

(** A group in the list gets the message once per occurrence, at the end of
    its queue. *)
Lemma push_all_lookup message groups pending k :
  k ∈ groups ->
  push_all message groups pending !! k =
  Some (default [] (pending !! k) ++
        replicate (length (filter (fun g => g = k) groups)) message).
Proof.
  revert pending.
  induction groups as [|g groups IH]; intros pending Hk.
  { by apply elem_of_nil in Hk. }
  rewrite push_all_cons.
  destruct (decide (g = k)) as [->|Hne].
  - rewrite filter_cons_True by done. simpl.
    destruct (decide (k ∈ groups)) as [Hin|Hnin].
    + rewrite IH by done. unfold push. rewrite lookup_insert_eq. simpl.
      by rewrite <- app_assoc.
    + rewrite push_all_lookup_notin by done.
      unfold push. rewrite lookup_insert_eq.
      assert (filter (fun g => g = k) groups = []) as ->; [|done].
      clear -Hnin. induction groups as [|x l IHl]; [done|].
      apply not_elem_of_cons in Hnin as [? ?].
      rewrite filter_cons_False by congruence. auto.
  - rewrite filter_cons_False by done.
    apply elem_of_cons in Hk as [?|Hk]; [congruence|].
    rewrite IH by done. unfold push. by rewrite lookup_insert_ne.
Qed.

(** With at least one group in the list the queues do change. *)
Lemma push_all_changes message g groups pending :
  push_all message (g :: groups) pending ≠ pending.
Proof.
  intros Heq.
  assert (push_all message (g :: groups) pending !! g = pending !! g) as H
    by (by rewrite Heq).
  rewrite push_all_lookup in H by (apply elem_of_cons; by left).
  rewrite filter_cons_True in H by done. simpl in H.
  destruct (pending !! g) as [q|]; simpl in H; [|discriminate].
  injection H as H.
  apply (f_equal length) in H. rewrite length_app in H. simpl in H. lia.
Qed.

(** The loop over the groups enqueues the message, in the sense of
    [enqueued]. *)
Lemma push_all_enqueued message groups pending :
  enqueued message groups pending (push_all message groups pending).
Proof.
  intros k. case_bool_decide.
  - by apply push_all_lookup.
  - by apply push_all_lookup_notin.
Qed.

(** What [enqueued] says of a group that is listed once, and of a key that
    is not listed. *)
Lemma enqueued_once message groups before after k :
  enqueued message groups before after ->
  occurrences k groups = 1%nat ->
  after !! k = Some (default [] (before !! k) ++ [message]).
Proof.
  intros Henq Hone. rewrite (Henq k), Hone.
  rewrite bool_decide_eq_true_2; [done|].
  unfold occurrences in Hone.
  destruct (decide (k ∈ groups)) as [|Hout]; [done|].
  assert (filter (fun g => g = k) groups = []) as Hnil; [|by rewrite Hnil in Hone].
  clear -Hout. induction groups as [|x l IH]; [done|].
  apply not_elem_of_cons in Hout as [? ?].
  rewrite filter_cons_False by congruence. auto.
Qed.

Lemma enqueued_elsewhere message groups before after k :
  enqueued message groups before after ->
  k ∉ groups -> after !! k = before !! k.
Proof. intros Henq Hout. by rewrite (Henq k), bool_decide_eq_false_2. Qed.

(** Two messages enqueued one after the other. *)
Lemma enqueued_twice m1 m2 groups p0 p1 p2 k :
  enqueued m1 groups p0 p1 ->
  enqueued m2 groups p1 p2 ->
  occurrences k groups = 1%nat ->
  p2 !! k = Some (default [] (p0 !! k) ++ [m1; m2]).
Proof.
  intros H1 H2 Hone.
  rewrite (enqueued_once m2 groups p1 p2 k H2 Hone).
  rewrite (enqueued_once m1 groups p0 p1 k H1 Hone). simpl.
  by rewrite <- app_assoc.
Qed.

Lemma notify_groups_run message self :
  notify_groups message self =
  (Return tt,
   set_pending_notifications (push_all message (white_list_groups self)) self).
Proof.
  unfold notify_groups. rewrite bind_run. simpl.
  generalize (white_list_groups self) as groups.
  intros groups. revert self.
  induction groups as [|g groups IH]; intros self.
  - simpl. unfold set_pending_notifications, push_all. simpl.
    by rewrite plugin_eta.
  - simpl. rewrite bind_run. simpl. rewrite IH. reflexivity.
Qed.

(** ** The two requests never raise *)
Lemma add_log_nil self : add_log [] self = self.
Proof.
  unfold add_log, set_logger. rewrite app_nil_r. apply plugin_eta.
Qed.

Lemma check_live_status_run room_id io self :
  check_live_status room_id io self =
  (Return (fetch_outcome room_id io), add_log (check_log room_id io) self).
Proof.
  unfold check_live_status, fetch_outcome, check_log, try_except.
  destruct (status_reply io) as [e|code body]; [reflexivity|].
  destruct code as [c|]; [|by rewrite add_log_nil].
  destruct (decide (c = 0)) as [->|Hc].
  - destruct body; [by rewrite add_log_nil | reflexivity].
  - rewrite bool_decide_eq_false_2 by congruence.
    destruct c; try congruence; by rewrite add_log_nil.
Qed.

Lemma get_anchor_info_run room_id io self :
  get_anchor_info room_id io self =
  (Return (anchor_info_of room_id io), add_log (anchor_log room_id io) self).
Proof.
  unfold get_anchor_info, anchor_info_of, anchor_log, try_except.
  destruct (anchor_reply io) as [e|code body]; [reflexivity|].
  destruct code as [c|]; [|reflexivity].
  destruct (decide (c = 0)) as [->|Hc].
  - destruct body; [by rewrite add_log_nil | reflexivity].
  - rewrite bind_run. simpl. rewrite bool_decide_eq_false_2 by done.
    destruct c; try congruence; by rewrite add_log_nil.
Qed.

(** ** Subscripts of the payload *)
Lemma subscript_live_status data self :
  subscript data "live_status" Payload.live_status self =
  match Payload.live_status data with
  | Some status => (Return status, self)
  | None => (Raise (subscript_error data "live_status"), self)
  end.
Proof. by destruct data as [|[status|] time]. Qed.

Lemma subscript_live_time data self :
  subscript data "live_time" Payload.live_time self =
  match Payload.live_time data with
  | Some v => (Return v, self)
  | None => (Raise (subscript_error data "live_time"), self)
  end.
Proof. by destruct data as [|status [v|]]. Qed.

(** A payload with a status is an object. *)
Lemma subscript_error_object data status key :
  Payload.live_status data = Some status ->
  subscript_error data key = KeyError key.
Proof. by destruct data. Qed.

(** ** One result of the loop, case by case *)

Section one_result.
Variables (io : room_io) (self : plugin).
Variables (room_id : pyval) (data : Payload.t) (at_time : datetime).
Variables (status : Z) (room_config : RoomConfig.t).
Hypothesis Hstatus : Payload.live_status data = Some status.
Hypothesis Hconfig : find_room_config self room_id = Some room_config.

Lemma process_result_baseline :
  room_status self !! room_id = None ->
  process_result io (Some (Result.mk room_id data at_time)) self =
  (Return tt,
   baseline room_id status (config_anchor_name room_config room_id) self).
Proof.
  intros Hnew. unfold process_result. cbn [Result.room_id Result.data].
  rewrite bind_run, subscript_live_status, Hstatus. run_bind.
  rewrite Hconfig, Hnew. reflexivity.
Qed.

Lemma process_result_same rs :
  room_status self !! room_id = Some rs ->
  RoomStatus.last_status rs = status ->
  process_result io (Some (Result.mk room_id data at_time)) self = (Return tt, self).
Proof.
  intros Hrs Hlast. unfold process_result. cbn [Result.room_id Result.data].
  rewrite bind_run, subscript_live_status, Hstatus. run_bind.
  rewrite Hconfig, Hrs. simpl.
  rewrite bool_decide_eq_false_2; [reflexivity|]. intros H. by apply H.
Qed.

Lemma process_result_offline rs :
  room_status self !! room_id = Some rs ->
  RoomStatus.last_status rs ≠ status ->
  status ≠ 1 ->
  process_result io (Some (Result.mk room_id data at_time)) self =
  (Return tt, went_offline room_id status rs io self).
Proof.
  intros Hrs Hlast Hoff. unfold process_result. cbn [Result.room_id Result.data].
  rewrite bind_run, subscript_live_status, Hstatus. run_bind.
  rewrite Hconfig, Hrs. simpl.
  rewrite bool_decide_eq_true_2 by congruence.
  rewrite (bool_decide_eq_false_2 (status = 1)) by done.
  run_bind. rewrite notify_groups_run. reflexivity.
Qed.

Lemma process_result_live rs v t :
  room_status self !! room_id = Some rs ->
  RoomStatus.last_status rs ≠ status ->
  status = 1 ->
  Payload.live_time data = Some v ->
  fromtimestamp v = inr t ->
  process_result io (Some (Result.mk room_id data at_time)) self = (Return tt, went_live room_id t io self).
Proof.
  intros Hrs Hlast Hlive Hv Ht. unfold process_result. cbn [Result.room_id Result.data].
  rewrite bind_run, subscript_live_status, Hstatus. run_bind.
  rewrite Hconfig, Hrs. simpl.
  rewrite bool_decide_eq_true_2 by congruence.
  rewrite (bool_decide_eq_true_2 (status = 1)) by done.
  unfold on_live. rewrite 2!bind_run, subscript_live_time, Hv. run_bind.
  rewrite Ht. simpl. run_bind.
  rewrite get_anchor_info_run. simpl. run_bind.
  rewrite notify_groups_run. rewrite Hlive. reflexivity.
Qed.

(** When the start time cannot be read the change is abandoned before
    anything is written. *)
Lemma process_result_live_raises rs :
  room_status self !! room_id = Some rs ->
  RoomStatus.last_status rs ≠ status ->
  status = 1 ->
  forall e,
  (Payload.live_time data = None ∧ e = KeyError "live_time") ∨
  (∃ v, Payload.live_time data = Some v ∧ fromtimestamp v = inl e) ->
  process_result io (Some (Result.mk room_id data at_time)) self = (Raise e, self).
Proof.
  intros Hrs Hlast Hlive e He. unfold process_result. cbn [Result.room_id Result.data].
  rewrite bind_run, subscript_live_status, Hstatus. run_bind.
  rewrite Hconfig, Hrs. simpl.
  rewrite bool_decide_eq_true_2 by congruence.
  rewrite (bool_decide_eq_true_2 (status = 1)) by done.
  unfold on_live. rewrite 2!bind_run, subscript_live_time.
  destruct He as [[Hv ->]|(v & Hv & Ht)]; rewrite Hv.
  - by rewrite (subscript_error_object data status).
  - run_bind. rewrite Ht. reflexivity.
Qed.

End one_result.

Lemma process_result_handled io res self :
  handled io res self (process_result io (Some res) self).
Proof.
  destruct res as [rid data at_time].
  destruct (Payload.live_status data) as [status|] eqn:Hstatus.
  2:{ unfold process_result. cbn [Result.room_id Result.data].
      rewrite bind_run, subscript_live_status, Hstatus.
      by apply (handled_no_status io (Result.mk rid data at_time)). }
  destruct (find_room_config self rid) as [cfg|] eqn:Hcfg.
  2:{ unfold process_result. cbn [Result.room_id Result.data].
      rewrite bind_run, subscript_live_status, Hstatus. run_bind.
      rewrite Hcfg. by eapply handled_no_config. }
  destruct (room_status self !! rid) as [rs|] eqn:Hrs.
  2:{ rewrite (process_result_baseline io self rid data at_time status cfg)
        by done.
      by apply (handled_baseline io (Result.mk rid data at_time)). }
  destruct (decide (RoomStatus.last_status rs = status)) as [Hsame|Hdiff].
  { rewrite (process_result_same io self rid data at_time status cfg) with (rs := rs)
      by done.
    by eapply (handled_same io (Result.mk rid data at_time)). }
  destruct (decide (status = 1)) as [->|Hoff].
  2:{ rewrite (process_result_offline io self rid data at_time status cfg) with (rs := rs)
        by done.
      by eapply (handled_offline io (Result.mk rid data at_time)). }
  destruct (Payload.live_time data) as [v|] eqn:Hv.
  2:{ rewrite (process_result_live_raises io self rid data at_time 1 cfg)
        with (rs := rs) (e := KeyError "live_time"); auto.
      eapply (handled_live_raises io (Result.mk rid data at_time)); eauto. }
  destruct (fromtimestamp v) as [e|t] eqn:Ht.
  - rewrite (process_result_live_raises io self rid data at_time 1 cfg)
      with (rs := rs) (e := e); eauto.
    eapply (handled_live_raises io (Result.mk rid data at_time)); eauto.
  - rewrite (process_result_live io self rid data at_time 1 cfg)
      with (rs := rs) (v := v) (t := t); auto.
    eapply (handled_live io (Result.mk rid data at_time)); eauto.
Qed.

(** ** What a result can and cannot touch *)
Lemma rename_first_room_ids room_id name l :
  RoomConfig.room_id <$> rename_first room_id name l = RoomConfig.room_id <$> l.
Proof.
  induction l as [|r l IH]; [done|]. cbn [rename_first].
  case_bool_decide; rewrite !fmap_cons; [done|]. by rewrite IH.
Qed.

Lemma find_room_config_None self room_id :
  find_room_config self room_id = None <-> room_id ∉ room_ids self.
Proof.
  unfold find_room_config, room_ids.
  induction (monitor_list self) as [|r l IH]; simpl.
  - split; [intros _ H; by apply elem_of_nil in H | done].
  - case_bool_decide as Hr; rewrite not_elem_of_cons.
    + split; [done | intros [Hne _]; congruence].
    + rewrite IH. split; [by intros; split; [congruence|] | by intros [_ ?]].
Qed.

Lemma process_result_white_list io result self :
  white_list_groups (process_result io result self).2 = white_list_groups self.
Proof.
  destruct result as [res|]; [|done].
  by destruct (process_result_handled io res self).
Qed.

Lemma process_result_room_ids io result self :
  room_ids (process_result io result self).2 = room_ids self.
Proof.
  destruct result as [res|]; [|done].
  destruct (process_result_handled io res self); try done.
  unfold room_ids. simpl. apply rename_first_room_ids.
Qed.

(** Only the queues of the entries of [white_list_groups] can grow. *)
Lemma process_result_pending_frame io result self k :
  k ∉ white_list_groups self ->
  pending_notifications (process_result io result self).2 !! k =
  pending_notifications self !! k.
Proof.
  intros Hk. destruct result as [res|]; [|done].
  destruct (process_result_handled io res self); try done; simpl;
    by rewrite push_all_lookup_notin.
Qed.



(** ** One turn of the loop *)
Lemma for_each_app {A : Type} (l1 l2 : list A) (body : A -> M unit) self :
  for_each (l1 ++ l2) body self =
  (for_each l1 body ;; for_each l2 body) self.
Proof.
  revert self. induction l1 as [|x l1 IH]; intros self; simpl.
  - reflexivity.
  - rewrite !bind_run. destruct (body x self) as [[[]|e] s1]; [|done].
    rewrite IH. reflexivity.
Qed.

(** An exception in the body ends the loop: the elements after the one that
    raised are not visited. *)
Lemma for_each_raise {A : Type} (l1 l2 : list A) (x : A) (body : A -> M unit)
    self s1 s2 e :
  for_each l1 body self = (Return tt, s1) ->
  body x s1 = (Raise e, s2) ->
  for_each (l1 ++ x :: l2) body self = (Raise e, s2).
Proof.
  intros H1 Hx. rewrite for_each_app, bind_run, H1. simpl.
  by rewrite bind_run, Hx.
Qed.

Lemma gather_run i rooms env self :
  ∃ entries,
    gather i rooms env self =
    (Return (fetched env i (RoomConfig.room_id <$> rooms)), add_log entries self).
Proof.
  revert i self. induction rooms as [|r rooms IH]; intros i self.
  - exists []. simpl. by rewrite add_log_nil.
  - simpl. rewrite bind_run, check_live_status_run.
    destruct (IH (S i) (add_log (check_log (RoomConfig.room_id r) (env i)) self))
      as [entries Hrun].
    exists (check_log (RoomConfig.room_id r) (env i) ++ entries).
    rewrite bind_run, Hrun. simpl.
    unfold add_log, set_logger. simpl. by rewrite app_assoc.
Qed.

Lemma monitor_cycle_run env self :
  ∃ entries,
    monitor_cycle env self =
    process_all env (fetched env 0 (room_ids self)) (add_log entries self).
Proof.
  unfold monitor_cycle. rewrite bind_run. simpl.
  destruct (monitor_list self) as [|r rooms] eqn:Hrooms.
  - exists []. unfold room_ids. rewrite Hrooms, add_log_nil. reflexivity.
  - destruct (gather_run 0 (r :: rooms) env self) as [entries Hrun].
    exists entries. rewrite bind_run, Hrun. unfold room_ids. by rewrite Hrooms.
Qed.

Lemma monitor_iteration_run env self :
  monitor_iteration env self =
  match monitor_cycle env self with
  | (Return _, self') => (Return tt, self')
  | (Raise e, self') => (Return tt, add_log [LogMonitorError e] self')
  end.
Proof.
  unfold monitor_iteration, try_except. rewrite bind_run.
  by destruct (monitor_cycle env self) as [[[]|e] self'].
Qed.

Section process_all_facts.
Variable env : nat -> room_io.

Lemma process_all_white_list results self :
  white_list_groups (process_all env results self).2 = white_list_groups self.
Proof.
  revert self. induction results as [|[i r] results IH]; intros self; [done|].
  unfold process_all in *. simpl. rewrite bind_run.
  pose proof (process_result_white_list (env i) r self) as Hw.
  destruct (process_result (env i) r self) as [[[]|e] s1]; simpl in *; [|done].
  by rewrite IH.
Qed.

Lemma process_all_room_ids results self :
  room_ids (process_all env results self).2 = room_ids self.
Proof.
  revert self. induction results as [|[i r] results IH]; intros self; [done|].
  unfold process_all in *. simpl. rewrite bind_run.
  pose proof (process_result_room_ids (env i) r self) as Hw.
  destruct (process_result (env i) r self) as [[[]|e] s1]; simpl in *; [|done].
  by rewrite IH.
Qed.

Lemma process_all_pending_frame results self k :
  k ∉ white_list_groups self ->
  pending_notifications (process_all env results self).2 !! k =
  pending_notifications self !! k.
Proof.
  revert self. induction results as [|[i r] results IH]; intros self Hk; [done|].
  unfold process_all in *. simpl. rewrite bind_run.
  pose proof (process_result_white_list (env i) r self) as Hw.
  pose proof (process_result_pending_frame (env i) r self k Hk) as Hp.
  destruct (process_result (env i) r self) as [[[]|e] s1]; simpl in *; [|done].
  rewrite IH by (by rewrite Hw). done.
Qed.



End process_all_facts.


Lemma monitor_cycle_white_list env self :
  white_list_groups (monitor_cycle env self).2 = white_list_groups self.
Proof.
  destruct (monitor_cycle_run env self) as [entries ->].
  by rewrite process_all_white_list.
Qed.

Lemma monitor_cycle_room_ids env self :
  room_ids (monitor_cycle env self).2 = room_ids self.
Proof.
  destruct (monitor_cycle_run env self) as [entries ->].
  by rewrite process_all_room_ids.
Qed.

Lemma monitor_cycle_pending_frame env self k :
  k ∉ white_list_groups self ->
  pending_notifications (monitor_cycle env self).2 !! k =
  pending_notifications self !! k.
Proof.
  intros Hk. destruct (monitor_cycle_run env self) as [entries ->].
  by rewrite process_all_pending_frame.
Qed.



(** ** Turn after turn *)

(** The tables after a turn are those its [try] body left: the handler only
    writes to the log. *)
Lemma monitor_iteration_tables env self :
  let after := (monitor_iteration env self).2 in
  let body := (monitor_cycle env self).2 in
  monitor_list after = monitor_list body ∧
  white_list_groups after = white_list_groups body ∧
  room_status after = room_status body ∧
  pending_notifications after = pending_notifications body.
Proof.
  rewrite monitor_iteration_run.
  by destruct (monitor_cycle env self) as [[[]|e] s1].
Qed.

Lemma monitor_iteration_returns env self :
  (monitor_iteration env self).1 = Return tt.
Proof.
  rewrite monitor_iteration_run.
  by destruct (monitor_cycle env self) as [[[]|e] s1].
Qed.

Lemma monitor_loop_returns cycles self :
  (monitor_loop cycles self).1 = Return tt.
Proof.
  revert self. induction cycles as [|env cycles IH]; intros self; [done|].
  simpl. rewrite bind_run.
  pose proof (monitor_iteration_returns env self) as Hret.
  destruct (monitor_iteration env self) as [[[]|e] s1]; simpl in *; [|done].
  apply IH.
Qed.

Lemma monitor_loop_cons env cycles self :
  (monitor_loop (env :: cycles) self).2 =
  (monitor_loop cycles (monitor_iteration env self).2).2.
Proof.
  simpl. rewrite bind_run.
  pose proof (monitor_iteration_returns env self) as Hret.
  by destruct (monitor_iteration env self) as [[[]|e] s1].
Qed.




(** ** Queued notifications *)

Lemma not_notified_self room_id self : ¬ notified room_id self self.
Proof.
  intros (message & entries & _ & Hlog).
  apply (f_equal length) in Hlog. rewrite !length_app in Hlog.
  simpl in Hlog. lia.
Qed.

Lemma notified_went_offline room_id status rs io self :
  notified room_id self (went_offline room_id status rs io self).
Proof. eexists _, []. split; [apply push_all_enqueued | reflexivity]. Qed.

Lemma notified_went_live room_id t io self :
  notified room_id self (went_live room_id t io self).
Proof.
  eexists _, (anchor_log room_id io). split; [apply push_all_enqueued|].
  simpl. by rewrite app_assoc.
Qed.

Lemma find_room_config_preserved io result self room_id room_config :
  find_room_config self room_id = Some room_config ->
  ∃ room_config',
    find_room_config (process_result io result self).2 room_id =
    Some room_config'.
Proof.
  intros Hcfg.
  destruct (find_room_config (process_result io result self).2 room_id)
    as [c|] eqn:Hfind; [by exists c|].
  apply find_room_config_None in Hfind.
  rewrite process_result_room_ids in Hfind.
  apply find_room_config_None in Hfind. congruence.
Qed.

(** ** The responder *)

Lemma add_log_add_log a b self :
  add_log a (add_log b self) = add_log (b ++ a) self.
Proof. unfold add_log, set_logger. simpl. by rewrite app_assoc. Qed.

Lemma flush_run group_id self :
  flush (py_str group_id) self =
  (Return (queue_of self group_id), flushed group_id self).
Proof.
  unfold flush, flushed, queue_of. rewrite bind_run. simpl.
  by destruct (pending_notifications self !! PStr (py_str group_id)) as [[|m q]|].
Qed.

Lemma on_group_message_rejects event io self :
  is_group_in_white_list self (Event.group_id event) = false ->
  on_group_message event io self = (Return [], self).
Proof.
  intros Hno. unfold on_group_message. rewrite bind_run. simpl.
  by rewrite Hno.
Qed.

Lemma on_group_message_allowed event io self :
  is_group_in_white_list self (Event.group_id event) = true ->
  on_group_message event io self =
  match command_replies (py_lower (py_strip (Event.message_str event))) io self with
  | (Return replies, self') =>
      (Return (replies ++ queue_of self' (Event.group_id event)),
       flushed (Event.group_id event) self')
  | (Raise e, self') => (Raise e, self')
  end.
Proof.
  intros Hyes. unfold on_group_message, command_replies.
  rewrite bind_run. unfold get at 1. cbv beta iota.
  rewrite Hyes. cbn [negb]. rewrite bind_run.
  match goal with
  | |- match ?m with _ => _ end = _ => destruct m as [[replies|e] s1]
  end; [|done].
  rewrite bind_run, flush_run. reflexivity.
Qed.

(** The reports only write to the log. *)
Lemma room_report_state room_id io self :
  ∃ entries, (room_report room_id io self).2 = add_log entries self.
Proof.
  unfold room_report. rewrite bind_run. simpl.
  destruct (find_room_config self (PStr room_id)) as [cfg|].
  2:{ exists []. by rewrite add_log_nil. }
  rewrite bind_run, check_live_status_run.
  destruct (fetch_outcome (PStr room_id) io) as [res|]; [|by eexists].
  rewrite bind_run, subscript_live_status.
  destruct (Payload.live_status (Result.data res)) as [st|]; simpl;
    [|by eexists].
  run_bind. case_bool_decide; simpl; [|by eexists].
  run_bind. rewrite get_anchor_info_run. simpl.
  rewrite add_log_add_log. by eexists.
Qed.

Lemma all_rooms_report_state clock self :
  (all_rooms_report clock self).2 = self.
Proof.
  unfold all_rooms_report. rewrite bind_run. simpl.
  by destruct (monitor_list self).
Qed.

Lemma get_live_info_state room_id io self :
  ∃ entries, (get_live_info room_id io self).2 = add_log entries self.
Proof.
  unfold get_live_info.
  destruct room_id as [r|]; [destruct (str_truthy r)|].
  - apply room_report_state.
  - exists []. by rewrite all_rooms_report_state, add_log_nil.
  - exists []. by rewrite all_rooms_report_state, add_log_nil.
Qed.

Lemma command_replies_state message_str io self :
  ∃ entries, (command_replies message_str io self).2 = add_log entries self.
Proof.
  unfold command_replies.
  assert (∀ r, ∃ entries,
            ((get_live_info r io ≫= λ info, mret [info]) self).2 =
            add_log entries self) as Hinfo.
  { intros r. rewrite bind_run.
    destruct (get_live_info_state r io self) as [entries Hst].
    destruct (get_live_info r io self) as [[info|e] s1]; simpl in *; eauto. }
  case_bool_decide; [apply Hinfo|].
  destruct (startswith message_str "liveinfo ").
  - destruct (py_isdigit _); [apply Hinfo|].
    exists []. by rewrite add_log_nil.
  - exists []. by rewrite add_log_nil.
Qed.

(** What [on_group_message] leaves behind: the log may have grown, and the
    queue of the event's own group may have been emptied. *)
Lemma on_group_message_state event io self :
  ∃ entries,
    (on_group_message event io self).2 = add_log entries self ∨
    (on_group_message event io self).2 =
      flushed (Event.group_id event) (add_log entries self).
Proof.
  destruct (is_group_in_white_list self (Event.group_id event)) eqn:Hin.
  - rewrite on_group_message_allowed by done.
    destruct (command_replies_state
                (py_lower (py_strip (Event.message_str event))) io self)
      as [entries Hst].
    exists entries.
    destruct (command_replies _ io self) as [[replies|e] s1]; simpl in *;
      subst s1; auto.
  - rewrite on_group_message_rejects by done.
    exists []. left. by rewrite add_log_nil.
Qed.

Lemma flushed_tables group_id self :
  monitor_list (flushed group_id self) = monitor_list self ∧
  white_list_groups (flushed group_id self) = white_list_groups self ∧
  room_status (flushed group_id self) = room_status self.
Proof. unfold flushed. by destruct (queue_of self group_id). Qed.

Lemma flushed_other group_id self k :
  k ≠ PStr (py_str group_id) ->
  pending_notifications (flushed group_id self) !! k =
  pending_notifications self !! k.
Proof.
  intros Hk. unfold flushed. destruct (queue_of self group_id); [done|].
  simpl. by rewrite lookup_insert_ne.
Qed.

Lemma on_group_message_white_list event io self :
  white_list_groups (on_group_message event io self).2 = white_list_groups self.
Proof.
  destruct (on_group_message_state event io self) as [entries [-> | ->]];
    [done|].
  by destruct (flushed_tables (Event.group_id event) (add_log entries self))
    as (_ & -> & _).
Qed.

(** ** Runs of the whole system *)

Lemma is_group_in_white_list_false self group_id :
  py_str group_id ∉ py_str <$> white_list_groups self ->
  is_group_in_white_list self group_id = false.
Proof.
  intros Hno. unfold is_group_in_white_list.
  destruct (py_truthy group_id); [|done]. simpl.
  by apply bool_decide_eq_false_2.
Qed.

Lemma monitor_iteration_white_list env self :
  white_list_groups (monitor_iteration env self).2 = white_list_groups self.
Proof.
  destruct (monitor_iteration_tables env self) as (_ & -> & _).
  apply monitor_cycle_white_list.
Qed.

Lemma monitor_iteration_pending_frame env self k :
  k ∉ white_list_groups self ->
  pending_notifications (monitor_iteration env self).2 !! k =
  pending_notifications self !! k.
Proof.
  intros Hk. destruct (monitor_iteration_tables env self) as (_ & _ & _ & ->).
  by apply monitor_cycle_pending_frame.
Qed.

Lemma run_white_list acts self :
  white_list_groups (run acts self).2 = white_list_groups self.
Proof.
  revert self. induction acts as [|[env|event io] acts IH]; intros self; simpl.
  - done.
  - by rewrite IH, monitor_iteration_white_list.
  - by rewrite IH, on_group_message_white_list.
Qed.

Lemma run_rejects acts self group_id outputs :
  (group_id, outputs) ∈ (run acts self).1 ->
  py_str group_id ∉ py_str <$> white_list_groups self ->
  outputs = [].
Proof.
  revert self. induction acts as [|[env|event io] acts IH]; intros self Hin Hno;
    simpl in Hin.
  - by apply elem_of_nil in Hin.
  - apply (IH _ Hin). by rewrite monitor_iteration_white_list.
  - apply elem_of_cons in Hin as [Heq|Hin].
    + injection Heq as -> ->.
      by rewrite on_group_message_rejects
        by (by apply is_group_in_white_list_false).
    + apply (IH _ Hin). by rewrite on_group_message_white_list.
Qed.

(** ** Rounding to binary64 *)

Lemma round_half_even_error p q :
  0 < q -> 2 * Z.abs (round_half_even p q * q - p) <= q.
Proof.
  intros Hq. unfold round_half_even.
  pose proof (Z.div_mod p q ltac:(lia)) as Hdm.
  pose proof (Z.mod_pos_bound p q Hq) as Hr.
  set (m := p / q) in *. set (r := p mod q) in *.
  destruct (2 * r <? q) eqn:H1; [apply Z.ltb_lt in H1; nia|].
  apply Z.ltb_ge in H1.
  destruct (q <? 2 * r) eqn:H2; [apply Z.ltb_lt in H2; nia|].
  apply Z.ltb_ge in H2.
  destruct (Z.even m); nia.
Qed.

Lemma round_half_even_exact m q : 0 < q -> round_half_even (m * q) q = m.
Proof.
  intros Hq. unfold round_half_even.
  rewrite Z.div_mul, Z.mod_mul by lia.
  destruct (2 * 0 <? q) eqn:H; [done|]. apply Z.ltb_ge in H. lia.
Qed.

Lemma ulp_exponent_spec p q :
  0 < q ->
  0 <= ulp_exponent p q ∧
  (ulp_exponent p q = 0 ∨ q * 2 ^ (ulp_exponent p q + 52) <= Z.abs p).
Proof.
  intros Hq. unfold ulp_exponent.
  set (a := Z.abs p).
  destruct (a <? q * 2 ^ 53) eqn:Hsmall; [lia|].
  apply Z.ltb_ge in Hsmall.
  assert (0 < a) as Ha by (pose proof (Z.pow_pos_nonneg 2 53); nia).
  pose proof (Z.log2_spec a Ha) as [Hla Hua].
  pose proof (Z.log2_spec q Hq) as [Hlq Huq].
  pose proof (Z.log2_nonneg a) as Hna.
  pose proof (Z.log2_nonneg q) as Hnq.
  assert (Z.log2 q + 53 <= Z.log2 a) as Hl.
  { rewrite Z.add_comm, <- (Z.log2_mul_pow2 q 53) by lia.
    apply Z.log2_le_mono. lia. }
  set (l := Z.log2 a - Z.log2 q) in *.
  destruct (a <? q * 2 ^ l) eqn:Hcmp.
  - split; [lia|]. right.
    replace (l - 1 - 52 + 52) with (l - 1) by lia.
    assert (2 ^ Z.log2 a = 2 ^ Z.log2 q * 2 ^ (l - 1) * 2) as Hsplit.
    { replace (Z.log2 a) with (Z.log2 q + (l - 1) + 1) at 1 by lia.
      by rewrite !Z.pow_add_r by lia. }
    rewrite Z.pow_succ_r in Huq by lia.
    pose proof (Z.pow_pos_nonneg 2 (l - 1) ltac:(lia) ltac:(lia)).
    nia.
  - apply Z.ltb_ge in Hcmp. split; [lia|]. right.
    by replace (l - 52 + 52) with l by lia.
Qed.

Lemma round_float_exact m t q :
  0 < q -> 0 <= t -> Z.abs m < 2 ^ 53 ->
  round_float (m * 2 ^ t * q) q = m * 2 ^ t.
Proof.
  intros Hq Ht Hm. unfold round_float.
  destruct (ulp_exponent_spec (m * 2 ^ t * q) q Hq) as [Hs [H0|Hbig]].
  - rewrite H0, Z.pow_0_r, !Z.mul_1_r. by apply round_half_even_exact.
  - set (s := ulp_exponent (m * 2 ^ t * q) q) in *.
    assert (s <= t) as Hst.
    { pose proof (Z.pow_pos_nonneg 2 t ltac:(lia) Ht) as Hpt.
      rewrite !Z.abs_mul, (Z.abs_eq (2 ^ t)), (Z.abs_eq q) in Hbig by lia.
      assert (2 ^ (s + 52) < 2 ^ (53 + t)) as Hlt.
      { rewrite (Z.pow_add_r 2 53 t) by lia.
        eapply Z.le_lt_trans; [|apply Z.mul_lt_mono_pos_r; [exact Hpt|exact Hm]].
        apply (Z.mul_le_mono_pos_l _ _ q); [exact Hq|].
        etrans; [exact Hbig|]. apply Z.eq_le_incl. ring. }
      apply Z.pow_lt_mono_r_iff in Hlt; lia. }
    replace (m * 2 ^ t * q) with (m * 2 ^ (t - s) * (q * 2 ^ s)).
    2:{ replace t with ((t - s) + s) at 2 by lia.
        rewrite Z.pow_add_r by lia. ring. }
    rewrite round_half_even_exact.
    2:{ pose proof (Z.pow_pos_nonneg 2 s ltac:(lia) Hs). nia. }
    replace t with ((t - s) + s) at 2 by lia.
    rewrite Z.pow_add_r by lia. ring.
Qed.

Lemma round_float_error p q e :
  0 < q -> 0 <= e -> Z.abs p < q * 2 ^ (e + 53) ->
  2 * Z.abs (round_float p q * q - p) <= q * 2 ^ e.
Proof.
  intros Hq He Hp. unfold round_float.
  destruct (ulp_exponent_spec p q Hq) as [Hs Hcase].
  set (s := ulp_exponent p q) in *.
  assert (s <= e) as Hse.
  { destruct Hcase as [->|Hbig]; [done|].
    assert (2 ^ (s + 52) < 2 ^ (e + 53)) as Hlt.
    { apply (Z.mul_lt_mono_pos_l q); [exact Hq|]. lia. }
    apply Z.pow_lt_mono_r_iff in Hlt; lia. }
  pose proof (Z.pow_pos_nonneg 2 s ltac:(lia) Hs) as Hps.
  pose proof (round_half_even_error p (q * 2 ^ s) ltac:(nia)) as Herr.
  assert (2 ^ s <= 2 ^ e) as Hmono by (apply Z.pow_le_mono_r; lia).
  replace (round_half_even p (q * 2 ^ s) * 2 ^ s * q)
    with (round_half_even p (q * 2 ^ s) * (q * 2 ^ s)) by ring.
  nia.
Qed.

(** ** Durations below 2^33 seconds *)

Lemma float_one_pos : 0 < float_one.
Proof. reflexivity. Qed.

Lemma round_float_int n :
  Z.abs n < 2 ^ 53 -> round_float (n * float_one) 1 = n * float_one.
Proof.
  intros Hn. rewrite <- (Z.mul_1_r (n * float_one)) at 1.
  unfold float_one. by apply round_float_exact.
Qed.

Lemma int_of_float_int n : int_of_float (n * float_one) = n.
Proof. unfold int_of_float. apply Z.quot_mul. pose proof float_one_pos. lia. Qed.

(** [divmod] of a float by a whole number [c]: the quotient is the floor of
    the exact quotient, and the remainder is exact unless the dividend is
    negative, in which case it is rounded once more. *)
Lemma float_divmod_whole x c :
  0 < c < 2 ^ 12 -> Z.abs x < 2 ^ 40 * float_one ->
  float_divmod x (c * float_one) =
  (x / (c * float_one) * float_one,
   if 0 <=? x then x mod (c * float_one)
   else round_float (x mod (c * float_one)) 1).
Proof.
  intros Hc Hx. pose proof float_one_pos as HB.
  set (B := float_one) in *. set (w := c * B).
  assert (0 < w) as Hw by (unfold w; nia).
  unfold float_divmod, fmod. fold w.
  pose proof (Z.quot_rem' x w) as Hqr.
  set (q0 := Z.quot x w) in *. set (m0 := Z.rem x w) in *.
  assert (Z.abs m0 < w ∧ (0 <= x -> 0 <= m0) ∧ (x <= 0 -> m0 <= 0))
    as (Hm0 & Hpos & Hneg).
  { pose proof (Z.rem_bound_abs x w ltac:(lia)).
    split; [lia|]. split; intros ?.
    - by apply Z.rem_nonneg; lia.
    - by apply Z.rem_nonpos; lia. }
  assert (Z.abs (q0 * c) < 2 ^ 40) as Hq0.
  { assert (Z.abs (q0 * c) * B <= Z.abs x); [|nia].
    replace (Z.abs (q0 * c) * B) with (Z.abs (w * q0)).
    2:{ replace (w * q0) with (q0 * c * B) by (unfold w; ring).
        by rewrite (Z.abs_mul (q0 * c) B), (Z.abs_eq B) by lia. }
    assert (0 <= x -> 0 <= q0) as Hq0pos by (intros; by apply Z.quot_pos).
    assert (x <= 0 -> q0 <= 0) as Hq0neg.
    { intros. unfold q0. replace x with (- - x) by lia.
      rewrite Z.quot_opp_l by lia.
      pose proof (Z.quot_pos (- x) w ltac:(lia) Hw). lia. }
    destruct (Z.le_ge_cases 0 x); nia. }
  assert (Z.abs q0 < 2 ^ 40) as Hq0' by nia.
  assert (float_sub x m0 = q0 * c * B) as ->.
  { unfold float_sub. replace (x - m0) with (q0 * c * B) by (unfold w in *; lia).
    apply round_float_int. lia. }
  assert (float_div (q0 * c * B) w = q0 * B) as ->.
  { unfold float_div. rewrite (proj2 (Z.ltb_lt 0 w)) by done.
    replace (q0 * c * B * float_one) with (q0 * 2 ^ 1074 * w)
      by (unfold w, B, float_one; ring).
    rewrite round_float_exact; [done|done|done|lia]. }
  assert (∀ k, Z.abs k < 2 ^ 41 ->
            (if k * B =? 0 then 0
             else if float_one / 2 <? float_sub (k * B) (float_floor (k * B))
                  then float_add (float_floor (k * B)) float_one
                  else float_floor (k * B)) = k * B) as Hsnap.
  { intros k Hk. destruct (k * B =? 0) eqn:Hz; [apply Z.eqb_eq in Hz; lia|].
    unfold float_floor. fold B. rewrite Z.div_mul by lia.
    unfold float_sub. rewrite Z.sub_diag. by vm_compute (round_float 0 1). }
  destruct (m0 =? 0) eqn:Hz.
  - apply Z.eqb_eq in Hz. rewrite Hsnap by lia.
    assert (x / w = q0 ∧ x mod w = 0) as [-> ->].
    { split; [symmetry; apply (Z.div_unique x w q0 0); lia
             | symmetry; apply (Z.mod_unique x w q0 0); lia]. }
    by destruct (0 <=? x).
  - apply Z.eqb_neq in Hz.
    rewrite (proj2 (Z.ltb_ge w 0)) by lia. cbn [xorb].
    destruct (0 <=? x) eqn:Hsign.
    + apply Z.leb_le in Hsign. rewrite (proj2 (Z.ltb_ge m0 0)) by auto.
      rewrite Hsnap by lia.
      assert (x / w = q0 ∧ x mod w = m0) as [-> ->]; [|done].
      split; [symmetry; apply (Z.div_unique x w q0 m0); lia
             | symmetry; apply (Z.mod_unique x w q0 m0); lia].
    + apply Z.leb_gt in Hsign. rewrite (proj2 (Z.ltb_lt m0 0)) by lia.
      assert (float_sub (q0 * B) float_one = (q0 - 1) * B) as ->.
      { unfold float_sub. fold B.
        replace (q0 * B - B) with ((q0 - 1) * B) by ring.
        apply round_float_int. lia. }
      rewrite Hsnap by lia.
      assert (x / w = q0 - 1 ∧ x mod w = m0 + w) as [-> ->]; [|done].
      split; [symmetry; apply (Z.div_unique x w (q0 - 1) (m0 + w)); lia
             | symmetry; apply (Z.mod_unique x w (q0 - 1) (m0 + w)); lia].
Qed.

(** The float that [total_seconds] returns for [d] microseconds lies in the
    same second as [d], at least 2^-21 s away from its two ends unless [d] is
    a whole number of seconds, which is then returned exactly. *)
Lemma total_seconds_bracket d :
  Z.abs d < exact_span ->
  let n := d / usec_per_sec in
  let x := total_seconds d in
  x = n * float_one ∨
  (n * float_one + 2 ^ 1053 <= x <= (n + 1) * float_one - 2 ^ 1053).
Proof.
  intros Hd n x. unfold exact_span, usec_per_sec in *.
  pose proof (Z.div_mod d 1000000 ltac:(lia)) as Hdm.
  pose proof (Z.mod_pos_bound d 1000000 ltac:(lia)) as Hf.
  fold n in Hdm. set (f := d mod 1000000) in *.
  assert (Z.abs n < 2 ^ 53) as Hn.
  { change (2 ^ 33 * 1000000) with 8589934592000000 in Hd.
    change (2 ^ 53) with 9007199254740992. lia. }
  destruct (decide (f = 0)) as [Hz|Hnz].
  - left. unfold x, total_seconds, usec_per_sec.
    replace (d * float_one) with (n * 2 ^ 1074 * 1000000)
      by (unfold float_one; lia).
    by rewrite round_float_exact.
  - right.
    pose proof (round_float_error (d * float_one) 1000000 1054
                  ltac:(lia) ltac:(lia)) as Herr.
    fold (total_seconds d) in Herr. unfold total_seconds, usec_per_sec in x.
    fold x in Herr.
    assert (float_one = 2097152 * 2 ^ 1053) as HB by reflexivity.
    assert (2 ^ (1054 + 53) = 8589934592 * 2097152 * 2 ^ 1053) as Hp
      by reflexivity.
    assert (2 ^ 1054 = 2 * 2 ^ 1053) as Hp' by reflexivity.
    assert (0 < 2 ^ 1053) as HG by reflexivity.
    rewrite HB, Hp, Hp' in *. clear HB Hp Hp'.
    set (G := 2 ^ 1053) in *. clearbody G.
    change (2 ^ 33 * 1000000) with 8589934592000000 in Hd.
    assert (G <= f * G <= 999999 * G) as HfG by nia.
    assert (Z.abs (d * (2097152 * G)) < 1000000 * (8589934592 * 2097152 * G))
      as Hbound.
    { rewrite Z.abs_mul, (Z.abs_eq (2097152 * G)) by lia. nia. }
    specialize (Herr Hbound).
    replace (d * (2097152 * G)) with (2097152000000 * (n * G) + 2097152 * (f * G))
      in Herr by lia.
    lia.
Qed.

(** Floor and remainder of a float that lies in the second [n]. *)
Lemma whole_part x n c :
  0 < c ->
  n * float_one <= x < (n + 1) * float_one ->
  x / (c * float_one) = n / c ∧
  x mod (c * float_one) = x - n / c * (c * float_one).
Proof.
  intros Hc Hx. pose proof float_one_pos as HB.
  set (B := float_one) in *.
  assert (x / B = n) as Hn
    by (symmetry; apply (Z.div_unique x B n (x - n * B)); lia).
  assert (x / (c * B) = n / c) as Hq.
  { rewrite (Z.mul_comm c B), <- Z.div_div by lia. by rewrite Hn. }
  split; [exact Hq|].
  pose proof (Z.div_mod x (c * B) ltac:(nia)) as Hdm. rewrite Hq in Hdm. lia.
Qed.

Lemma hms_exact d :
  Z.abs d < exact_span ->
  hms d =
  (d / (3600 * usec_per_sec),
   d mod (3600 * usec_per_sec) / (60 * usec_per_sec),
   d mod (3600 * usec_per_sec) mod (60 * usec_per_sec) / usec_per_sec).
Proof.
  intros Hd. pose proof float_one_pos as HB.
  pose proof (total_seconds_bracket d Hd) as Hx. cbv zeta in Hx.
  unfold hms.
  assert (float_of_int 3600 = 3600 * float_one) as ->
    by (apply round_float_int; reflexivity).
  assert (float_of_int 60 = 60 * float_one) as ->
    by (apply round_float_int; reflexivity).
  set (x := total_seconds d) in *. set (n := d / usec_per_sec) in *.
  assert (float_one = 2097152 * 2 ^ 1053) as HG by reflexivity.
  assert (0 < 2 ^ 1053) as HGpos by reflexivity.
  assert (Z.abs n <= 2 ^ 33) as Hn.
  { unfold n, exact_span, usec_per_sec in *.
    pose proof (Z.div_mod d 1000000 ltac:(lia)).
    pose proof (Z.mod_pos_bound d 1000000 ltac:(lia)).
    change (2 ^ 33 * 1000000) with 8589934592000000 in Hd.
    change (2 ^ 33) with 8589934592. lia. }
  assert (n * float_one <= x < (n + 1) * float_one) as Hin by lia.
  rewrite float_divmod_whole.
  2:{ change (2 ^ 12) with 4096. lia. }
  2:{ change (2 ^ 33) with 8589934592 in Hn.
      change (2 ^ 40) with 1099511627776. nia. }
  destruct (whole_part x n 3600 ltac:(lia) Hin) as [Hq Hm].
  pose proof (Z.div_mod n 3600 ltac:(lia)) as Hn1.
  pose proof (Z.mod_pos_bound n 3600 ltac:(lia)) as Hn1b.
  set (h := n / 3600) in *. set (n1 := n mod 3600) in *.
  set (r := if 0 <=? x then x mod (3600 * float_one)
            else round_float (x mod (3600 * float_one)) 1).
  assert (n1 * float_one <= r < (n1 + 1) * float_one) as Hr.
  { unfold r. destruct (0 <=? x); [lia|].
    destruct Hx as [Hx|Hx].
    - replace (x mod (3600 * float_one)) with (n1 * float_one) by lia.
      rewrite round_float_int; [lia|].
      change (2 ^ 53) with 9007199254740992. lia.
    - pose proof (round_float_error (x mod (3600 * float_one)) 1 1033
                    ltac:(lia) ltac:(lia)) as Herr.
      assert (2 ^ (1033 + 53) = 4096 * float_one) as Hpow by reflexivity.
      rewrite Hpow in Herr. clear Hpow.
      assert (2 ^ 1033 * 2097152 = 2 * 2 ^ 1053) as Hp by reflexivity.
      rewrite Hm in *.
      set (y := x - h * (3600 * float_one)) in *.
      set (G := 2 ^ 1053) in *. set (E := 2 ^ 1033) in *.
      set (z := round_float y 1) in *. lia. }
  destruct (whole_part r n1 60 ltac:(lia) Hr) as [Hq2 Hm2].
  rewrite float_divmod_whole.
  2:{ change (2 ^ 12) with 4096. lia. }
  2:{ change (2 ^ 40) with 1099511627776. nia. }
  rewrite (proj2 (Z.leb_le 0 r)) by nia.
  rewrite Hq, Hq2, !int_of_float_int.
  pose proof (Z.div_mod n1 60 ltac:(lia)) as Hn2.
  pose proof (Z.mod_pos_bound n1 60 ltac:(lia)) as Hn2b.
  set (m := n1 / 60) in *. set (n2 := n1 mod 60) in *.
  assert (int_of_float (r mod (60 * float_one)) = n2) as ->.
  { unfold int_of_float. rewrite Z.quot_div_nonneg by lia.
    symmetry. apply (Z.div_unique _ _ n2 (r - n1 * float_one)); lia. }
  unfold n, usec_per_sec in *.
  pose proof (Z.div_mod d 1000000 ltac:(lia)) as Hd1.
  pose proof (Z.mod_pos_bound d 1000000 ltac:(lia)) as Hd1b.
  set (n0 := d / 1000000) in *. set (f := d mod 1000000) in *.
  change (3600 * 1000000) with 3600000000.
  change (60 * 1000000) with 60000000.
  assert (d / 3600000000 = h ∧ d mod 3600000000 = 1000000 * n1 + f) as [-> ->].
  { split; [symmetry; apply (Z.div_unique d _ h (1000000 * n1 + f)); lia
           | symmetry; apply (Z.mod_unique d _ h (1000000 * n1 + f)); lia]. }
  assert ((1000000 * n1 + f) / 60000000 = m ∧
          (1000000 * n1 + f) mod 60000000 = 1000000 * n2 + f) as [-> ->].
  { split; [symmetry; apply (Z.div_unique _ _ m (1000000 * n2 + f)); lia
           | symmetry; apply (Z.mod_unique _ _ m (1000000 * n2 + f)); lia]. }
  do 2 f_equal. apply (Z.div_unique _ _ n2 f); lia.
Qed.

(** Below 2^33 seconds the parts of a duration are its exact quotients. *)
Lemma duration_exact d :
  Z.abs d < exact_span ->
  duration_hours d = d / (3600 * usec_per_sec) ∧
  duration_minutes d = d mod (3600 * usec_per_sec) / (60 * usec_per_sec) ∧
  duration_seconds d =
    d mod (3600 * usec_per_sec) mod (60 * usec_per_sec) / usec_per_sec.
Proof.
  intros Hd. unfold duration_hours, duration_minutes, duration_seconds.
  by rewrite (hms_exact d Hd).
Qed.

Lemma duration_text_exact d :
  Z.abs d < exact_span ->
  duration_text d =
  pretty (d / (3600 * usec_per_sec)) +:+ "时" +:+
  pretty (d mod (3600 * usec_per_sec) / (60 * usec_per_sec)) +:+ "分".
Proof.
  intros Hd. unfold duration_text.
  by destruct (duration_exact d Hd) as (-> & -> & _).
Qed.

Lemma duration_text_below_a_minute d :
  0 <= d < 60 * usec_per_sec -> duration_text d = "0时0分".
Proof.
  intros Hd. rewrite duration_text_exact.
  - unfold usec_per_sec in *.
    rewrite Z.mod_small by lia. rewrite !Z.div_small by lia. reflexivity.
  - unfold exact_span, usec_per_sec in *.
    change (2 ^ 33 * 1000000) with 8589934592000000. lia.
Qed.

Lemma duration_text_1h23 t :
  duration_text (t + (3600 + 23 * 60) * usec_per_sec - t) = "1时23分".
Proof.
  replace (t + (3600 + 23 * 60) * usec_per_sec - t)
    with ((3600 + 23 * 60) * usec_per_sec) by lia.
  vm_compute. reflexivity.
Qed.

(** ** Text below U+0080 *)

Lemma ascii_char_cases (P : ascii -> Prop) :
  (∀ b0 b1 b2 b3 b4 b5 b6 : bool, P (Ascii b0 b1 b2 b3 b4 b5 b6 false)) ->
  ∀ c, (nat_of_ascii c <? 128)%nat = true -> P c.
Proof.
  intros HP [b0 b1 b2 b3 b4 b5 b6 []] Hc; [|apply HP].
  exfalso. destruct b0, b1, b2, b3, b4, b5, b6; vm_compute in Hc; discriminate.
Qed.

Lemma code_points_ascii s :
  is_ascii_text s = true ->
  code_points s = byte_value <$> list_ascii_of_string s.
Proof.
  unfold is_ascii_text, code_points.
  induction s as [|c s IH]; [done|]. cbn [list_ascii_of_string forallb].
  intros [Hc Hs]%andb_true_iff. specialize (IH Hs).
  revert c Hc.
  apply (ascii_char_cases (fun c =>
    code_point <$> utf8_chars (String c s) =
    byte_value <$> c :: list_ascii_of_string s)).
  intros b0 b1 b2 b3 b4 b5 b6.
  rewrite fmap_cons, <- IH.
  destruct b0, b1, b2, b3, b4, b5, b6; reflexivity.
Qed.

Lemma is_digit_ascii c :
  (nat_of_ascii c <? 128)%nat = true ->
  is_digit (byte_value c) = true <-> is_decimal_digit c.
Proof.
  revert c. apply ascii_char_cases. intros b0 b1 b2 b3 b4 b5 b6.
  unfold is_decimal_digit. simpl. rewrite !elem_of_cons, elem_of_nil.
  destruct b0, b1, b2, b3, b4, b5, b6; vm_compute;
    (split; [intros H; try discriminate H; auto 11 | intros H; try reflexivity;
             repeat (destruct H as [H|H]; [discriminate H|]); destruct H]).
Qed.

Lemma is_decimal_digit_ascii c :
  is_decimal_digit c -> (nat_of_ascii c <? 128)%nat = true.
Proof.
  unfold is_decimal_digit. simpl. rewrite !elem_of_cons, elem_of_nil.
  intros H. repeat (destruct H as [->|H]; [reflexivity|]). destruct H.
Qed.

(** On ASCII text [str.isdigit] is the test for a non-negative integer
    literal. *)
Lemma py_isdigit_ascii s :
  is_ascii_text s = true ->
  py_isdigit s = true <-> nonneg_int_literal s.
Proof.
  intros Hs. unfold py_isdigit, nonneg_int_literal.
  rewrite (code_points_ascii s Hs).
  assert (∀ l, forallb (fun c => (nat_of_ascii c <? 128)%nat) l = true ->
               forallb is_digit (byte_value <$> l) = true <->
               Forall is_decimal_digit l) as Hall.
  { induction l as [|c l IH]; simpl.
    - split; [constructor | done].
    - intros [Hc Hl]%andb_true_iff.
      rewrite andb_true_iff, (IH Hl), (is_digit_ascii c Hc), Forall_cons.
      done. }
  destruct s as [|c s]; simpl.
  - split; [done | by intros [? _]].
  - rewrite <- (Hall (c :: list_ascii_of_string s) Hs). simpl.
    split; [by intros H; split | by intros [_ H]].
Qed.

(** An integer literal is ASCII text that [str.isdigit] accepts. *)
Lemma nonneg_int_literal_isdigit s :
  nonneg_int_literal s -> is_ascii_text s = true ∧ py_isdigit s = true.
Proof.
  intros Hlit.
  assert (is_ascii_text s = true) as Hs.
  { destruct Hlit as [_ Hall]. unfold is_ascii_text.
    induction Hall as [|c l Hc _ IH]; [done|]. simpl.
    by rewrite (is_decimal_digit_ascii c Hc). }
  split; [done|]. by apply py_isdigit_ascii.
Qed.

Lemma py_isdigit_truthy v : py_isdigit v = true -> str_truthy v = true.
Proof. by destruct v. Qed.

(** The text methods beyond ASCII: [str.strip] removes the ideographic
    space U+3000 and the no-break space U+00A0, [str.lower] lower-cases
    full-width and Greek letters, with the final sigma, and [str.isdigit]
    accepts the superscript two and full-width digits. *)
Lemma text_methods_beyond_ascii :
  py_strip (String "227" (String "128" (String "128"
              ("liveinfo" +:+ String "194" (String "160" EmptyString)))))
    = "liveinfo" ∧
  py_lower "ＬＩＶＥ ΟΔΟΣ" = "ｌｉｖｅ οδος" ∧
  py_isdigit "²" = true ∧
  py_isdigit "１２３" = true ∧
  py_isdigit "12a" = false.
Proof. vm_compute. repeat split. Qed.

(** ** The command with an argument *)

Lemma startswith_not_liveinfo m :
  startswith m "liveinfo " = true -> m ≠ "liveinfo".
Proof. intros H ->. vm_compute in H. discriminate. Qed.

Lemma command_replies_room message_str io self :
  startswith message_str "liveinfo " = true ->
  let value := py_strip (slice_from 9 message_str) in
  command_replies message_str io self =
  if py_isdigit value then
    match room_report value (query_io io) self with
    | (Return info, self') => (Return [info], self')
    | (Raise e, self') => (Raise e, self')
    end
  else (Return ["请输入正确的直播间ID"], self).
Proof.
  intros Hstart value. unfold command_replies.
  rewrite bool_decide_eq_false_2 by (by apply startswith_not_liveinfo).
  rewrite Hstart. fold value.
  destruct (py_isdigit value) eqn:Hd; [|done].
  rewrite bind_run. unfold get_live_info.
  rewrite (py_isdigit_truthy value Hd).
  by destruct (room_report value (query_io io) self) as [[info|e] s1].
Qed.

Lemma room_report_unknown value io self :
  find_room_config self (PStr value) = None ->
  room_report value io self =
  (Return ("未找到直播间 " +:+ value +:+ " 的配置"), self).
Proof.
  intros Hcfg. unfold room_report. rewrite bind_run. simpl. by rewrite Hcfg.
Qed.

Lemma room_report_unreachable value io self :
  is_Some (find_room_config self (PStr value)) ->
  fetch_outcome (PStr value) io = None ->
  room_report value io self =
  (Return ("无法获取直播间 " +:+ value +:+ " 的信息"),
   add_log (check_log (PStr value) io) self).
Proof.
  intros [cfg Hcfg] Hfail. unfold room_report. rewrite bind_run. simpl.
  rewrite Hcfg, bind_run, check_live_status_run, Hfail. reflexivity.
Qed.

(** When the payload gives no status, reading it raises and the report is
    abandoned. *)
Lemma room_report_raises value io self room_config d :
  find_room_config self (PStr value) = Some room_config ->
  status_reply io = HttpJson (Some 0) (Some d) ->
  Payload.live_status d = None ->
  room_report value io self =
  (Raise (subscript_error d "live_status"), self).
Proof.
  intros Hcfg Hreply Hstatus.
  unfold room_report. rewrite bind_run. simpl. rewrite Hcfg.
  rewrite bind_run, check_live_status_run.
  unfold fetch_outcome, check_log. rewrite Hreply, add_log_nil.
  cbn [Result.data]. by rewrite bind_run, subscript_live_status, Hstatus.
Qed.

Lemma room_report_off_air value io self room_config d status :
  find_room_config self (PStr value) = Some room_config ->
  status_reply io = HttpJson (Some 0) (Some d) ->
  Payload.live_status d = Some status ->
  status ≠ 1 ->
  room_report value io self =
  (Return
     (("直播间ID: " +:+ value +:+ LF +:+
       "主播: " +:+ config_anchor_name room_config (PStr value) +:+ LF +:+
       "状态: " +:+ "未开播" +:+ LF) +:+
      "最后检查: " +:+ strftime (fetched_at io) +:+ LF +:+
      "直播间链接: https://live.bilibili.com/" +:+ value),
   self).
Proof.
  intros Hcfg Hreply Hstatus Hoff.
  unfold room_report. rewrite bind_run. simpl. rewrite Hcfg.
  rewrite bind_run, check_live_status_run.
  unfold fetch_outcome, check_log. rewrite Hreply, add_log_nil.
  cbn [Result.data Result.check_time].
  rewrite bind_run, subscript_live_status, Hstatus. rewrite bind_run. simpl.
  rewrite (bool_decide_eq_false_2 (status = 1)) by done. reflexivity.
Qed.

Lemma room_report_on_air value io self room_config d :
  find_room_config self (PStr value) = Some room_config ->
  status_reply io = HttpJson (Some 0) (Some d) ->
  Payload.live_status d = Some 1 ->
  let head :=
    "直播间ID: " +:+ value +:+ LF +:+
    "主播: " +:+ config_anchor_name room_config (PStr value) +:+ LF +:+
    "状态: " +:+ "直播中" +:+ LF in
  let timed :=
    match room_status self !! PStr value ≫= RoomStatus.live_start_time with
    | Some start =>
        head +:+ "开播时间: " +:+ strftime start +:+ LF +:+
        "直播时长: " +:+ pretty (duration_hours (now io - start)) +:+ "小时" +:+
        pretty (duration_minutes (now io - start)) +:+ "分钟" +:+
        pretty (duration_seconds (now io - start)) +:+ "秒" +:+ LF
    | None => head
    end in
  room_report value io self =
  (Return
     ((timed +:+ "标题: " +:+ AnchorInfo.title (anchor_info_of (PStr value) io) +:+
       LF) +:+
      "最后检查: " +:+ strftime (fetched_at io) +:+ LF +:+
      "直播间链接: https://live.bilibili.com/" +:+ value),
   add_log (anchor_log (PStr value) io) self).
Proof.
  intros Hcfg Hreply Hstatus head timed.
  unfold room_report. rewrite bind_run. simpl. rewrite Hcfg.
  rewrite bind_run, check_live_status_run.
  unfold fetch_outcome, check_log. rewrite Hreply, add_log_nil.
  cbn [Result.data Result.check_time].
  rewrite bind_run, subscript_live_status, Hstatus. rewrite bind_run. simpl.
  rewrite bind_run. unfold get at 1. cbv beta iota.
  rewrite bind_run, get_anchor_info_run. reflexivity.
Qed.

(** * The properties of the specification *)




(** C2 (amended).  For a configured room with no record yet, the first
    successful poll only writes the baseline record and its log line: no
    queue changes, even if the status is 1.  The second successful poll, when
    handling it raises no exception, queues a notification if and only if its
    status differs from the first one's; with an equal status it changes
    nothing at all. *)
Theorem C2_baseline_then_change
    (io1 io2 : room_io) (self : plugin) (room_id : pyval)
    (d1 d2 : Payload.t) (t1 t2 : datetime) (s1 s2 : Z)
    (room_config : RoomConfig.t) :
  find_room_config self room_id = Some room_config ->
  room_status self !! room_id = None ->
  Payload.live_status d1 = Some s1 ->
  Payload.live_status d2 = Some s2 ->
  let first := process_result io1 (Some (Result.mk room_id d1 t1)) self in
  let second := process_result io2 (Some (Result.mk room_id d2 t2)) first.2 in
  (first.1 = Return tt ∧
   pending_notifications first.2 = pending_notifications self ∧
   room_status first.2 =
     <[room_id := RoomStatus.mk s1 None (config_anchor_name room_config room_id)]>
       (room_status self) ∧
   logger first.2 =
     logger self ++
     [LogInit room_id (config_anchor_name room_config room_id)
              (bool_decide (s1 = 1))]) ∧
  (second.1 = Return tt -> (notified room_id first.2 second.2 <-> s2 ≠ s1)) ∧
  (s2 = s1 -> second = (Return tt, first.2)).
Proof.
  intros Hcfg Hnew Hs1 Hs2 first second.
  assert (first = (Return tt,
            baseline room_id s1 (config_anchor_name room_config room_id) self))
    as Hfirst by (by apply process_result_baseline).
  split; [by rewrite Hfirst|].
  set (rs := RoomStatus.mk s1 None (config_anchor_name room_config room_id)).
  assert (find_room_config first.2 room_id = Some room_config) as Hcfg'
    by (by rewrite Hfirst).
  assert (room_status first.2 !! room_id = Some rs) as Hrs.
  { rewrite Hfirst. simpl. apply lookup_insert_eq. }
  assert (s2 = s1 -> second = (Return tt, first.2)) as Hsame.
  { intros ->. subst second.
    by apply (process_result_same io2 first.2 room_id d2 t2 s1 room_config)
      with (rs := rs). }
  split; [|exact Hsame].
  intros Hret. split.
  - intros Hnote Heq. specialize (Hsame Heq).
    rewrite Hsame in Hnote. simpl in Hnote. by apply not_notified_self in Hnote.
  - intros Hdiff. subst second.
    destruct (decide (s2 = 1)) as [->|Hoff].
    + destruct (process_result_handled io2 (Result.mk room_id d2 t2) first.2)
        as [ | | | st cfg rs' Hst _ Hrs' Hlast | st cfg rs' Hst _ _ _ Hoff' | | ];
        simpl in *; simplify_eq.
      apply notified_went_live.
    + rewrite (process_result_offline io2 first.2 room_id d2 t2 s2 room_config)
        with (rs := rs); auto.
      apply notified_went_offline.
Qed.

Lemma C2_witness :
  let first :=
    process_result (Sample.all_offline 0%nat)
                   (Some (SampleResults.foo 1 None)) Sample.fresh in
  let second :=
    process_result (Sample.all_ended 0%nat)
                   (Some (SampleResults.foo 0 None)) first.2 in
  pending_notifications first.2 = ∅ ∧
  (notified (PStr "123") first.2 second.2 <-> 0 ≠ 1) ∧
  pending_notifications second.2 !! PStr "1044727986" = Some ["Foo的直播已结束"].
Proof.
  intros first second.
  destruct (C2_baseline_then_change (Sample.all_offline 0%nat)
              (Sample.all_ended 0%nat) Sample.fresh (PStr "123")
              (Payload.mk (Some 1) None) (Payload.mk (Some 0) None)
              (Sample.t0 * usec_per_sec) (Sample.t0 * usec_per_sec) 1 0
              Sample.foo eq_refl eq_refl eq_refl eq_refl)
    as ((_ & Hpending & _) & Hiff & _).
  assert (second.1 = Return tt) as Hret by (vm_compute; reflexivity).
  specialize (Hiff Hret).
  split; [exact Hpending|]. split; [exact Hiff|].
  destruct (proj2 Hiff ltac:(discriminate)) as (message & entries & Henq & Hlog).
  assert (logger second.2 =
          logger first.2 ++ [] ++ [LogChange (PStr "123") 1 "Foo的直播已结束"])
    as Hlogged by (vm_compute; reflexivity).
  change (logger second.2 =
          logger first.2 ++ entries ++ [LogChange (PStr "123") 1 message])
    in Hlog.
  rewrite Hlogged in Hlog. apply app_inv_head in Hlog.
  destruct entries as [|entry [|entry' entries]]; try discriminate Hlog.
  injection Hlog as <-.
  change (enqueued "Foo的直播已结束" (white_list_groups first.2)
            (pending_notifications first.2) (pending_notifications second.2))
    in Henq.
  rewrite (Henq (PStr "1044727986")).
  vm_compute. reflexivity.
Defined.

(** C2 as stated fails.  Room 123 is first seen offline; the second poll
    reports status 1 in a payload without [live_time].  The status differs,
    yet reading the start time raises before anything is queued. *)
Lemma C2_counterexample :
  let first := SampleResults.seen 0 in
  let second :=
    process_result (Sample.live_without_start 0%nat)
                   (Some (SampleResults.foo 1 None)) first in
  1 ≠ 0 ∧
  white_list_groups first = [PStr "1044727986"] ∧
  second.1 = Raise (KeyError "live_time") ∧
  pending_notifications second.2 = pending_notifications first ∧
  ¬ notified (PStr "123") first second.2.
Proof.
  assert ((process_result (Sample.live_without_start 0%nat)
             (Some (SampleResults.foo 1 None)) (SampleResults.seen 0)) =
          (Raise (KeyError "live_time"), SampleResults.seen 0)) as Hrun
    by (vm_compute; reflexivity).
  cbv zeta. rewrite Hrun. simpl.
  repeat split; [lia | apply not_notified_self].
Qed.

(** C3 (amended).  A configured room is seen for the first time with status
    [s0], then polled three times with statuses 1, 1, 0.  If the baseline was
    LIVE ([s0 = 1]) the two LIVE polls change nothing and the OFFLINE poll
    enqueues one message, the one without duration: the queue of a group
    listed once is the one it had followed by that message, and no other key
    changes.  If the baseline was not LIVE and the first LIVE poll carries a
    start time that converts, that poll enqueues the go-live message, the
    second LIVE poll changes nothing, and the OFFLINE poll enqueues one
    OFFLINE message: the queue of a group listed once has grown by those two
    messages, in that order.  The queues are stated by their contents (see
    [enqueued]). *)
Theorem C3_live_live_offline
    (self : plugin) (room_id : pyval) (room_config : RoomConfig.t)
    (io0 io1 io2 io3 : room_io) (d0 d1 d2 d3 : Payload.t)
    (t0 t1 t2 t3 : datetime) (s0 : Z) :
  find_room_config self room_id = Some room_config ->
  room_status self !! room_id = None ->
  Payload.live_status d0 = Some s0 ->
  Payload.live_status d1 = Some 1 ->
  Payload.live_status d2 = Some 1 ->
  Payload.live_status d3 = Some 0 ->
  let name := config_anchor_name room_config room_id in
  let groups := white_list_groups self in
  let before := pending_notifications self in
  let p0 := (process_result io0 (Some (Result.mk room_id d0 t0)) self).2 in
  let p1 := (process_result io1 (Some (Result.mk room_id d1 t1)) p0).2 in
  let p2 := (process_result io2 (Some (Result.mk room_id d2 t2)) p1).2 in
  let p3 := (process_result io3 (Some (Result.mk room_id d3 t3)) p2).2 in
  pending_notifications p0 = before ∧
  (s0 = 1 ->
     p1 = p0 ∧ p2 = p1 ∧
     enqueued (name +:+ "的直播已结束") groups before (pending_notifications p3) ∧
     (∀ k, occurrences k groups = 1%nat ->
        pending_notifications p3 !! k =
        Some (default [] (before !! k) ++ [name +:+ "的直播已结束"])) ∧
     (∀ k, k ∉ groups -> pending_notifications p3 !! k = before !! k)) ∧
  (s0 ≠ 1 ->
     ∀ v t, Payload.live_time d1 = Some v -> fromtimestamp v = inr t ->
       let info := anchor_info_of room_id io1 in
       let live :=
         live_message (AnchorInfo.name info) room_id (AnchorInfo.title info) in
       let offline :=
         offline_message (AnchorInfo.name info) (Some t) (now io3) in
       enqueued live groups before (pending_notifications p1) ∧
       p2 = p1 ∧
       enqueued offline groups (pending_notifications p1)
                (pending_notifications p3) ∧
       (∀ k, occurrences k groups = 1%nat ->
          pending_notifications p3 !! k =
          Some (default [] (before !! k) ++ [live; offline])) ∧
       (∀ k, k ∉ groups -> pending_notifications p3 !! k = before !! k)).
Proof.
  intros Hcfg Hnew Hs0 Hs1 Hs2 Hs3 name groups before p0 p1 p2 p3.
  assert (p0 = baseline room_id s0 name self) as Hp0.
  { unfold p0.
    by rewrite (process_result_baseline io0 self room_id d0 t0 s0 room_config). }
  assert (find_room_config p0 room_id = Some room_config) as Hcfg0
    by (by rewrite Hp0).
  assert (room_status p0 !! room_id = Some (RoomStatus.mk s0 None name)) as Hrs0.
  { rewrite Hp0. simpl. apply lookup_insert_eq. }
  split; [by rewrite Hp0|]. split.
  - intros Hlive.
    assert (p1 = p0) as Hp1.
    { unfold p1.
      by rewrite (process_result_same io1 p0 room_id d1 t1 1 room_config)
        with (rs := RoomStatus.mk s0 None name). }
    assert (p2 = p1) as Hp2.
    { unfold p2. rewrite Hp1.
      by rewrite (process_result_same io2 p0 room_id d2 t2 1 room_config)
        with (rs := RoomStatus.mk s0 None name). }
    assert (enqueued (name +:+ "的直播已结束") groups before
                     (pending_notifications p3)) as Henq.
    { unfold p3. rewrite Hp2, Hp1.
      rewrite (process_result_offline io3 p0 room_id d3 t3 0 room_config)
        with (rs := RoomStatus.mk s0 None name); [|done|done|done|simpl; lia|lia].
      rewrite Hp0. apply push_all_enqueued. }
    split; [exact Hp1|]. split; [exact Hp2|]. split; [exact Henq|]. split.
    + intros k Hone. exact (enqueued_once _ _ _ _ k Henq Hone).
    + intros k Hout. exact (enqueued_elsewhere _ _ _ _ k Henq Hout).
  - intros Hne v t Hv Ht info live offline.
    destruct (find_room_config_preserved io1 (Some (Result.mk room_id d1 t1))
                p0 room_id room_config Hcfg0) as [cfg1 Hcfg1].
    fold p1 in Hcfg1.
    assert (p1 = went_live room_id t io1 p0) as Hp1.
    { unfold p1.
      by rewrite (process_result_live io1 p0 room_id d1 t1 1 room_config)
        with (rs := RoomStatus.mk s0 None name) (v := v) (t := t). }
    assert (room_status p1 !! room_id =
            Some (RoomStatus.mk 1 (Some t) (AnchorInfo.name info))) as Hrs1.
    { rewrite Hp1. simpl. rewrite !lookup_alter_eq, Hrs0. reflexivity. }
    assert (p2 = p1) as Hp2.
    { unfold p2.
      by rewrite (process_result_same io2 p1 room_id d2 t2 1 cfg1)
        with (rs := RoomStatus.mk 1 (Some t) (AnchorInfo.name info)). }
    assert (enqueued live groups before (pending_notifications p1)) as Hlive.
    { rewrite Hp1, Hp0. apply push_all_enqueued. }
    assert (enqueued offline groups (pending_notifications p1)
                     (pending_notifications p3)) as Hoff.
    { unfold p3. rewrite Hp2.
      rewrite (process_result_offline io3 p1 room_id d3 t3 0 cfg1)
        with (rs := RoomStatus.mk 1 (Some t) (AnchorInfo.name info)); [|done..].
      assert (white_list_groups p1 = groups) as Hgroups by (by rewrite Hp1, Hp0).
      unfold went_offline. simpl. rewrite Hgroups. apply push_all_enqueued. }
    split; [exact Hlive|]. split; [exact Hp2|]. split; [exact Hoff|]. split.
    + intros k Hone. exact (enqueued_twice _ _ _ _ _ _ k Hlive Hoff Hone).
    + intros k Hout.
      rewrite (enqueued_elsewhere _ _ _ _ k Hoff Hout).
      exact (enqueued_elsewhere _ _ _ _ k Hlive Hout).
Qed.

Lemma C3_witness :
  let final :=
    polled [(Sample.all_live 0%nat, SampleResults.foo 1 None);
            (Sample.all_live 0%nat, SampleResults.foo 1 None);
            (Sample.all_live 0%nat, SampleResults.foo 1 None);
            (Sample.all_ended 0%nat, SampleResults.foo 0 None)]
           Sample.fresh in
  pending_notifications final !! PStr "1044727986" = Some ["Foo的直播已结束"].
Proof.
  destruct (C3_live_live_offline Sample.fresh (PStr "123") Sample.foo
              (Sample.all_live 0%nat) (Sample.all_live 0%nat)
              (Sample.all_live 0%nat) (Sample.all_ended 0%nat)
              (Payload.mk (Some 1) None) (Payload.mk (Some 1) None)
              (Payload.mk (Some 1) None) (Payload.mk (Some 0) None)
              (Sample.t0 * usec_per_sec) (Sample.t0 * usec_per_sec)
              (Sample.t0 * usec_per_sec) (Sample.t0 * usec_per_sec) 1
              eq_refl eq_refl eq_refl eq_refl eq_refl eq_refl)
    as (_ & Hlive & _).
  destruct (Hlive eq_refl) as (_ & _ & _ & Hone & _).
  exact (Hone (PStr "1044727986") eq_refl).
Defined.

(** C3 as stated fails.  After a baseline of OFFLINE, the polls LIVE, LIVE,
    OFFLINE of room 123 leave two messages in the group's queue, the go-live
    one and the OFFLINE one, not the OFFLINE one alone. *)
Lemma C3_counterexample :
  let final :=
    polled [(Sample.all_offline 0%nat, SampleResults.foo 0 None);
            (Sample.all_live 0%nat, SampleResults.foo 1 (Some (PInt Sample.t0)));
            (Sample.all_live 0%nat, SampleResults.foo 1 (Some (PInt Sample.t0)));
            (Sample.all_ended 0%nat, SampleResults.foo 0 None)]
           Sample.fresh in
  pending_notifications final !! PStr "1044727986" =
  Some ["主播123开播了！" +:+ LF +:+ "传送门：https://live.bilibili.com/123";
        "主播123的直播已结束，一共直播了1时23分"].
Proof. vm_compute. reflexivity. Qed.

(** C4 (amended).  A status request never raises: [check_live_status] logs
    the exception and returns no result, which the loop skips.  A turn of the
    monitor loop never raises either, nor does the loop over any number of
    turns.  But an exception raised while a result is handled is caught by
    the handler of the whole turn: it is logged once, and the results after
    the one that raised are not handled in that turn. *)
Theorem C4_exceptions_end_the_turn_not_the_loop
    (env : nat -> room_io) (cycles : list (nat -> room_io)) (self : plugin) :
  (∀ room_id io,
     check_live_status room_id io self =
     (Return (fetch_outcome room_id io), add_log (check_log room_id io) self)) ∧
  (∀ room_id io e,
     status_reply io = HttpRaise e ->
     fetch_outcome room_id io = None ∧
     check_log room_id io = [LogCheckFailed room_id e]) ∧
  (∀ i results, process_all env ((i, None) :: results) self =
                process_all env results self) ∧
  (monitor_iteration env self).1 = Return tt ∧
  (monitor_task cycles self).1 = Return tt ∧
  (∀ e body,
     monitor_cycle env self = (Raise e, body) ->
     monitor_iteration env self =
     (Return tt, add_log [LogMonitorError e] body)) ∧
  (∀ before r after s1 s2 e,
     process_all env before self = (Return tt, s1) ->
     process_result (env r.1) r.2 s1 = (Raise e, s2) ->
     process_all env (before ++ r :: after) self = (Raise e, s1)).
Proof.
  repeat split.
  - intros. apply check_live_status_run.
  - unfold fetch_outcome. by rewrite H.
  - unfold check_log. by rewrite H.
  - apply monitor_iteration_returns.
  - apply monitor_loop_returns.
  - intros e body Hrun. by rewrite monitor_iteration_run, Hrun.
  - intros before r after s1 s2 e Hbefore Hraise.
    assert (s2 = s1) as ->.
    { destruct r as [i [res|]]; cbn [fst snd] in Hraise; [|done].
      pose proof (process_result_handled (env i) res s1) as Hh.
      rewrite Hraise in Hh. by inversion Hh. }
    by apply for_each_raise with (s1 := s1).
Qed.

Lemma C4_witness :
  monitor_iteration Sample.live_without_start
    (monitor_iteration Sample.all_offline Sample.fresh).2 =
  (Return tt,
   add_log [LogMonitorError (KeyError "live_time")]
     (monitor_iteration Sample.all_offline Sample.fresh).2).
Proof.
  destruct (C4_exceptions_end_the_turn_not_the_loop Sample.live_without_start []
              (monitor_iteration Sample.all_offline Sample.fresh).2)
    as (_ & _ & _ & _ & _ & Hcaught & _).
  apply Hcaught. vm_compute. reflexivity.
Defined.

(** C4 as stated fails.  With both rooms recorded offline, a turn in which
    both requests succeed with status 1 but the payload of room 123 has no
    [live_time] stops at room 123: room 456, whose own result is sound, stays
    recorded offline and nothing is queued, whereas handling each result
    under its own handler would have recorded it live and queued its
    message. *)
Lemma C4_counterexample :
  let before := (monitor_iteration Sample.all_offline Sample.fresh).2 in
  let env := Sample.live_without_start in
  let after := (monitor_iteration env before).2 in
  let isolated :=
    (spec_isolated_process_all env (fetched env 0 (room_ids before)) before).2 in
  (RoomStatus.last_status <$> room_status after !! PStr "456" = Some 0 ∧
   pending_notifications after !! PStr "1044727986" = None) ∧
  (RoomStatus.last_status <$> room_status isolated !! PStr "456" = Some 1 ∧
   pending_notifications isolated !! PStr "1044727986" =
   Some ["主播456开播了！" +:+ LF +:+ "传送门：https://live.bilibili.com/456"]).
Proof. vm_compute. repeat split. Qed.

(** C5, evaluated where the code departs from it.  The allow-list holds the
    group id as the number 1044727986.  Both rooms are first seen live, then
    offline, so the monitor queues two messages, under the key it iterates
    over: the number.  A chat line from group "1044727986" passes the
    allow-list test, which compares [str] forms, but the handler reads the
    queue under the string key: it yields nothing and the two messages stay
    queued.  In general no event ever reads or clears a queue stored under a
    number. *)
Theorem C5_numeric_group_id_is_never_flushed :
  (let self :=
     (monitor_task [Sample.all_live; Sample.all_ended] SampleChat.int_group).2 in
   let r := on_group_message SampleChat.hello SampleChat.quiet self in
   is_group_in_white_list self (Event.group_id SampleChat.hello) = true ∧
   pending_notifications self !! PInt 1044727986 =
     Some ["Foo的直播已结束"; "主播456的直播已结束"] ∧
   r.1 = Return [] ∧
   pending_notifications r.2 !! PInt 1044727986 =
     Some ["Foo的直播已结束"; "主播456的直播已结束"]) ∧
  (∀ z event io self,
     pending_notifications (on_group_message event io self).2 !! PInt z =
     pending_notifications self !! PInt z).
Proof.
  split; [vm_compute; repeat split|].
  intros z event io self.
  destruct (on_group_message_state event io self) as [entries [-> | ->]];
    [done|].
  by rewrite flushed_other.
Qed.

(** C6.  Let [d] be a destination whose id, normalised with [str], equals
    the normalised form of no entry of the allow-list.  Then an event from
    [d] makes the responder yield nothing and change nothing; a turn of the
    monitor loop leaves untouched every queue whose key normalises to [d]'s
    id; and in any interleaving of monitor turns and chat events, every
    delivery made to [d] is empty. *)
Theorem C6_outside_allow_list_receives_nothing (self : plugin) (d : pyval) :
  py_str d ∉ py_str <$> white_list_groups self ->
  (∀ text io,
     on_group_message (Event.mk d text) io self = (Return [], self)) ∧
  (∀ env k,
     py_str k = py_str d ->
     pending_notifications (monitor_iteration env self).2 !! k =
     pending_notifications self !! k) ∧
  (∀ acts d' outputs,
     (d', outputs) ∈ (run acts self).1 ->
     py_str d' = py_str d ->
     outputs = []).
Proof.
  intros Hno. repeat split.
  - intros text io. apply on_group_message_rejects.
    by apply is_group_in_white_list_false.
  - intros env k Hk. apply monitor_iteration_pending_frame.
    intros Hin. apply Hno. rewrite <- Hk. by apply list_elem_of_fmap_2.
  - intros acts d' outputs Hin Hd. apply (run_rejects acts self d' outputs Hin).
    by rewrite Hd.
Qed.

Lemma C6_witness :
  (py_str (PStr "42") ∉ py_str <$> white_list_groups Sample.fresh) ∧
  on_group_message (Event.mk (PStr "42") "liveinfo") SampleChat.quiet
                   Sample.fresh = (Return [], Sample.fresh).
Proof.
  assert (py_str (PStr "42") ∉ py_str <$> white_list_groups Sample.fresh)
    as Hno.
  { simpl. apply not_elem_of_cons. split; [discriminate|].
    apply not_elem_of_nil. }
  split; [exact Hno|].
  exact (proj1 (C6_outside_allow_list_receives_nothing Sample.fresh
                  (PStr "42") Hno) "liveinfo" SampleChat.quiet).
Defined.

(** C7 (amended).  A configured room is recorded LIVE and a successful poll
    reports another status.  The message enqueued for the groups is
    [<name>的直播已结束] when no start time is recorded.  When a start time [t]
    is recorded and [now - t] is shorter than 2^33 seconds (some 272 years),
    it is [<name>的直播已结束，一共直播了<H>时<M>分], where [<name>] is the recorded
    anchor name, [H] the whole hours of [now - t] and [M] the whole minutes
    left after them: a start 1 h 23 min before now gives [1时23分], and a
    duration from 0 to under one minute gives [0时0分].  The queues are stated
    by their contents (see [enqueued]). *)
Theorem C7_offline_message
    (io : room_io) (self : plugin) (room_id : pyval) (d : Payload.t)
    (at_time : datetime) (room_config : RoomConfig.t) (rs : RoomStatus.t)
    (status : Z) :
  find_room_config self room_id = Some room_config ->
  room_status self !! room_id = Some rs ->
  RoomStatus.last_status rs = 1 ->
  Payload.live_status d = Some status ->
  status ≠ 1 ->
  let r := process_result io (Some (Result.mk room_id d at_time)) self in
  let name := RoomStatus.anchor_name rs in
  let queued message :=
    enqueued message (white_list_groups self) (pending_notifications self)
             (pending_notifications r.2) in
  r.1 = Return tt ∧
  (RoomStatus.live_start_time rs = None -> queued (name +:+ "的直播已结束")) ∧
  (∀ t, RoomStatus.live_start_time rs = Some t ->
     Z.abs (now io - t) < exact_span ->
     queued (name +:+ "的直播已结束，一共直播了" +:+
             pretty ((now io - t) / (3600 * usec_per_sec)) +:+ "时" +:+
             pretty ((now io - t) mod (3600 * usec_per_sec)
                     / (60 * usec_per_sec)) +:+ "分")) ∧
  (∀ t, RoomStatus.live_start_time rs = Some t ->
     now io - t = (3600 + 23 * 60) * usec_per_sec ->
     queued (name +:+ "的直播已结束，一共直播了1时23分")) ∧
  (∀ t, RoomStatus.live_start_time rs = Some t ->
     0 <= now io - t < 60 * usec_per_sec ->
     queued (name +:+ "的直播已结束，一共直播了0时0分")).
Proof.
  intros Hcfg Hrs Hlast Hstatus Hoff r name queued. subst r queued.
  rewrite (process_result_offline io self room_id d at_time status room_config)
    with (rs := rs); [|done|done|done|congruence|done].
  assert (∀ t, RoomStatus.live_start_time rs = Some t ->
            enqueued (name +:+ "的直播已结束，一共直播了" +:+ duration_text (now io - t))
              (white_list_groups self) (pending_notifications self)
              (pending_notifications (went_offline room_id status rs io self)))
    as Htimed.
  { intros t Ht. unfold went_offline, offline_message. rewrite Ht.
    apply push_all_enqueued. }
  split; [done|]. split; [|split; [|split]].
  - intros Ht. cbn [snd]. unfold went_offline, offline_message. rewrite Ht.
    apply push_all_enqueued.
  - intros t Ht Hspan. cbn [snd].
    rewrite <- duration_text_exact by done. by apply Htimed.
  - intros t Ht Hspan. cbn [snd].
    specialize (Htimed t Ht). rewrite Hspan in Htimed.
    by rewrite <- (duration_text_1h23 0).
  - intros t Ht Hspan. cbn [snd].
    specialize (Htimed t Ht).
    by rewrite (duration_text_below_a_minute _ Hspan) in Htimed.
Qed.

Lemma C7_witness :
  let r :=
    process_result (Sample.all_ended 0%nat) (Some (SampleResults.foo 0 None))
                   SampleLive.on_air in
  pending_notifications r.2 !! PStr "1044727986" =
  Some ["主播123开播了！" +:+ LF +:+ "传送门：https://live.bilibili.com/123";
        "主播123的直播已结束，一共直播了1时23分"].
Proof.
  assert (room_status SampleLive.on_air !! PStr "123" =
          Some (RoomStatus.mk 1 (Some (Sample.t0 * usec_per_sec)) "主播123"))
    as Hrs by (vm_compute; reflexivity).
  assert (find_room_config SampleLive.on_air (PStr "123") =
          Some (RoomConfig.mk (PStr "123") (Some "主播123")))
    as Hcfg by (vm_compute; reflexivity).
  assert (Z.abs (now (Sample.all_ended 0%nat) - Sample.t0 * usec_per_sec)
          < exact_span) as Hspan by (vm_compute; reflexivity).
  destruct (C7_offline_message (Sample.all_ended 0%nat) SampleLive.on_air
              (PStr "123") (Payload.mk (Some 0) None)
              (Sample.t0 * usec_per_sec) _ _ 0 Hcfg Hrs eq_refl eq_refl
              ltac:(discriminate))
    as (_ & _ & Htimed & _).
  specialize (Htimed _ eq_refl Hspan).
  cbv zeta. unfold SampleResults.foo.
  rewrite (Htimed (PStr "1044727986")). vm_compute. reflexivity.
Defined.

(** C7 as stated fails for a very long span.  Room 123 went live with a
    start timestamp in the year 1336 and is found offline one microsecond
    before 2023-11-14 22:26:40: the span has 6027777 whole hours and 59 whole
    minutes, but [total_seconds] rounds it up to the next second and the
    message says 6027778 hours and 0 minutes. *)
Lemma C7_counterexample :
  let t := SampleLive.long_ago * usec_per_sec in
  let span := now SampleLive.ended_late - t in
  let r :=
    process_result SampleLive.ended_late (Some (SampleResults.foo 0 None))
                   SampleLive.since_long_ago in
  fromtimestamp (PInt SampleLive.long_ago) = inr t ∧
  room_status SampleLive.since_long_ago !! PStr "123" =
    Some (RoomStatus.mk 1 (Some t) "主播123") ∧
  span / (3600 * usec_per_sec) = 6027777 ∧
  span mod (3600 * usec_per_sec) / (60 * usec_per_sec) = 59 ∧
  pending_notifications r.2 !! PStr "1044727986" =
  Some ["主播123开播了！" +:+ LF +:+ "传送门：https://live.bilibili.com/123";
        "主播123的直播已结束，一共直播了6027778时0分"].
Proof. vm_compute. repeat split. Qed.

(** C8 (amended).  A configured room is recorded with a status other than 1
    and a successful poll reports status 1.  If the payload carries a start
    timestamp that converts to the time [t], the change goes through
    whatever the anchor-info request does: the record becomes LIVE with start
    time [t] and the name the request gave, the configured name is replaced
    by it, and the message [<name>开播了！] followed by the portal line is
    enqueued for the groups, with the line [标题：<title>] after it exactly
    when the title is not the placeholder.  When the request fails the name
    is [主播<room_id>] (not "Anchor <room_id>") and there is no title line.
    If the start timestamp is missing or does not convert, reading it raises
    before anything is recorded or enqueued. *)
Theorem C8_live_message
    (io : room_io) (self : plugin) (room_id : pyval) (d : Payload.t)
    (at_time : datetime) (room_config : RoomConfig.t) (rs : RoomStatus.t) :
  find_room_config self room_id = Some room_config ->
  room_status self !! room_id = Some rs ->
  RoomStatus.last_status rs ≠ 1 ->
  Payload.live_status d = Some 1 ->
  let r := process_result io (Some (Result.mk room_id d at_time)) self in
  let info := anchor_info_of room_id io in
  let name := AnchorInfo.name info in
  let title := AnchorInfo.title info in
  let portal :=
    name +:+ "开播了！" +:+ LF +:+ "传送门：https://live.bilibili.com/" +:+
    py_str room_id in
  (∀ v t,
     Payload.live_time d = Some v -> fromtimestamp v = inr t ->
     r.1 = Return tt ∧
     room_status r.2 !! room_id = Some (RoomStatus.mk 1 (Some t) name) ∧
     find_room_config r.2 room_id =
       Some (RoomConfig.mk (RoomConfig.room_id room_config) (Some name)) ∧
     enqueued (if bool_decide (title = "未知标题") then portal
               else portal +:+ LF +:+ "标题：" +:+ title)
              (white_list_groups self) (pending_notifications self)
              (pending_notifications r.2)) ∧
  (∀ got, anchor_reply io = HttpJson (Some 0) (Some got) -> info = got) ∧
  ((∀ got, anchor_reply io ≠ HttpJson (Some 0) (Some got)) ->
     name = "主播" +:+ py_str room_id ∧ title = "未知标题") ∧
  (Payload.live_time d = None -> r = (Raise (KeyError "live_time"), self)) ∧
  (∀ v e,
     Payload.live_time d = Some v -> fromtimestamp v = inl e ->
     r = (Raise e, self)).
Proof.
  intros Hcfg Hrs Hlast Hstatus r info name title portal. subst r.
  split; [|split; [|split; [|split]]].
  - intros v t Hv Ht.
    rewrite (process_result_live io self room_id d at_time 1 room_config)
      with (rs := rs) (v := v) (t := t); [|done..].
    split; [done|]. split; [|split].
    + simpl. rewrite !lookup_alter_eq, Hrs. reflexivity.
    + unfold find_room_config in *. simpl.
      clear -Hcfg. induction (monitor_list self) as [|c l IH]; [done|].
      simpl in *. case_bool_decide as Hc.
      * simplify_eq. simpl. by rewrite bool_decide_eq_true_2.
      * simpl. rewrite bool_decide_eq_false_2 by done. auto.
    + assert ((if bool_decide (title = "未知标题") then portal
               else portal +:+ LF +:+ "标题：" +:+ title) =
              live_message name room_id title) as ->.
      { unfold live_message. fold portal.
        destruct (decide (title = "未知标题")) as [Heq|Hne].
        - rewrite (bool_decide_eq_true_2 (title = "未知标题")) by done.
          by rewrite (bool_decide_eq_false_2 (title ≠ "未知标题"))
            by (intros H; by apply H).
        - rewrite (bool_decide_eq_false_2 (title = "未知标题")) by done.
          by rewrite (bool_decide_eq_true_2 (title ≠ "未知标题")) by done. }
      apply push_all_enqueued.
  - intros got Hgot. subst info. unfold anchor_info_of. by rewrite Hgot.
  - intros Hfail. subst name title info. unfold anchor_info_of.
    destruct (anchor_reply io) as [e|[[| |]|] [got|]]; try done.
    by destruct (Hfail got).
  - intros Hv.
    apply (process_result_live_raises io self room_id d at_time 1 room_config)
      with (rs := rs); auto.
  - intros v e Hv He.
    apply (process_result_live_raises io self room_id d at_time 1 room_config)
      with (rs := rs); eauto.
Qed.

Lemma C8_witness :
  let r :=
    process_result
      (SampleLive.titled "Bob" "Hello" ((Sample.t0 + 60) * usec_per_sec))
      (Some (SampleResults.foo 1 (Some (PInt Sample.t0))))
      (SampleResults.seen 0) in
  pending_notifications r.2 !! PStr "1044727986" =
  Some ["Bob开播了！" +:+ LF +:+ "传送门：https://live.bilibili.com/123" +:+ LF +:+
        "标题：Hello"].
Proof.
  assert (room_status (SampleResults.seen 0) !! PStr "123" =
          Some (RoomStatus.mk 0 None "Foo")) as Hrs
    by (vm_compute; reflexivity).
  destruct (C8_live_message
              (SampleLive.titled "Bob" "Hello" ((Sample.t0 + 60) * usec_per_sec))
              (SampleResults.seen 0) (PStr "123")
              (Payload.mk (Some 1) (Some (PInt Sample.t0)))
              (Sample.t0 * usec_per_sec) Sample.foo _ eq_refl Hrs
              ltac:(discriminate) eq_refl)
    as (Hlive & _).
  destruct (Hlive (PInt Sample.t0) (Sample.t0 * usec_per_sec) eq_refl eq_refl)
    as (_ & _ & _ & Henq).
  cbv zeta. unfold SampleResults.foo.
  rewrite (Henq (PStr "1044727986")). vm_compute. reflexivity.
Defined.

(** C8 as stated fails on the generic name.  Room 123 goes live while the
    anchor-info request times out: the name recorded and used in the message
    is "主播123", not "Anchor 123". *)
Lemma C8_counterexample :
  let r :=
    process_result (Sample.all_live 0%nat)
                   (Some (SampleResults.foo 1 (Some (PInt Sample.t0))))
                   (SampleResults.seen 0) in
  RoomStatus.anchor_name <$> room_status r.2 !! PStr "123" = Some "主播123" ∧
  "主播123" ≠ "Anchor 123" ∧
  pending_notifications r.2 !! PStr "1044727986" =
  Some ["主播123开播了！" +:+ LF +:+ "传送门：https://live.bilibili.com/123"].
Proof. vm_compute. repeat split. discriminate. Qed.

(** What the handler makes of the outcome of the command part. *)
Lemma on_group_message_replies event io self replies after :
  is_group_in_white_list self (Event.group_id event) = true ->
  command_replies (py_lower (py_strip (Event.message_str event))) io self =
    (Return replies, after) ->
  on_group_message event io self =
  (Return (replies ++ queue_of after (Event.group_id event)),
   flushed (Event.group_id event) after).
Proof. intros Hallowed Hrun. by rewrite on_group_message_allowed, Hrun. Qed.

Lemma on_group_message_raises event io self e after :
  is_group_in_white_list self (Event.group_id event) = true ->
  command_replies (py_lower (py_strip (Event.message_str event))) io self =
    (Raise e, after) ->
  on_group_message event io self = (Raise e, after).
Proof. intros Hallowed Hrun. by rewrite on_group_message_allowed, Hrun. Qed.

(** C9 (amended).  An allow-listed group sends a text which, trimmed and
    lower-cased, starts with "liveinfo "; [value] is what follows, trimmed.
    The test on [value] is [str.isdigit]: on ASCII text it accepts exactly
    the non-negative integer literals, and every such literal passes it.  If
    [value] fails the test, the first output is the fixed usage message.  If
    it passes, the single-room path is taken and no usage message is sent:
    an id with no matching configuration gives [未找到直播间 <id> 的配置]; a
    configured room whose status request returns no result gives
    [无法获取直播间 <id> 的信息]; a reply with a status other than 1 gives the
    report with [未开播], one with status 1 the report with [直播中], the start
    time and duration if a start time is recorded, and the title; and a reply
    whose [data] gives no [live_status] makes the handler raise before it has
    sent anything.  Every reply that is sent is followed by the group's
    queue. *)
Theorem C9_liveinfo_with_argument
    (event : Event.t) (io : chat_io) (self : plugin) :
  is_group_in_white_list self (Event.group_id event) = true ->
  let message_str := py_lower (py_strip (Event.message_str event)) in
  startswith message_str "liveinfo " = true ->
  let value := py_strip (slice_from 9 message_str) in
  let room := PStr value in
  let group := Event.group_id event in
  let q := query_io io in
  let r := on_group_message event io self in
  (nonneg_int_literal value -> py_isdigit value = true) ∧
  (is_ascii_text value = true -> py_isdigit value = true ->
     nonneg_int_literal value) ∧
  (py_isdigit value = false ->
     r = (Return ("请输入正确的直播间ID" :: queue_of self group),
          flushed group self)) ∧
  (py_isdigit value = true ->
     (find_room_config self room = None ->
        r = (Return (("未找到直播间 " +:+ value +:+ " 的配置")
                     :: queue_of self group),
             flushed group self)) ∧
     (∀ room_config,
        find_room_config self room = Some room_config ->
        let name := config_anchor_name room_config room in
        let foot :=
          "最后检查: " +:+ strftime (fetched_at q) +:+ LF +:+
          "直播间链接: https://live.bilibili.com/" +:+ value in
        (fetch_outcome room q = None ->
           r = (Return (("无法获取直播间 " +:+ value +:+ " 的信息")
                        :: queue_of self group),
                flushed group (add_log (check_log room q) self))) ∧
        (∀ d,
           status_reply q = HttpJson (Some 0) (Some d) ->
           (∀ status,
              Payload.live_status d = Some status -> status ≠ 1 ->
              r = (Return ((("直播间ID: " +:+ value +:+ LF +:+
                             "主播: " +:+ name +:+ LF +:+
                             "状态: " +:+ "未开播" +:+ LF) +:+ foot)
                           :: queue_of self group),
                   flushed group self)) ∧
           (Payload.live_status d = Some 1 ->
              let head :=
                "直播间ID: " +:+ value +:+ LF +:+ "主播: " +:+ name +:+ LF +:+
                "状态: " +:+ "直播中" +:+ LF in
              let timed :=
                match room_status self !! room ≫= RoomStatus.live_start_time with
                | Some start =>
                    head +:+ "开播时间: " +:+ strftime start +:+ LF +:+
                    "直播时长: " +:+
                    pretty (duration_hours (now q - start)) +:+ "小时" +:+
                    pretty (duration_minutes (now q - start)) +:+ "分钟" +:+
                    pretty (duration_seconds (now q - start)) +:+ "秒" +:+ LF
                | None => head
                end in
              r = (Return (((timed +:+ "标题: " +:+
                             AnchorInfo.title (anchor_info_of room q) +:+ LF)
                            +:+ foot) :: queue_of self group),
                   flushed group (add_log (anchor_log room q) self))) ∧
           (Payload.live_status d = None ->
              r = (Raise (match d with
                          | Payload.NotAnObject => TypeError
                          | Payload.mk _ _ => KeyError "live_status"
                          end), self))))).
Proof.
  intros Hallowed message_str Hstart value room group q r. subst r.
  pose proof (command_replies_room message_str io self Hstart) as Hcmd.
  cbv zeta in Hcmd. fold value q in Hcmd.
  split; [by intros [_ ?]%nonneg_int_literal_isdigit|].
  split; [by intros Hascii ?; apply py_isdigit_ascii|].
  split.
  { intros Hnot. rewrite Hnot in Hcmd.
    by rewrite (on_group_message_replies event io self _ _ Hallowed Hcmd). }
  intros Hdigit. rewrite Hdigit in Hcmd.
  assert (∀ info after,
            room_report value q self = (Return info, after) ->
            on_group_message event io self =
            (Return (info :: queue_of after group), flushed group after))
    as Hsent.
  { intros info after Hrep. rewrite Hrep in Hcmd.
    by rewrite (on_group_message_replies event io self _ _ Hallowed Hcmd). }
  split.
  { intros Hcfg. apply Hsent. by apply room_report_unknown. }
  intros room_config Hcfg name foot. split.
  { intros Hfail.
    by rewrite (Hsent _ _ (room_report_unreachable value q self
                             ltac:(eauto) Hfail)). }
  intros d Hreply. split; [|split].
  - intros status Hstatus Hoff. apply Hsent.
    by apply (room_report_off_air value q self room_config d status).
  - intros Hstatus head timed.
    by rewrite (Hsent _ _ (room_report_on_air value q self room_config d
                             Hcfg Hreply Hstatus)).
  - intros Hstatus.
    rewrite (room_report_raises value q self room_config d Hcfg Hreply Hstatus)
      in Hcmd.
    rewrite (on_group_message_raises event io self _ _ Hallowed Hcmd).
    by destruct d.
Qed.

Lemma C9_witness :
  (on_group_message (Event.mk (PStr "1044727986") "  LiveInfo 999 ")
                    SampleChat.quiet Sample.fresh).1 =
  Return ["未找到直播间 999 的配置"].
Proof.
  assert (is_group_in_white_list Sample.fresh (PStr "1044727986") = true)
    as Hallowed by (vm_compute; reflexivity).
  assert (startswith (py_lower (py_strip "  LiveInfo 999 ")) "liveinfo " = true)
    as Hstart by (vm_compute; reflexivity).
  assert (py_isdigit (py_strip (slice_from 9 (py_lower (py_strip "  LiveInfo 999 "))))
          = true) as Hdigit by (vm_compute; reflexivity).
  assert (find_room_config Sample.fresh
            (PStr (py_strip (slice_from 9 (py_lower (py_strip "  LiveInfo 999 ")))))
          = None) as Hcfg by (vm_compute; reflexivity).
  destruct (C9_liveinfo_with_argument
              (Event.mk (PStr "1044727986") "  LiveInfo 999 ")
              SampleChat.quiet Sample.fresh Hallowed Hstart)
    as (_ & _ & _ & Hpath).
  destruct (Hpath Hdigit) as [Hunknown _].
  rewrite (Hunknown Hcfg). vm_compute. reflexivity.
Defined.

(** C9 as stated fails.  The argument of [SampleChat.superscript] is the
    one character U+00B2, which is no integer literal; yet [str.isdigit]
    accepts it, so the handler takes the single-room path and answers that
    room "²" is not configured, instead of sending the usage message. *)
Lemma C9_counterexample :
  let message_str :=
    py_lower (py_strip (Event.message_str SampleChat.superscript)) in
  let value := py_strip (slice_from 9 message_str) in
  startswith message_str "liveinfo " = true ∧
  value = "²" ∧
  ¬ nonneg_int_literal value ∧
  on_group_message SampleChat.superscript SampleChat.quiet Sample.fresh =
  (Return ["未找到直播间 ² 的配置"], Sample.fresh).
Proof.
  assert (py_strip (slice_from 9
            (py_lower (py_strip (Event.message_str SampleChat.superscript))))
          = "²") as Hvalue by (vm_compute; reflexivity).
  cbv zeta. rewrite Hvalue.
  split; [vm_compute; reflexivity|]. split; [reflexivity|]. split.
  - intros [_ Hall]. apply Forall_cons in Hall as [Hdigit _].
    unfold is_decimal_digit in Hdigit. simpl in Hdigit.
    repeat (apply elem_of_cons in Hdigit as [Hdigit|Hdigit];
            [discriminate Hdigit|]).
    by apply elem_of_nil in Hdigit.
  - vm_compute. reflexivity.
Qed.

(** C10.  Handling an event leaves [monitor_list], the allow-list and
    [room_status] as they were, and every queue other than the one stored
    under the event's own group id; that one is either untouched or, having
    held at least one message, replaced by the empty list. *)
Theorem C10_responder_frame (event : Event.t) (io : chat_io) (self : plugin) :
  let after := (on_group_message event io self).2 in
  let key := PStr (py_str (Event.group_id event)) in
  monitor_list after = monitor_list self ∧
  white_list_groups after = white_list_groups self ∧
  room_status after = room_status self ∧
  (∀ k, k ≠ key ->
     pending_notifications after !! k = pending_notifications self !! k) ∧
  (pending_notifications after !! key = pending_notifications self !! key ∨
   ((∃ m q, pending_notifications self !! key = Some (m :: q)) ∧
    pending_notifications after !! key = Some [])).
Proof.
  intros after key. subst after.
  destruct (on_group_message_state event io self) as [entries [-> | ->]].
  { repeat split; auto. }
  destruct (flushed_tables (Event.group_id event) (add_log entries self))
    as (-> & -> & ->).
  repeat split; [by intros k Hk; rewrite flushed_other|].
  unfold flushed, queue_of. simpl. fold key.
  destruct (pending_notifications self !! key) as [[|m q]|] eqn:Hq; simpl;
    rewrite ?Hq; auto.
  right. split; [eauto|]. apply lookup_insert_eq.
Qed.

Lemma C10_witness :
  let self :=
    (monitor_task [Sample.all_live; Sample.all_ended] Sample.fresh).2 in
  let after := (on_group_message SampleChat.hello SampleChat.quiet self).2 in
  room_status after = room_status self ∧
  (∀ k, k ≠ PStr "1044727986" ->
     pending_notifications after !! k = pending_notifications self !! k) ∧
  pending_notifications self !! PStr "1044727986" =
    Some ["Foo的直播已结束"; "主播456的直播已结束"] ∧
  pending_notifications after !! PStr "1044727986" = Some [].
Proof.
  destruct (C10_responder_frame SampleChat.hello SampleChat.quiet
              (monitor_task [Sample.all_live; Sample.all_ended] Sample.fresh).2)
    as (_ & _ & Hstatus & Hothers & _).
  split; [exact Hstatus|]. split; [exact Hothers|].
  split; vm_compute; reflexivity.
Defined.

(** * Further properties of the code *)

Lemma all_rooms_report_run clock self :
  all_rooms_report clock self = (Return (aggregate_text clock self), self).
Proof.
  unfold all_rooms_report, aggregate_text. rewrite bind_run. simpl.
  by destruct (monitor_list self).
Qed.

Lemma command_replies_all message_str io self :
  message_str = "liveinfo" ->
  command_replies message_str io self =
  (Return [aggregate_text (clock io) self], self).
Proof.
  intros ->. unfold command_replies.
  rewrite bool_decide_eq_true_2 by done.
  rewrite bind_run. unfold get_live_info. by rewrite all_rooms_report_run.
Qed.

Lemma command_replies_none message_str io self :
  no_command message_str ->
  command_replies message_str io self = (Return [], self).
Proof.
  intros [Hne Hstart]. unfold command_replies.
  rewrite bool_decide_eq_false_2 by done. by rewrite Hstart.
Qed.

Lemma pretty_N_go_nonempty x s :
  s ≠ EmptyString -> pretty_N_go x s ≠ EmptyString.
Proof.
  revert s. induction (N.lt_wf_0 x) as [x _ IH]; intros s Hs.
  assert (x = 0 ∨ 0 < x)%N as [->|Hpos] by lia.
  - by rewrite pretty_N_go_0.
  - rewrite pretty_N_go_step by done.
    apply IH; [apply N.div_lt; lia | done].
Qed.

(** The decimal form of a number is never the empty string. *)
Lemma pretty_Z_nonempty (z : Z) : pretty z ≠ EmptyString.
Proof.
  destruct z as [|p|p]; [done| |done].
  change (pretty (Z.pos p)) with (pretty (N.pos p)).
  unfold pretty, pretty_N. destruct (decide (N.pos p = 0)%N); [done|].
  rewrite pretty_N_go_step by lia. by apply pretty_N_go_nonempty.
Qed.

(** X1.  The allow-list test accepts a group id exactly when the id is
    truthy and its [str] form is the [str] form of some entry: a number and
    the string of its digits are interchangeable, on either side.  An id that
    is [None], the empty string or 0 is refused even if the list holds it. *)
Theorem X1_allow_list_test (self : plugin) (group_id : pyval) :
  (is_group_in_white_list self group_id = true <->
   py_truthy group_id = true ∧
   ∃ entry, entry ∈ white_list_groups self ∧ py_str entry = py_str group_id) ∧
  (∀ z, z ≠ 0 ->
     (PStr (pretty z) ∈ white_list_groups self ->
      is_group_in_white_list self (PInt z) = true) ∧
     (PInt z ∈ white_list_groups self ->
      is_group_in_white_list self (PStr (pretty z)) = true)) ∧
  is_group_in_white_list self PNone = false ∧
  is_group_in_white_list self (PStr EmptyString) = false ∧
  is_group_in_white_list self (PInt 0) = false.
Proof.
  assert (is_group_in_white_list self group_id = true <->
          py_truthy group_id = true ∧
          ∃ entry, entry ∈ white_list_groups self ∧
                   py_str entry = py_str group_id) as Hiff.
  { unfold is_group_in_white_list.
    destruct (py_truthy group_id); simpl.
    - rewrite bool_decide_eq_true, list_elem_of_fmap. split.
      + intros (entry & Heq & Hin). split; [done|]. by exists entry.
      + intros (_ & entry & Hin & Heq). by exists entry.
    - split; [done | by intros [? _]]. }
  split; [exact Hiff|]. split; [|done].
  intros z Hz. split; intros Hin.
  - unfold is_group_in_white_list. simpl.
    rewrite (bool_decide_eq_false_2 (z = 0)) by done. simpl.
    apply bool_decide_eq_true_2.
    by apply (list_elem_of_fmap_2 py_str) in Hin.
  - unfold is_group_in_white_list. simpl.
    rewrite (bool_decide_eq_false_2 (pretty z = EmptyString))
      by apply pretty_Z_nonempty.
    simpl. apply bool_decide_eq_true_2.
    by apply (list_elem_of_fmap_2 py_str) in Hin.
Qed.

(** X2.  For a duration shorter than 2^33 seconds, the hours, minutes and
    seconds that the two [divmod]s cut out of it recompose it, rounded down
    to a whole second; minutes and seconds are between 0 and 59, also for a
    negative duration (a start time in the future), whose hours are then
    negative. *)
Theorem X2_duration_parts (d : Z) :
  Z.abs d < exact_span ->
  let h := duration_hours d in
  let m := duration_minutes d in
  let s := duration_seconds d in
  0 <= m < 60 ∧ 0 <= s < 60 ∧
  (h * 3600 + m * 60 + s) * usec_per_sec <= d
    < (h * 3600 + m * 60 + s + 1) * usec_per_sec ∧
  (0 <= d <-> 0 <= h).
Proof.
  intros Hd. destruct (duration_exact d Hd) as (-> & -> & ->).
  unfold usec_per_sec.
  change (3600 * 1000000) with 3600000000.
  change (60 * 1000000) with 60000000.
  pose proof (Z.div_mod d 3600000000 ltac:(lia)) as H1.
  pose proof (Z.mod_pos_bound d 3600000000 ltac:(lia)) as B1.
  set (r1 := d mod 3600000000) in *.
  pose proof (Z.div_mod r1 60000000 ltac:(lia)) as H2.
  pose proof (Z.mod_pos_bound r1 60000000 ltac:(lia)) as B2.
  set (r2 := r1 mod 60000000) in *.
  pose proof (Z.div_mod r2 1000000 ltac:(lia)) as H3.
  pose proof (Z.mod_pos_bound r2 1000000 ltac:(lia)) as B3.
  set (h := d / 3600000000) in *.
  set (m := r1 / 60000000) in *.
  set (s := r2 / 1000000) in *.
  simpl. lia.
Qed.

Lemma X2_witness :
  Z.abs 5025123456 < exact_span ∧
  (duration_hours 5025123456 * 3600 + duration_minutes 5025123456 * 60 +
   duration_seconds 5025123456) * usec_per_sec <= 5025123456.
Proof.
  assert (Z.abs 5025123456 < exact_span) as Hspan by reflexivity.
  split; [exact Hspan|].
  destruct (X2_duration_parts 5025123456 Hspan) as (_ & _ & [Hlow _] & _).
  exact Hlow.
Defined.

Lemma on_group_message_no_command event io self :
  is_group_in_white_list self (Event.group_id event) = true ->
  no_command (py_lower (py_strip (Event.message_str event))) ->
  on_group_message event io self =
  (Return (queue_of self (Event.group_id event)),
   flushed (Event.group_id event) self).
Proof.
  intros Hallowed Hno. rewrite on_group_message_allowed by done.
  by rewrite command_replies_none.
Qed.

Lemma is_group_in_white_list_same_list a b group_id :
  white_list_groups a = white_list_groups b ->
  is_group_in_white_list a group_id = is_group_in_white_list b group_id.
Proof. unfold is_group_in_white_list. by intros ->. Qed.

Lemma queue_of_flushed group_id self :
  queue_of (flushed group_id self) group_id = [].
Proof.
  unfold flushed. destruct (queue_of self group_id) as [|m q] eqn:Hq; [done|].
  unfold queue_of. simpl. by rewrite lookup_insert_eq.
Qed.

Lemma flushed_empty group_id self :
  queue_of self group_id = [] -> flushed group_id self = self.
Proof. unfold flushed. by intros ->. Qed.

(** X3.  The text "liveinfo", in any letter case and with any surrounding
    blanks, from an allow-listed group gets exactly one reply, the report on
    all rooms, followed by the group's queued messages.  Building the report
    sends no request, cannot raise and changes nothing; with no room
    configured it is the fixed text [当前没有监控任何直播间]. *)
Theorem X3_liveinfo_reports_all_rooms
    (event : Event.t) (io : chat_io) (self : plugin) :
  is_group_in_white_list self (Event.group_id event) = true ->
  py_lower (py_strip (Event.message_str event)) = "liveinfo" ->
  on_group_message event io self =
    (Return (aggregate_text (clock io) self ::
             queue_of self (Event.group_id event)),
     flushed (Event.group_id event) self) ∧
  get_live_info None io self = (Return (aggregate_text (clock io) self), self) ∧
  (monitor_list self = [] ->
   aggregate_text (clock io) self = "当前没有监控任何直播间").
Proof.
  intros Hallowed Htext. split; [|split].
  - rewrite on_group_message_allowed by done.
    by rewrite command_replies_all.
  - apply all_rooms_report_run.
  - unfold aggregate_text. by intros ->.
Qed.

Lemma X3_witness :
  on_group_message (Event.mk (PStr "1044727986") "  LiveInfo ")
                   SampleChat.quiet (init (Config None None)) =
  (Return ["当前没有监控任何直播间"], init (Config None None)).
Proof.
  exact (proj1 (X3_liveinfo_reports_all_rooms
                  (Event.mk (PStr "1044727986") "  LiveInfo ")
                  SampleChat.quiet (init (Config None None))
                  eq_refl eq_refl)).
Defined.

(** X4.  Any text from an allow-listed group that is neither "liveinfo" nor
    starts with "liveinfo " (for instance "liveinfo123") gets no reply of its
    own: the handler yields the group's queued messages, in order, empties
    the queue, and touches nothing else, not even the log. *)
Theorem X4_other_text_only_flushes
    (event : Event.t) (io : chat_io) (self : plugin) :
  is_group_in_white_list self (Event.group_id event) = true ->
  no_command (py_lower (py_strip (Event.message_str event))) ->
  on_group_message event io self =
  (Return (queue_of self (Event.group_id event)),
   flushed (Event.group_id event) self).
Proof. apply on_group_message_no_command. Qed.

Lemma X4_witness :
  on_group_message (Event.mk (PStr "1044727986") "LiveInfo123")
                   SampleChat.quiet Sample.fresh =
  (Return [], Sample.fresh).
Proof.
  assert (is_group_in_white_list Sample.fresh (PStr "1044727986") = true)
    as Hallowed by (vm_compute; reflexivity).
  assert (no_command (py_lower (py_strip "LiveInfo123"))) as Hno
    by (split; vm_compute; [discriminate | reflexivity]).
  rewrite (X4_other_text_only_flushes
             (Event.mk (PStr "1044727986") "LiveInfo123")
             SampleChat.quiet Sample.fresh Hallowed Hno).
  vm_compute. reflexivity.
Defined.

(** X5.  Once an event from an allow-listed group has been handled without
    an exception, the group's queue is empty: the next event from the same
    group delivers none of those messages again (with a text that is no
    command it yields nothing and changes nothing). *)
Theorem X5_queue_is_delivered_once
    (event : Event.t) (io : chat_io) (self after : plugin)
    (outputs : list string) :
  is_group_in_white_list self (Event.group_id event) = true ->
  on_group_message event io self = (Return outputs, after) ->
  queue_of after (Event.group_id event) = [] ∧
  (∀ text io',
     no_command (py_lower (py_strip text)) ->
     on_group_message (Event.mk (Event.group_id event) text) io' after =
     (Return [], after)).
Proof.
  intros Hallowed Hrun.
  assert (queue_of after (Event.group_id event) = []) as Hempty.
  { rewrite on_group_message_allowed in Hrun by done.
    destruct (command_replies _ io self) as [[replies|e] s1]; [|done].
    injection Hrun as _ <-. apply queue_of_flushed. }
  split; [exact Hempty|]. intros text io' Hno.
  assert (is_group_in_white_list after (Event.group_id event) = true) as Hstill.
  { rewrite <- Hallowed. apply is_group_in_white_list_same_list.
    pose proof (on_group_message_white_list event io self) as Hw.
    by rewrite Hrun in Hw. }
  rewrite on_group_message_no_command by done. simpl.
  by rewrite Hempty, flushed_empty.
Qed.

Lemma X5_witness :
  let self :=
    (monitor_task [Sample.all_live; Sample.all_ended] Sample.fresh).2 in
  let first := on_group_message SampleChat.hello SampleChat.quiet self in
  first.1 = Return ["Foo的直播已结束"; "主播456的直播已结束"] ∧
  on_group_message SampleChat.hello SampleChat.quiet first.2 =
  (Return [], first.2).
Proof.
  intros self first.
  assert (first.1 = Return ["Foo的直播已结束"; "主播456的直播已结束"]) as Hout
    by (vm_compute; reflexivity).
  split; [exact Hout|].
  assert (is_group_in_white_list self (Event.group_id SampleChat.hello) = true)
    as Hallowed by (vm_compute; reflexivity).
  assert (no_command (py_lower (py_strip "hello"))) as Hno
    by (split; vm_compute; [discriminate | reflexivity]).
  assert (on_group_message SampleChat.hello SampleChat.quiet self =
          (Return ["Foo的直播已结束"; "主播456的直播已结束"], first.2)) as Hrun.
  { rewrite <- Hout. apply surjective_pairing. }
  exact (proj2 (X5_queue_is_delivered_once SampleChat.hello SampleChat.quiet
                  self first.2 _ Hallowed Hrun)
               "hello" SampleChat.quiet Hno).
Defined.

(** X6.  When the single-room report raises, which it does when the status
    reply has code 0 but its [data] gives no [live_status] (a [KeyError] if
    [data] is an object without that key, a [TypeError] if it is not an
    object), the handler raises before its first [yield]: nothing is
    delivered, the group's queue is kept for a later event, and nothing else
    changes. *)
Theorem X6_failed_report_keeps_the_queue
    (event : Event.t) (io : chat_io) (self : plugin) (d : Payload.t) :
  is_group_in_white_list self (Event.group_id event) = true ->
  let message_str := py_lower (py_strip (Event.message_str event)) in
  startswith message_str "liveinfo " = true ->
  let value := py_strip (slice_from 9 message_str) in
  py_isdigit value = true ->
  is_Some (find_room_config self (PStr value)) ->
  status_reply (query_io io) = HttpJson (Some 0) (Some d) ->
  Payload.live_status d = None ->
  on_group_message event io self =
  (Raise (match d with
          | Payload.NotAnObject => TypeError
          | Payload.mk _ _ => KeyError "live_status"
          end), self).
Proof.
  intros Hallowed message_str Hstart value Hdigit [cfg Hcfg] Hreply Hstatus.
  rewrite on_group_message_allowed by done. fold message_str.
  rewrite command_replies_room by done. fold value. rewrite Hdigit.
  rewrite (room_report_raises value (query_io io) self cfg d) by done.
  by destruct d.
Qed.

Lemma X6_witness :
  let missing :=
    ChatIO (RoomIO (HttpJson (Some 0) (Some (Payload.mk None None)))
                   0 (HttpRaise (RequestError "timeout")) 0)
           (fun _ => 0) in
  on_group_message (Event.mk (PStr "1044727986") "liveinfo 123") missing
                   Sample.fresh =
  (Raise (KeyError "live_status"), Sample.fresh).
Proof.
  intros missing.
  assert (is_group_in_white_list Sample.fresh (PStr "1044727986") = true)
    as Hallowed by (vm_compute; reflexivity).
  assert (startswith (py_lower (py_strip "liveinfo 123")) "liveinfo " = true)
    as Hstart by (vm_compute; reflexivity).
  assert (py_isdigit (py_strip (slice_from 9 (py_lower (py_strip "liveinfo 123"))))
          = true) as Hdigit by (vm_compute; reflexivity).
  assert (is_Some (find_room_config Sample.fresh
            (PStr (py_strip (slice_from 9 (py_lower (py_strip "liveinfo 123")))))))
    as Hcfg by (eexists; vm_compute; reflexivity).
  exact (X6_failed_report_keeps_the_queue
           (Event.mk (PStr "1044727986") "liveinfo 123") missing Sample.fresh
           (Payload.mk None None) Hallowed Hstart Hdigit Hcfg eq_refl eq_refl).
Defined.

Lemma on_group_message_tables event io self :
  monitor_list (on_group_message event io self).2 = monitor_list self ∧
  room_status (on_group_message event io self).2 = room_status self.
Proof.
  destruct (on_group_message_state event io self) as [entries [-> | ->]];
    [done|].
  by destruct (flushed_tables (Event.group_id event) (add_log entries self))
    as (-> & _ & ->).
Qed.

Lemma monitor_iteration_room_ids env self :
  room_ids (monitor_iteration env self).2 = room_ids self.
Proof.
  destruct (monitor_iteration_tables env self) as (Hml & _).
  unfold room_ids at 1. rewrite Hml. apply monitor_cycle_room_ids.
Qed.

(** X7.  Whatever turns of the monitor loop and chat events follow one
    another, the allow-list stays as configured and [monitor_list] keeps its
    rooms, in the same order: the only thing the code ever writes into the
    configuration is an anchor name. *)
Theorem X7_configuration_is_stable (acts : list action) (self : plugin) :
  white_list_groups (run acts self).2 = white_list_groups self ∧
  room_ids (run acts self).2 = room_ids self.
Proof.
  split; [apply run_white_list|].
  revert self. induction acts as [|[env|event io] acts IH]; intros self; simpl.
  - done.
  - by rewrite IH, monitor_iteration_room_ids.
  - rewrite IH. unfold room_ids.
    by destruct (on_group_message_tables event io self) as [-> _].
Qed.

(** ** Queues under the monitor *)

Lemma queues_extend_refl p : queues_extend p p.
Proof. intros k. split; [done|]. exists []. by rewrite app_nil_r. Qed.

Lemma queues_extend_trans p q r :
  queues_extend p q -> queues_extend q r -> queues_extend p r.
Proof.
  intros Hpq Hqr k. destruct (Hpq k) as [H1 [s1 E1]].
  destruct (Hqr k) as [H2 [s2 E2]]. split; [auto|].
  exists (s1 ++ s2). by rewrite E2, E1, app_assoc.
Qed.

Lemma push_extends message g p : queues_extend p (push message g p).
Proof.
  intros k. unfold push. destruct (decide (g = k)) as [->|Hne].
  - rewrite lookup_insert_eq. split; [by eauto|]. by exists [message].
  - rewrite lookup_insert_ne by done. split; [done|].
    exists []. by rewrite app_nil_r.
Qed.

Lemma push_all_extends message groups p :
  queues_extend p (push_all message groups p).
Proof.
  revert p. induction groups as [|g groups IH]; intros p.
  - apply queues_extend_refl.
  - rewrite push_all_cons.
    eapply queues_extend_trans; [apply push_extends | apply IH].
Qed.

Lemma process_result_extends io result self :
  queues_extend (pending_notifications self)
                (pending_notifications (process_result io result self).2).
Proof.
  destruct result as [res|]; [|apply queues_extend_refl].
  destruct (process_result_handled io res self); simpl;
    try apply queues_extend_refl; apply push_all_extends.
Qed.

Lemma process_all_extends env results self :
  queues_extend (pending_notifications self)
                (pending_notifications (process_all env results self).2).
Proof.
  revert self. induction results as [|[i r] results IH]; intros self.
  { apply queues_extend_refl. }
  unfold process_all in *. simpl. rewrite bind_run.
  pose proof (process_result_extends (env i) r self) as Hhead.
  destruct (process_result (env i) r self) as [[[]|e] s1]; simpl in *;
    [|done].
  eapply queues_extend_trans; [exact Hhead | apply IH].
Qed.

Lemma monitor_iteration_extends env self :
  queues_extend (pending_notifications self)
                (pending_notifications (monitor_iteration env self).2).
Proof.
  destruct (monitor_iteration_tables env self) as (_ & _ & _ & ->).
  destruct (monitor_cycle_run env self) as [entries ->].
  apply (process_all_extends env _ (add_log entries self)).
Qed.

(** X8.  The monitor loop never drops, reorders or rewrites a queued
    message: after any number of turns every queue that existed is still
    there and starts with the messages it held, whether or not a turn had to
    catch an exception.  Only an event from the group empties a queue. *)
Theorem X8_monitor_only_appends
    (cycles : list (nat -> room_io)) (self : plugin) :
  queues_extend (pending_notifications self)
                (pending_notifications (monitor_task cycles self).2).
Proof.
  change (monitor_task cycles self).2 with (monitor_loop cycles self).2.
  revert self. induction cycles as [|env cycles IH]; intros self.
  { apply queues_extend_refl. }
  rewrite monitor_loop_cons.
  eapply queues_extend_trans; [apply monitor_iteration_extends | apply IH].
Qed.

(** ** The table of room records *)

Lemma process_result_status_domain io result self room_id :
  (is_Some (room_status self !! room_id) ->
   is_Some (room_status (process_result io result self).2 !! room_id)) ∧
  (is_Some (room_status (process_result io result self).2 !! room_id) ->
   is_Some (room_status self !! room_id) ∨ room_id ∈ room_ids self).
Proof.
  destruct result as [res|]; [|by auto].
  destruct (process_result_handled io res self)
    as [ | | status cfg Hs Hcfg Hnew | | status cfg rs Hs Hcfg Hrs Hlast Hoff
       | cfg rs v t Hs Hcfg Hrs Hlast Hv Ht | ]; simpl; auto.
  - destruct (decide (room_id = Result.room_id res)) as [->|Hne].
    + rewrite lookup_insert_eq. split; [by eauto|]. intros _. right.
      destruct (decide (Result.room_id res ∈ room_ids self)) as [|Hout];
        [done|].
      apply find_room_config_None in Hout. congruence.
    + rewrite lookup_insert_ne by done. auto.
  - destruct (decide (room_id = Result.room_id res)) as [->|Hne].
    + rewrite lookup_alter_eq, Hrs. simpl. split; eauto.
    + rewrite lookup_alter_ne by done. auto.
  - destruct (decide (room_id = Result.room_id res)) as [->|Hne].
    + rewrite !lookup_alter_eq, Hrs. simpl. split; eauto.
    + rewrite !lookup_alter_ne by done. auto.
Qed.

Lemma process_all_status_domain env results self room_id :
  (is_Some (room_status self !! room_id) ->
   is_Some (room_status (process_all env results self).2 !! room_id)) ∧
  (is_Some (room_status (process_all env results self).2 !! room_id) ->
   is_Some (room_status self !! room_id) ∨ room_id ∈ room_ids self).
Proof.
  revert self. induction results as [|[i r] results IH]; intros self;
    [by auto|].
  unfold process_all in *. simpl. rewrite bind_run.
  pose proof (process_result_status_domain (env i) r self room_id) as [H1 H2].
  pose proof (process_result_room_ids (env i) r self) as Hids.
  destruct (process_result (env i) r self) as [[[]|e] s1]; simpl in *;
    [|by auto].
  destruct (IH s1) as [H3 H4]. rewrite Hids in H4. split; [auto|].
  intros H. destruct (H4 H) as [?|?]; auto.
Qed.

Lemma monitor_iteration_status_domain env self room_id :
  (is_Some (room_status self !! room_id) ->
   is_Some (room_status (monitor_iteration env self).2 !! room_id)) ∧
  (is_Some (room_status (monitor_iteration env self).2 !! room_id) ->
   is_Some (room_status self !! room_id) ∨ room_id ∈ room_ids self).
Proof.
  destruct (monitor_iteration_tables env self) as (_ & _ & -> & _).
  destruct (monitor_cycle_run env self) as [entries ->].
  apply (process_all_status_domain env _ (add_log entries self)).
Qed.

(** X9.  A room record is never removed, and records are only ever created
    for rooms of [monitor_list]: if every recorded room is a configured one
    (as when the table is empty at start-up), this stays so through any
    turns of the monitor loop and chat events. *)
Theorem X9_records_are_of_configured_rooms
    (acts : list action) (self : plugin) :
  (∀ room_id, is_Some (room_status self !! room_id) -> room_id ∈ room_ids self) ->
  ∀ room_id,
    (is_Some (room_status self !! room_id) ->
     is_Some (room_status (run acts self).2 !! room_id)) ∧
    (is_Some (room_status (run acts self).2 !! room_id) ->
     room_id ∈ room_ids self).
Proof.
  revert self. induction acts as [|[env|event io] acts IH]; intros self Hinv rid;
    simpl.
  - auto.
  - pose proof (monitor_iteration_room_ids env self) as Hids.
    assert (∀ r, is_Some (room_status (monitor_iteration env self).2 !! r) ->
                 r ∈ room_ids (monitor_iteration env self).2) as Hinv'.
    { intros r Hr. rewrite Hids.
      destruct (monitor_iteration_status_domain env self r) as [_ H2].
      destruct (H2 Hr); auto. }
    destruct (IH _ Hinv' rid) as [H1 H2]. rewrite Hids in H2.
    destruct (monitor_iteration_status_domain env self rid) as [H3 _].
    auto.
  - destruct (on_group_message_tables event io self) as [Hml Hst].
    assert (room_ids (on_group_message event io self).2 = room_ids self)
      as Hids by (unfold room_ids; by rewrite Hml).
    assert (∀ r, is_Some (room_status (on_group_message event io self).2 !! r) ->
                 r ∈ room_ids (on_group_message event io self).2) as Hinv'.
    { intros r. rewrite Hids, Hst. apply Hinv. }
    destruct (IH _ Hinv' rid) as [H1 H2]. rewrite Hids in H2.
    rewrite Hst in H1. auto.
Qed.

Lemma X9_witness :
  (∀ room_id, is_Some (room_status Sample.fresh !! room_id) ->
              room_id ∈ room_ids Sample.fresh) ∧
  PStr "123" ∈ room_ids Sample.fresh.
Proof.
  assert (∀ room_id, is_Some (room_status Sample.fresh !! room_id) ->
                     room_id ∈ room_ids Sample.fresh) as Hinv.
  { intros r [x Hx]. simpl in Hx. by rewrite lookup_empty in Hx. }
  split; [exact Hinv|].
  refine (proj2 (X9_records_are_of_configured_rooms
                   [Tick Sample.all_live;
                    Message SampleChat.hello SampleChat.quiet;
                    Tick Sample.all_ended] Sample.fresh Hinv (PStr "123")) _).
  eexists. vm_compute. reflexivity.
Defined.

(** X10.  The status is compared as a number, and every change to a status
    other than 1 is announced as the end of a broadcast, also when the room
    was not live before (0 to 2, say): the message is built from the recorded
    name and from whatever start time was last recorded.  The record keeps
    that name and start time; only [last_status] moves. *)
Theorem X10_every_change_to_non_live_is_an_end
    (io : room_io) (self : plugin) (room_id : pyval) (d : Payload.t)
    (at_time : datetime) (room_config : RoomConfig.t) (rs : RoomStatus.t)
    (status : Z) :
  find_room_config self room_id = Some room_config ->
  room_status self !! room_id = Some rs ->
  Payload.live_status d = Some status ->
  status ≠ RoomStatus.last_status rs ->
  status ≠ 1 ->
  let r := process_result io (Some (Result.mk room_id d at_time)) self in
  r.1 = Return tt ∧
  pending_notifications r.2 =
    push_all (offline_message (RoomStatus.anchor_name rs)
                (RoomStatus.live_start_time rs) (now io))
             (white_list_groups self) (pending_notifications self) ∧
  room_status r.2 =
    <[room_id := RoomStatus.mk status (RoomStatus.live_start_time rs)
                               (RoomStatus.anchor_name rs)]> (room_status self) ∧
  monitor_list r.2 = monitor_list self.
Proof.
  intros Hcfg Hrs Hstatus Hdiff Hoff r. subst r.
  rewrite (process_result_offline io self room_id d at_time status room_config)
    with (rs := rs); [|done|done|done|congruence|done].
  repeat split. simpl.
  apply map_eq. intros k. destruct (decide (k = room_id)) as [->|Hne].
  - by rewrite lookup_alter_eq, lookup_insert_eq, Hrs.
  - by rewrite lookup_alter_ne, lookup_insert_ne.
Qed.

Lemma X10_witness :
  let r :=
    process_result (Sample.all_ended 0%nat) (Some (SampleResults.foo 2 None))
                   (SampleResults.seen 0) in
  pending_notifications r.2 !! PStr "1044727986" = Some ["Foo的直播已结束"].
Proof.
  assert (room_status (SampleResults.seen 0) !! PStr "123" =
          Some (RoomStatus.mk 0 None "Foo")) as Hrs
    by (vm_compute; reflexivity).
  assert (find_room_config (SampleResults.seen 0) (PStr "123") =
          Some Sample.foo) as Hcfg by (vm_compute; reflexivity).
  destruct (X10_every_change_to_non_live_is_an_end
              (Sample.all_ended 0%nat) (SampleResults.seen 0) (PStr "123")
              (Payload.mk (Some 2) None) (Sample.t0 * usec_per_sec)
              Sample.foo (RoomStatus.mk 0 None "Foo") 2
              Hcfg Hrs eq_refl ltac:(discriminate) ltac:(discriminate))
    as (_ & Hpending & _).
  cbv zeta. unfold SampleResults.foo. rewrite Hpending.
  vm_compute. reflexivity.
Defined.

(** ** The first turn *)

Lemma fetch_outcome_room_id room_id io res :
  fetch_outcome room_id io = Some res -> Result.room_id res = room_id.
Proof.
  unfold fetch_outcome.
  destruct (status_reply io) as [|[[| |]|] [d|]]; intros H; by simplify_eq.
Qed.

Lemma process_fetched_baselines env i ids self :
  NoDup ids ->
  (∀ room_id, room_id ∈ ids -> room_status self !! room_id = None) ->
  let after := (process_all env (fetched env i ids) self).2 in
  pending_notifications after = pending_notifications self ∧
  ∀ room_id rs,
    room_status after !! room_id = Some rs ->
    room_status self !! room_id = Some rs ∨
    (room_id ∈ ids ∧ RoomStatus.live_start_time rs = None).
Proof.
  revert i self.
  induction ids as [|rid ids IH]; intros i self Hnodup Hnew; simpl.
  { split; [done|]. auto. }
  apply NoDup_cons in Hnodup as [Hout Hnodup].
  unfold process_all in *. simpl. rewrite bind_run.
  assert (room_status self !! rid = None) as Hrid
    by (apply Hnew, elem_of_cons; by left).
  assert (∀ s1, pending_notifications s1 = pending_notifications self ->
            (∀ r rs, room_status s1 !! r = Some rs ->
                     room_status self !! r = Some rs ∨
                     (r = rid ∧ RoomStatus.live_start_time rs = None)) ->
            (∀ r, r ∈ ids -> room_status s1 !! r = None) ->
            let after :=
              (for_each (fetched env (S i) ids)
                 (λ r, process_result (env r.1) r.2) s1).2 in
            pending_notifications after = pending_notifications self ∧
            ∀ r rs, room_status after !! r = Some rs ->
                    room_status self !! r = Some rs ∨
                    (r ∈ rid :: ids ∧ RoomStatus.live_start_time rs = None))
    as Hrest.
  { intros s1 Hp Hs Hn. destruct (IH (S i) s1 Hnodup Hn) as [Hp' Hs'].
    split; [by rewrite Hp', Hp|].
    intros r rs Hr. destruct (Hs' r rs Hr) as [Hold|[Hin Hnone]].
    - destruct (Hs r rs Hold) as [?|[-> ?]]; [by left|].
      right. split; [apply elem_of_cons; by left | done].
    - right. split; [apply elem_of_cons; by right | done]. }
  destruct (fetch_outcome rid (env i)) as [res|] eqn:Hfetch.
  2:{ simpl. apply Hrest; auto. intros r Hr. apply Hnew, elem_of_cons. auto. }
  apply fetch_outcome_room_id in Hfetch as Hid. subst rid.
  pose proof (process_result_handled (env i) res self) as Hh.
  destruct (process_result (env i) (Some res) self) as [o s1].
  inversion Hh; subst; simpl; try congruence.
  - split; [done|]. auto.
  - apply Hrest; auto. intros r Hr. apply Hnew, elem_of_cons. auto.
  - apply Hrest; [done| |].
    + simpl. intros r rs Hr.
      destruct (decide (r = Result.room_id res)) as [->|Hne].
      * rewrite lookup_insert_eq in Hr. injection Hr as <-. by right.
      * rewrite lookup_insert_ne in Hr by done. by left.
    + simpl. intros r Hr. rewrite lookup_insert_ne.
      * apply Hnew, elem_of_cons. auto.
      * intros Heq. subst r. by apply Hout.
Qed.

(** X11.  Start-up is silent.  With an empty record table and no room id
    listed twice, the first turn of the monitor loop queues nothing, whatever
    the rooms' statuses are; every record it creates has no start time, so a
    room found live at start-up will later be announced as ended without a
    duration. *)
Theorem X11_first_turn_is_silent (env : nat -> room_io) (self : plugin) :
  NoDup (room_ids self) ->
  room_status self = ∅ ->
  let after := (monitor_iteration env self).2 in
  pending_notifications after = pending_notifications self ∧
  ∀ room_id rs,
    room_status after !! room_id = Some rs ->
    room_id ∈ room_ids self ∧ RoomStatus.live_start_time rs = None.
Proof.
  intros Hnodup Hempty after. subst after.
  destruct (monitor_iteration_tables env self) as (_ & _ & -> & ->).
  destruct (monitor_cycle_run env self) as [entries ->].
  destruct (process_fetched_baselines env 0%nat (room_ids self)
              (add_log entries self) Hnodup) as [Hp Hs].
  { intros r _. simpl. by rewrite Hempty, lookup_empty. }
  split; [exact Hp|].
  intros r rs Hr. destruct (Hs r rs Hr) as [Hold|?]; [|done].
  simpl in Hold. by rewrite Hempty, lookup_empty in Hold.
Qed.

Lemma X11_witness :
  pending_notifications (monitor_iteration Sample.all_live Sample.fresh).2 = ∅.
Proof.
  refine (proj1 (X11_first_turn_is_silent Sample.all_live Sample.fresh _ eq_refl)).
  unfold room_ids. simpl. apply NoDup_cons. split.
  - intros H. apply elem_of_cons in H as [H|H]; [discriminate|].
    by apply elem_of_nil in H.
  - apply NoDup_singleton.
Defined.

Lemma filter_eq_nonempty (k : pyval) (l : list pyval) :
  k ∈ l -> (1 <= length (filter (λ x, x = k) l))%nat.
Proof.
  induction l as [|x l IH]; intros Hin.
  - by apply elem_of_nil in Hin.
  - destruct (decide (x = k)) as [->|Hne].
    + rewrite filter_cons_True by done. simpl. lia.
    + rewrite filter_cons_False by done.
      apply elem_of_cons in Hin as [?|?]; [congruence | auto].
Qed.

(** X12.  A notification queued while the allow-list holds the string [g]
    reaches group [g] with the next event from it that the handler completes,
    whatever its text: the handler yields the replies to the command, if the
    text is one, then the messages queued before, then the new one, and
    leaves the queue empty.  The new message comes once per occurrence of [g]
    in the allow-list, so an id listed twice is notified twice.  An event whose
    handling raises delivers nothing and leaves the queue as it is, for the
    event after it. *)
Theorem X12_notification_round_trip
    (self : plugin) (message g text : string) (io : chat_io) :
  g ≠ EmptyString ->
  PStr g ∈ white_list_groups self ->
  let queued := (notify_groups message self).2 in
  let copies := occurrences (PStr g) (white_list_groups self) in
  let waiting := queue_of self (PStr g) ++ replicate copies message in
  let r := on_group_message (Event.mk (PStr g) text) io queued in
  (1 <= copies)%nat ∧
  pending_notifications queued !! PStr g = Some waiting ∧
  (∀ outputs after,
     r = (Return outputs, after) ->
     ∃ replies,
       (command_replies (py_lower (py_strip text)) io queued).1 = Return replies ∧
       outputs = replies ++ waiting ∧
       pending_notifications after !! PStr g = Some []) ∧
  (no_command (py_lower (py_strip text)) ->
     r = (Return waiting, flushed (PStr g) queued)) ∧
  (∀ e after,
     r = (Raise e, after) ->
     pending_notifications after !! PStr g = Some waiting).
Proof.
  intros Hg Hin queued copies waiting r.
  assert ((1 <= copies)%nat) as Hcopies by (by apply filter_eq_nonempty).
  assert (pending_notifications queued !! PStr g = Some waiting) as Hwaiting.
  { unfold queued. rewrite notify_groups_run. simpl.
    by rewrite push_all_lookup. }
  assert (is_group_in_white_list queued (PStr g) = true) as Hallowed.
  { unfold queued. rewrite notify_groups_run.
    unfold is_group_in_white_list. simpl.
    rewrite (bool_decide_eq_false_2 (g = EmptyString)) by done. simpl.
    apply bool_decide_eq_true_2.
    by apply (list_elem_of_fmap_2 py_str) in Hin. }
  assert (waiting ≠ []) as Hsome.
  { unfold waiting. destruct copies; [lia|].
    intros Hnil. apply (f_equal length) in Hnil.
    rewrite length_app in Hnil. simpl in Hnil. lia. }
  assert (∀ entries, queue_of (add_log entries queued) (PStr g) = waiting)
    as Hqueue.
  { intros entries. unfold queue_of. simpl.
    change (pending_notifications (add_log entries queued))
      with (pending_notifications queued).
    by rewrite Hwaiting. }
  split; [exact Hcopies|]. split; [exact Hwaiting|].
  subst r. rewrite on_group_message_allowed by done. cbn [Event.message_str].
  destruct (command_replies_state (py_lower (py_strip text)) io queued)
    as [entries Hstate].
  split; [|split].
  - intros outputs after Hrun.
    destruct (command_replies (py_lower (py_strip text)) io queued)
      as [[replies|e] s1]; [|discriminate Hrun].
    simpl in Hstate. subst s1. cbn [Event.group_id] in Hrun.
    rewrite Hqueue in Hrun. injection Hrun as <- <-.
    exists replies. split; [done|]. split; [done|].
    unfold flushed. rewrite Hqueue.
    destruct waiting as [|m l]; [done|]. simpl. apply lookup_insert_eq.
  - intros Hno. rewrite command_replies_none by done. cbn [Event.group_id].
    pose proof (Hqueue []) as Hq. rewrite add_log_nil in Hq. by rewrite Hq.
  - intros e after Hrun.
    destruct (command_replies (py_lower (py_strip text)) io queued)
      as [[replies|e'] s1]; [discriminate Hrun|].
    simpl in Hstate. subst s1. injection Hrun as _ <-.
    exact Hwaiting.
Qed.

Lemma X12_witness :
  let twice :=
    Plugin [Sample.foo] [PStr "7"; PStr "8"; PStr "7"] ∅ ∅ [] in
  (on_group_message (Event.mk (PStr "7") "hi") SampleChat.quiet
                    (notify_groups "on air" twice).2).1 =
  Return ["on air"; "on air"].
Proof.
  intros twice.
  assert (no_command (py_lower (py_strip "hi"))) as Hno
    by (split; vm_compute; [discriminate | reflexivity]).
  assert (PStr "7" ∈ white_list_groups twice) as Hin
    by (apply elem_of_cons; by left).
  destruct (X12_notification_round_trip twice "on air" "7" "hi"
              SampleChat.quiet ltac:(discriminate) Hin)
    as (_ & _ & _ & Hrun & _).
  rewrite (Hrun Hno). vm_compute. reflexivity.
Defined.

(** X13.  The single-room report is built from the fresh status reply, not
    from the recorded status.  For a configured room whose reply carries a
    status other than 1 it is exactly the id, anchor, [未开播], last-check and
    link lines; no anchor-info request is sent and nothing changes, whatever
    the record of the room says. *)
Theorem X13_report_of_a_room_off_air
    (value : string) (io : room_io) (self : plugin)
    (room_config : RoomConfig.t) (d : Payload.t) (status : Z) :
  find_room_config self (PStr value) = Some room_config ->
  status_reply io = HttpJson (Some 0) (Some d) ->
  Payload.live_status d = Some status ->
  status ≠ 1 ->
  room_report value io self =
  (Return
     (("直播间ID: " +:+ value +:+ LF +:+
       "主播: " +:+ config_anchor_name room_config (PStr value) +:+ LF +:+
       "状态: " +:+ "未开播" +:+ LF) +:+
      "最后检查: " +:+ strftime (fetched_at io) +:+ LF +:+
      "直播间链接: https://live.bilibili.com/" +:+ value),
   self).
Proof.
  intros Hcfg Hreply Hstatus Hoff.
  by apply (room_report_off_air value io self room_config d status).
Qed.

Lemma X13_witness :
  room_report "123" (Sample.all_ended 0%nat) SampleLive.on_air =
  (Return
     ("直播间ID: 123" +:+ LF +:+ "主播: 主播123" +:+ LF +:+ "状态: 未开播" +:+ LF +:+
      "最后检查: 2023-11-14 23:36:20" +:+ LF +:+
      "直播间链接: https://live.bilibili.com/123"),
   SampleLive.on_air).
Proof.
  assert (find_room_config SampleLive.on_air (PStr "123") =
          Some (RoomConfig.mk (PStr "123") (Some "主播123")))
    as Hcfg by (vm_compute; reflexivity).
  rewrite (X13_report_of_a_room_off_air "123" (Sample.all_ended 0%nat)
             SampleLive.on_air _ (Payload.mk (Some 0) None) 0
             Hcfg eq_refl eq_refl ltac:(discriminate)).
  vm_compute. reflexivity.
Defined.

Lemma monitor_iteration_idle env self :
  monitor_list self = [] -> monitor_iteration env self = (Return tt, self).
Proof.
  intros Hnone. rewrite monitor_iteration_run.
  unfold monitor_cycle. rewrite bind_run. simpl. by rewrite Hnone.
Qed.

(** X14.  A new instance starts with empty tables.  When the configuration
    names no room, the monitor loop does nothing at all, turn after turn: no
    request, no log line, no change.  When it names no group, the only group
    allowed is 1044727986, as a string or as a number. *)
Theorem X14_defaults (c : config) :
  room_status (init c) = ∅ ∧ pending_notifications (init c) = ∅ ∧
  (default [] (cfg_monitor_list c) = [] ->
   ∀ cycles, monitor_task cycles (init c) = (Return tt, init c)) ∧
  (cfg_white_list_groups c = None ->
   ∀ group_id,
     is_group_in_white_list (init c) group_id = true <->
     py_str group_id = "1044727986").
Proof.
  split; [done|]. split; [done|]. split.
  - intros Hnone cycles.
    change (monitor_task cycles (init c)) with (monitor_loop cycles (init c)).
    induction cycles as [|env cycles IH]; [done|].
    simpl. rewrite bind_run, monitor_iteration_idle by done. exact IH.
  - intros Hnone group_id. unfold is_group_in_white_list, init. simpl.
    rewrite Hnone. simpl.
    assert (py_str group_id = "1044727986" -> py_truthy group_id = true)
      as Htruthy.
    { destruct group_id as [|s|z]; simpl; [done| |].
      - intros ->. done.
      - intros Hz. change "1044727986" with (pretty 1044727986) in Hz.
        apply (inj pretty) in Hz. by subst z. }
    split.
    + destruct (py_truthy group_id); simpl; [|done].
      intros H. apply bool_decide_eq_true_1 in H.
      apply elem_of_cons in H as [H|H]; [done|]. by apply elem_of_nil in H.
    + intros Heq. rewrite (Htruthy Heq). simpl.
      apply bool_decide_eq_true_2. rewrite Heq. apply elem_of_cons. by left.
Qed.

Lemma X14_witness :
  monitor_task [Sample.all_live; Sample.all_ended] (init (Config None None)) =
  (Return tt, init (Config None None)).
Proof.
  destruct (X14_defaults (Config None None)) as (_ & _ & Hidle & _).
  exact (Hidle eq_refl [Sample.all_live; Sample.all_ended]).
Defined.

Lemma X1_witness :
  is_group_in_white_list (Plugin [] [PInt 5] ∅ ∅ []) (PStr (pretty 5)) = true.
Proof.
  destruct (X1_allow_list_test (Plugin [] [PInt 5] ∅ ∅ []) PNone)
    as (_ & Hswap & _).
  apply (Hswap 5 ltac:(discriminate)).
  apply elem_of_cons. by left.
Defined.
